(** * ar-engine: marker generation servers and the in-browser AR client

    Shallow embedding of the JavaScript sources:
    - [RealPatt]  : server.js with [generateRealPattFile] (nearest-neighbour
                    16x16 sampling, plain JPEG target);
    - [DemoPatt]  : server.js with disk storage, bordered target and the
                    random demo pattern [generateSimplePattern];
    - [Bordered]  : server.js with memory storage, bordered target and
                    [generatePattFile] sampling the image;
    - [Mind]      : server.js compiling a .mind target with a fallback;
    - [Client]    : the browser script (start button handler).

    Strings are byte strings ([string]); a [Buffer] is a [list byte];
    the file system is a finite map from paths to contents. *)

From Stdlib Require Import ZArith NArith String Ascii DecimalString.
From Stdlib.Strings Require Import Byte.
From stdpp Require Import base option list strings gmap.

Open Scope string_scope.
Open Scope nat_scope.

(** ** JavaScript values and string primitives *)

(** A Node [Buffer] / [Uint8Array]: every element is a byte. *)
Definition Buffer := list byte.

(** [buf[i]]: [None] stands for JavaScript's [undefined] (index out of range). *)
Definition buffer_get (data : Buffer) (i : nat) : option byte := data !! i.

(** [value.toString()] for a number that is a non-negative integer:
    decimal digits, no leading zeros, ["0"] for zero. *)
Definition toString (value : N) : string :=
  NilZero.string_of_uint (N.to_uint value).

Fixpoint repeat_char (c : ascii) (n : nat) : string :=
  match n with
  | O => EmptyString
  | S n' => String c (repeat_char c n')
  end.

(** [s.padStart(targetLength, c)] for a one-character pad string. *)
Definition padStart (targetLength : nat) (c : ascii) (s : string) : string :=
  repeat_char c (targetLength - String.length s) ++ s.

(** The line feed character and the string ['\n']. *)
Definition LF : ascii := ascii_of_nat 10.
Definition newline : string := String LF EmptyString.

(** [row.join(sep)]. *)
Definition join (sep : string) (row : list string) : string :=
  String.concat sep row.

(** [for (let i = lo; i < hi; i++) body], threading the variables the body
    assigns, in the monad [M] of the effects of the body ([option] when the
    only effect is an exception escaping the loop). *)
Fixpoint for_loop {M : Type → Type} `{MBind M, MRet M} {St : Type}
    (n i : nat) (body : nat → St → M St) (s : St) : M St :=
  match n with
  | O => mret s
  | S n' => s' ← body i s; for_loop n' (S i) body s'
  end.

Definition for_range {M : Type → Type} `{MBind M, MRet M} {St : Type}
    (lo hi : nat) (body : nat → St → M St) (s : St) : M St :=
  for_loop (hi - lo) lo body s.

(** ** The pattern serializer

    The loop nest shared by [generateRealPattFile] (part_000, lines 115-131)
    and [generatePattFile] (part_001, lines 174-188).  [value.toString()]
    on [undefined] throws a TypeError, which is the [None] outcome. *)

Definition pixelIndex (channels y x : nat) : nat := (y * 16 + x) * channels.

(** [value.toString().padStart(3, ' ')], and the same for a byte of a
    buffer. *)
Definition pattern_field (value : N) : string :=
  padStart 3 " " (toString value).

Definition byte_field (value : byte) : string :=
  pattern_field (Byte.to_N value).

Definition pattern_row_loop (data : Buffer) (channels channel y : nat)
    : option (list string) :=
  for_range 0 16 (fun x row =>
    value ← buffer_get data (pixelIndex channels y x + channel);
    Some (row ++ [padStart 3 " " (toString (Byte.to_N value))])%list) [].

Definition pattern_channel_loop (data : Buffer) (channels channel : nat)
    (pattern : string) : option string :=
  for_range 0 16 (fun y pattern =>
    row ← pattern_row_loop data channels channel y;
    Some (pattern ++ (join " " row ++ newline))) pattern.

Definition pattern_text (data : Buffer) (channels : nat) : option string :=
  for_range 0 3 (fun channel pattern =>
    pattern ← pattern_channel_loop data channels channel pattern;
    Some (if (channel <? 2)%nat then pattern ++ newline else pattern)) "".

(** ** The pattern as a grid, and the text format

    [PatternGrid]: channels, then rows, then the values of a row.  These
    definitions describe the artifact; the serializer above is compared
    with them. *)

Abbreviation PatternGrid := (list (list (list byte))).

Definition sample (data : Buffer) (channels channel y x : nat) : option byte :=
  buffer_get data (pixelIndex channels y x + channel).

Definition grid_row (data : Buffer) (channels channel y : nat)
    : option (list byte) :=
  mapM (sample data channels channel y) (seq 0 16).

Definition grid_channel (data : Buffer) (channels channel : nat)
    : option (list (list byte)) :=
  mapM (grid_row data channels channel) (seq 0 16).

Definition pattern_grid (data : Buffer) (channels : nat) : option PatternGrid :=
  mapM (grid_channel data channels) (seq 0 3).

Definition render_row (values : list byte) : string :=
  join " " (byte_field <$> values) ++ newline.

Definition render_block (rows : list (list byte)) : string :=
  String.concat "" (render_row <$> rows).

Definition render_grid (g : PatternGrid) : string :=
  join newline (render_block <$> g).

(** [s.split(c)] for a separator given as a character class: the pieces
    between separators, the last one being what follows the last separator. *)
Fixpoint split_on (sep : ascii → bool) (s : string) : list string :=
  match s with
  | EmptyString => [EmptyString]
  | String c s' =>
      if sep c then EmptyString :: split_on sep s'
      else match split_on sep s' with
           | piece :: rest => String c piece :: rest
           | [] => [String c EmptyString]
           end
  end.

Definition is_newline (c : ascii) : bool := Ascii.eqb c LF.

Definition is_whitespace (c : ascii) : bool :=
  Ascii.eqb c " " || Ascii.eqb c (ascii_of_nat 9) || Ascii.eqb c LF
  || Ascii.eqb c (ascii_of_nat 13).

Fixpoint string_forallb (p : ascii → bool) (s : string) : bool :=
  match s with
  | EmptyString => true
  | String c s' => p c && string_forallb p s'
  end.

(** A line is blank when [line.trim() === '']. *)
Definition is_blank (line : string) : bool := string_forallb is_whitespace line.

Definition is_digit (c : ascii) : bool :=
  (48 <=? nat_of_ascii c)%nat && (nat_of_ascii c <=? 57)%nat.

(** A field of the artifact: three characters, spaces then digits. *)
Definition is_field (f : string) : Prop :=
  String.length f = 3 ∧ ∃ value : byte, f = byte_field value.

(** A data row: sixteen fields joined by single spaces. *)
Definition is_data_row (line : string) : Prop :=
  ∃ fields : list string,
    length fields = 16 ∧ Forall is_field fields ∧ line = join " " fields.

(** [text.split('\n')]; the newline-terminated lines are all pieces but
    the last, which is what follows the last newline. *)
Definition lines (text : string) : list string := split_on is_newline text.
Definition terminated_lines (text : string) : list string :=
  removelast (lines text).
Definition unterminated_tail (text : string) : string :=
  List.last (lines text) "".

(** The characters of a data row. *)
Definition is_row_char (c : ascii) : bool := is_digit c || Ascii.eqb c " ".

(** The line of a row of values, without its newline. *)
Definition row_line (values : list byte) : string :=
  join " " (byte_field <$> values).

(** ** Effects: exceptions, console, file system, external libraries

    A handler runs in a [World]: the files written so far and the ordered
    trace of what it did.  What the external libraries (sharp, fs, mind-ar)
    answer is given by an [Env]; their calls are recorded in the trace. *)

Inductive JsError := MkError (message : string).

Definition message (e : JsError) : string := let 'MkError m := e in m.

Inductive Outcome (A : Type) :=
  | Return (a : A)
  | Throw (e : JsError).
Arguments Return {A} a.
Arguments Throw {A} e.

Inductive Fit := cover | inside | fill.
Inductive Kernel := nearest | cubic | mitchell | lanczos2 | lanczos3.

(** The options object passed to [resize]; a key that is not written in the
    source is [None]. *)
Record ResizeOptions := {
  fit : option Fit;
  kernel : option Kernel;
  withoutEnlargement : option bool
}.

(** How a sharp pipeline ends: [.jpeg({quality}).toBuffer()], [.toBuffer()]
    or [.raw().toBuffer({resolveWithObject: true})]. *)
Inductive SharpOutput := ToJpeg (quality : nat) | ToBuffer | ToRaw.

(** [sharp(input).resize(width, height, options)] followed by its output. *)
Record SharpCall := {
  resize_width : nat;
  resize_height : nat;
  resize_options : ResizeOptions;
  output : SharpOutput
}.

(** The [info] object resolved with a raw buffer. *)
Record Info := { info_width : nat; info_height : nat; info_channels : nat }.

(** An axis-aligned filled rectangle of an SVG document, and the document. *)
Record Rect := {
  rect_x : nat; rect_y : nat; rect_width : nat; rect_height : nat;
  rect_fill : string
}.
Record Svg := { svg_width : nat; svg_height : nat; svg_rects : list Rect }.

Inductive LayerInput := SvgInput (svg : Svg) | ImageInput (image : Buffer).

(** One element of the array given to [composite]. *)
Record Layer := { input : LayerInput; top : nat; left : nat }.

(** [sharp({create: {width, height, channels, background}})]. *)
Record Create := {
  create_width : nat; create_height : nat; create_channels : nat;
  background : nat * nat * nat * nat
}.

Inductive LogArg :=
  | LStr (s : string)
  | LErr (e : JsError)
  | LInfo (info : Info).

Inductive Event :=
  | ConsoleLog (args : list LogArg)
  | ConsoleError (args : list LogArg)
  | SharpDecode (call : SharpCall) (image : Buffer)
  | SharpComposite (create : Create) (layers : list Layer)
  | MindarLoad (image : Buffer)
  | MindarCompile (image : Buffer)
  | WriteFile (path : string).

Record World := {
  files : gmap string string;
  trace : list Event;
  (** how many times [Math.random()] has been called *)
  random_calls : nat
}.

Record Env := {
  (** decode [image], resize, encode: the output bytes and their [info] *)
  sharp_run : SharpCall → Buffer → Outcome (Buffer * Info);
  (** [sharp({create}).composite(layers).png()] *)
  sharp_composite : Create → list Layer → Outcome Buffer;
  (** the width and height of the image that the bytes decode to *)
  image_size : Buffer → option (nat * nat);
  (** whether [fs.writeFile(path, ..)] succeeds *)
  disk_ok : string → bool;
  (** [require('mind-ar/...')], [loadImage], canvas and [getImageData] *)
  mindar_load : Buffer → Outcome Buffer;
  (** [new Compiler().compileImageTargets(..)] and [exportData()]: the
      progress values reported, then the result *)
  mindar_compile : Buffer → list nat * Outcome Buffer;
  (** the successive results of [Math.random()]: the n-th call returns
      [random_source n mod 2^53 / 2^53], a double in [0,1) *)
  random_source : nat → N;
  (** [process.env.RAILWAY_PUBLIC_DOMAIN] and the port *)
  RAILWAY_PUBLIC_DOMAIN : option string;
  PORT : string
}.

(** Code with effects on a state [St] that may throw. *)
Definition JsM (St A : Type) : Type := St → Outcome A * St.

#[global] Instance JsM_ret {St : Type} : MRet (JsM St) :=
  fun A a w => (Return a, w).

#[global] Instance JsM_bind {St : Type} : MBind (JsM St) := fun A B f m w =>
  match m w with
  | (Return a, w') => f a w'
  | (Throw e, w') => (Throw e, w')
  end.

Definition throw {St A : Type} (e : JsError) : JsM St A :=
  fun w => (Throw e, w).

(** [try { body } catch (error) { handler }]. *)
Definition try_catch {St A : Type} (body : JsM St A)
    (handler : JsError → JsM St A) : JsM St A :=
  fun w =>
    match body w with
    | (Return a, w') => (Return a, w')
    | (Throw e, w') => handler e w'
    end.

(** An awaited external call whose result is known. *)
Definition await {St A : Type} (r : Outcome A) : JsM St A := fun w => (r, w).

(** Server code runs on a [World]. *)
Definition Js : Type → Type := JsM World.

Definition emit (ev : Event) : Js unit :=
  fun w => (Return tt, {| files := files w; trace := trace w ++ [ev];
                          random_calls := random_calls w |}).

Definition console_log (args : list LogArg) : Js unit := emit (ConsoleLog args).
Definition console_error (args : list LogArg) : Js unit :=
  emit (ConsoleError args).

(** [await fs.writeFile(path, content)]. *)
Definition writeFile (env : Env) (path content : string) : Js unit :=
  if disk_ok env path then
    fun w => (Return tt, {| files := <[path := content]> (files w);
                            trace := trace w ++ [WriteFile path];
                            random_calls := random_calls w |})
  else throw (MkError ("EACCES: " ++ path)).

(** [Math.floor(Math.random() * n)] for [n] a power of two up to 2^53: with
    [Math.random()] equal to [k / 2^53], the product and the floor are exact. *)
Definition Math_floor_random_times (env : Env) (n : N) : Js N :=
  fun w =>
    let k := (random_source env (random_calls w) mod 2 ^ 53)%N in
    (Return (k * n / 2 ^ 53)%N,
     {| files := files w; trace := trace w;
        random_calls := S (random_calls w) |}).

(** The bytes of a buffer as file contents, and [Buffer.from(string)]. *)
Definition buffer_contents (b : Buffer) : string := string_of_list_byte b.
Definition Buffer_from (s : string) : Buffer := list_byte_of_string s.

(** [await sharp(image).resize(..)...]. *)
Definition sharp (env : Env) (call : SharpCall) (image : Buffer)
    : Js (Buffer * Info) :=
  emit (SharpDecode call image);; await (sharp_run env call image).

(** ** HTTP: uploads, responses, the upload middleware *)

Inductive Json := JStr (s : string) | JBool (b : bool).

(** A response body: a JSON object, or the error page of express's
    default error handler. *)
Inductive Body := JsonBody (fields : list (string * Json)) | ErrorPage (e : JsError).

Record Response := { status : nat; body : Body }.

(** [res.json(fields)] and [res.status(code).json(fields)]. *)
Definition res_json (fields : list (string * Json)) : Response :=
  {| status := 200; body := JsonBody fields |}.
Definition res_status_json (code : nat) (fields : list (string * Json))
    : Response :=
  {| status := code; body := JsonBody fields |}.

(** The file part of a multipart request as multer sees it. *)
Record File := {
  originalname : string;
  mimetype : string;
  buffer : Buffer
}.

Definition baseUrl (env : Env) : string :=
  match RAILWAY_PUBLIC_DOMAIN env with
  | Some domain => "https://" ++ domain
  | None => "http://localhost:" ++ PORT env
  end.

(** ** The upload filter

    [path.extname], [toLowerCase] and [RegExp.prototype.test] are modelled
    on byte strings, for the pattern [/jpeg|jpg|png/]: an alternation of
    literals, searched anywhere in the subject. *)

Fixpoint contains (needle subject : string) : bool :=
  String.prefix needle subject
  || match subject with
     | EmptyString => false
     | String _ subject' => contains needle subject'
     end.

(** [regex.test(subject)] for a regex that is an alternation of literals. *)
Definition regex_test (alternatives : list string) (subject : string) : bool :=
  existsb (fun literal => contains literal subject) alternatives.

Definition allowedTypes : list string := ["jpeg"; "jpg"; "png"].

Definition lower_char (c : ascii) : ascii :=
  let n := nat_of_ascii c in
  if (65 <=? n) && (n <=? 90) then ascii_of_nat (n + 32) else c.

Fixpoint toLowerCase (s : string) : string :=
  match s with
  | EmptyString => EmptyString
  | String c s' => String (lower_char c) (toLowerCase s')
  end.

(** The index of the last ["."] of [s], if any. *)
Fixpoint last_dot (s : string) : option nat :=
  match s with
  | EmptyString => None
  | String c s' =>
      match last_dot s' with
      | Some i => Some (S i)
      | None => if Ascii.eqb c "." then Some 0 else None
      end
  end.

Fixpoint string_drop (n : nat) (s : string) : string :=
  match n, s with
  | O, _ => s
  | S n', String _ s' => string_drop n' s'
  | S _, EmptyString => EmptyString
  end.

(** [path.extname(name)] for a name without directory separators: from the
    last dot to the end; empty when there is no dot, when the only dot is
    the first character, and for [".."]. *)
Definition path_extname (name : string) : string :=
  match last_dot name with
  | None => ""
  | Some 0 => ""
  | Some i => if String.eqb name ".." then "" else string_drop i name
  end.

(** The [fileFilter] of part_000 (lines 20-26 and 192-201) and part_001
    (lines 28-37): [cb(null, true)] is [Return true], [cb(new Error(..))] is
    [Throw]. *)
Definition fileFilter (file : File) : Outcome bool :=
  let extname :=
    regex_test allowedTypes (toLowerCase (path_extname (originalname file))) in
  let mimetype := regex_test allowedTypes (mimetype file) in
  if mimetype && extname then Return true
  else Throw (MkError "이미지 파일만 업로드 가능합니다.").

Definition fileSize_limit : N := 10 * 1024 * 1024.

(** [upload.single('image')]: [req.file] for the file part of the request,
    if any.  Without a [fileFilter] every file is accepted. *)
Definition upload_single (filter : option (File → Outcome bool))
    (part : option File) : Outcome (option File) :=
  match part with
  | None => Return None
  | Some file =>
      match match filter with
            | Some f => f file
            | None => Return true
            end with
      | Throw e => Throw e
      | Return false => Return None
      | Return true =>
          if (N.of_nat (length (buffer file)) <=? fileSize_limit)%N
          then Return (Some file)
          else Throw (MkError "File too large")
      end
  end.

(** [app.post(path, upload.single('image'), handler)] followed by the
    error-handling middleware: the handler runs only when the upload
    middleware does not fail. *)
Definition route (filter : option (File → Outcome bool))
    (handler : option File → Js Response)
    (error_middleware : JsError → Js Response)
    (part : option File) : Js Response :=
  match upload_single filter part with
  | Return file => handler file
  | Throw e => error_middleware e
  end.

(** [app.use((error, req, res, next) => ...)] of part_000 and part_001. *)
Definition error_middleware (error : JsError) : Js Response :=
  console_error [LStr "서버 오류:"; LErr error];;
  mret (res_status_json 500
          [("error", JStr "서버 오류가 발생했습니다.");
           ("details", JStr (message error))]).

(** express's default error handler, used when the application installs
    none (the second server of app.js). *)
Definition default_error_handler (error : JsError) : Js Response :=
  mret {| status := 500; body := ErrorPage error |}.

(** The [catch] block shared by all [/api/generate-marker] handlers. *)
Definition marker_error (label : string) (error : JsError) : Js Response :=
  console_error [LStr label; LErr error];;
  mret (res_status_json 500
          [("error", JStr "마커 생성 중 오류가 발생했습니다.");
           ("details", JStr (message error))]).

Definition no_file_response : Response :=
  res_status_json 400 [("error", JStr "이미지가 업로드되지 않았습니다.")].

(** [value.toString()] on [undefined]. *)
Definition undefined_toString : JsError :=
  MkError "Cannot read properties of undefined (reading 'toString')".

Definition pattern_or_throw (data : Buffer) (channels : nat) : Js string :=
  match pattern_text data channels with
  | Some pattern => mret pattern
  | None => throw undefined_toString
  end.

(** ** part_000, first server: [generateRealPattFile] *)

Module RealPatt.

Definition working_resize : SharpCall :=
  {| resize_width := 512; resize_height := 512;
     resize_options := {| fit := Some cover; kernel := None;
                          withoutEnlargement := None |};
     output := ToJpeg 95 |}.

Definition pattern_resize : SharpCall :=
  {| resize_width := 16; resize_height := 16;
     resize_options := {| fit := Some fill; kernel := Some nearest;
                          withoutEnlargement := None |};
     output := ToRaw |}.

Definition generateRealPattFile (env : Env) (imageBuffer : Buffer)
    (outputPath : string) : Js unit :=
  try_catch
    ('(data, info) ← sharp env pattern_resize imageBuffer;
     console_log [LStr "이미지 데이터 추출:"; LInfo info];;
     pattern ← pattern_or_throw data (info_channels info);
     writeFile env outputPath pattern;;
     console_log [LStr ".patt 파일 생성 완료"])
    (fun error =>
       console_error [LStr ".patt 생성 오류:"; LErr error];;
       throw error).

(** The handler of [POST /api/generate-marker]; [filename] is the value
    of [Date.now() + '-' + Math.round(Math.random() * 1E9)]. *)
Definition generate_marker (env : Env) (filename : string)
    (file : option File) : Js Response :=
  try_catch
    (match file with
     | None => mret no_file_response
     | Some file =>
         console_log [LStr "이미지 처리 시작:"; LStr filename];;
         '(resizedBuffer, _) ← sharp env working_resize (buffer file);
         console_log [LStr "이미지 리사이즈 완료"];;
         let markerPath := "./public/markers/" ++ filename ++ ".patt" in
         generateRealPattFile env resizedBuffer markerPath;;
         console_log [LStr "마커 파일 생성 완료"];;
         let targetPath := "./public/targets/" ++ filename ++ ".jpg" in
         writeFile env targetPath (buffer_contents resizedBuffer);;
         console_log [LStr "타겟 이미지 저장 완료"];;
         mret (res_json
                 [("success", JBool true);
                  ("markerUrl",
                   JStr (baseUrl env ++ "/markers/" ++ filename ++ ".patt"));
                  ("targetImageUrl",
                   JStr (baseUrl env ++ "/targets/" ++ filename ++ ".jpg"));
                  ("message", JStr "마커가 성공적으로 생성되었습니다.")])
     end)
    (marker_error "마커 생성 오류:").

Definition post_generate_marker (env : Env) (filename : string)
    (part : option File) : Js Response :=
  route (Some fileFilter) (generate_marker env filename) error_middleware
    part.

End RealPatt.

(** ** The bordered target image (part_000 lines 279-318, part_001 lines
    123-163) *)

Definition borderSize : nat := 50.
Definition imageSize : nat := 412.

Definition target_resize : SharpCall :=
  {| resize_width := imageSize; resize_height := imageSize;
     resize_options := {| fit := Some cover; kernel := None;
                          withoutEnlargement := None |};
     output := ToBuffer |}.

Definition svgBorder : Svg :=
  {| svg_width := 512; svg_height := 512;
     svg_rects :=
       [ {| rect_x := 0; rect_y := 0; rect_width := 512; rect_height := 512;
            rect_fill := "black" |};
         {| rect_x := 40; rect_y := 40; rect_width := 432; rect_height := 432;
            rect_fill := "white" |} ] |}.

Definition target_canvas : Create :=
  {| create_width := 512; create_height := 512; create_channels := 4;
     background := (255, 255, 255, 1) |}.

Definition target_layers (resizedImage : Buffer) : list Layer :=
  [ {| input := SvgInput svgBorder; top := 0; left := 0 |};
    {| input := ImageInput resizedImage; top := borderSize;
       left := borderSize |} ].

Definition createTargetImage (env : Env) (imageBuffer : Buffer)
    (outputPath : string) : Js unit :=
  '(resizedImage, _) ← sharp env target_resize imageBuffer;
  emit (SharpComposite target_canvas (target_layers resizedImage));;
  png ← await (sharp_composite env target_canvas (target_layers resizedImage));
  writeFile env outputPath (buffer_contents png).

(** ** part_000, second server: the demo pattern *)

Module DemoPatt.

(** [generateSimplePattern()]: every value is
    [Math.floor(Math.random() * 256)]. *)
Definition generateSimplePattern (env : Env) : Js string :=
  for_range 0 3 (fun i pattern =>
    pattern ← for_range 0 16 (fun y pattern =>
      row ← for_range 0 16 (fun x row =>
        value ← Math_floor_random_times env 256;
        mret (row ++ [padStart 3 " " (toString value)])%list) [];
      mret (pattern ++ (join " " row ++ newline))) pattern;
    mret (if i <? 2 then pattern ++ newline else pattern)) "".

(** [generatePattFile(imagePath, outputPath)]: the image is not read. *)
Definition generatePattFile (env : Env) (imagePath outputPath : string)
    : Js unit :=
  pattern ← generateSimplePattern env;
  writeFile env outputPath pattern.

End DemoPatt.

(** ** part_001: bordered target and sampled pattern *)

Module Bordered.

Definition working_resize : SharpCall :=
  {| resize_width := 512; resize_height := 512;
     resize_options := {| fit := Some inside; kernel := None;
                          withoutEnlargement := None |};
     output := ToJpeg 90 |}.

Definition pattern_resize : SharpCall :=
  {| resize_width := 16; resize_height := 16;
     resize_options := {| fit := Some fill; kernel := None;
                          withoutEnlargement := None |};
     output := ToRaw |}.

Definition generatePattFile (env : Env) (imageBuffer : Buffer)
    (outputPath : string) : Js unit :=
  '(data, info) ← sharp env pattern_resize imageBuffer;
  pattern ← pattern_or_throw data (info_channels info);
  writeFile env outputPath pattern.

Definition generate_marker (env : Env) (filename : string)
    (file : option File) : Js Response :=
  try_catch
    (match file with
     | None => mret no_file_response
     | Some file =>
         console_log [LStr "이미지 처리 시작:"; LStr filename];;
         '(optimizedBuffer, _) ← sharp env working_resize (buffer file);
         console_log [LStr "이미지 최적화 완료"];;
         let targetPath := "./public/targets/" ++ filename ++ ".png" in
         createTargetImage env optimizedBuffer targetPath;;
         console_log [LStr "타겟 이미지 생성 완료"];;
         let markerPath := "./public/markers/" ++ filename ++ ".patt" in
         generatePattFile env optimizedBuffer markerPath;;
         console_log [LStr "마커 파일 생성 완료"];;
         mret (res_json
                 [("success", JBool true);
                  ("markerUrl",
                   JStr (baseUrl env ++ "/markers/" ++ filename ++ ".patt"));
                  ("targetImageUrl",
                   JStr (baseUrl env ++ "/targets/" ++ filename ++ ".png"));
                  ("message", JStr "마커가 성공적으로 생성되었습니다.")])
     end)
    (marker_error "마커 생성 오류:").

Definition post_generate_marker (env : Env) (filename : string)
    (part : option File) : Js Response :=
  route (Some fileFilter) (generate_marker env filename) error_middleware
    part.

End Bordered.

(** ** app.js, second script: the .mind server *)

Module Mind.

Definition working_resize : SharpCall :=
  {| resize_width := 480; resize_height := 480;
     resize_options := {| fit := Some inside; kernel := None;
                          withoutEnlargement := Some true |};
     output := ToJpeg 90 |}.

Definition progress_line (percent : nat) : LogArg :=
  LStr ("📊 컴파일 진행: " ++ toString (N.of_nat percent) ++ "%").

Fixpoint log_progress (percents : list nat) : Js unit :=
  match percents with
  | [] => mret tt
  | p :: rest => console_log [progress_line p];; log_progress rest
  end.

Definition compileMindARTarget (env : Env) (imageBuffer : Buffer)
    (outputPath : string) : Js unit :=
  try_catch
    (emit (MindarLoad imageBuffer);;
     imageData ← await (mindar_load env imageBuffer);
     console_log [LStr "🔄 MindAR 컴파일 시작..."];;
     emit (MindarCompile imageData);;
     log_progress (fst (mindar_compile env imageData));;
     exportedBuffer ← await (snd (mindar_compile env imageData));
     writeFile env outputPath (buffer_contents exportedBuffer);;
     console_log [LStr "✅ 컴파일 완료, 파일 저장됨"])
    (fun error =>
       console_error [LStr "❌ MindAR 컴파일 오류:"; LErr error];;
       console_log [LStr "⚠️  폴백 모드: 간단한 타겟 생성"];;
       let dummyData := Buffer_from "MINDAR_COMPILED" in
       writeFile env outputPath (buffer_contents dummyData)).

(** [filename] is the decimal text of [Date.now()]. *)
Definition generate_marker (env : Env) (filename : string)
    (file : option File) : Js Response :=
  try_catch
    (match file with
     | None => mret no_file_response
     | Some file =>
         console_log [LStr "🖼️  이미지 처리 시작:"; LStr filename];;
         '(optimizedBuffer, _) ← sharp env working_resize (buffer file);
         console_log [LStr "✅ 이미지 최적화 완료"];;
         let targetPath := "./public/targets/" ++ filename ++ ".jpg" in
         writeFile env targetPath (buffer_contents optimizedBuffer);;
         let compiledPath := "./public/targets/" ++ filename ++ ".mind" in
         compileMindARTarget env optimizedBuffer compiledPath;;
         console_log [LStr "✅ MindAR 컴파일 완료"];;
         mret (res_json
                 [("success", JBool true);
                  ("targetUrl",
                   JStr (baseUrl env ++ "/targets/" ++ filename ++ ".mind"));
                  ("imageUrl",
                   JStr (baseUrl env ++ "/targets/" ++ filename ++ ".jpg"));
                  ("message", JStr "마커가 성공적으로 생성되었습니다.")])
     end)
    (marker_error "❌ 마커 생성 오류:").

(** The upload middleware has limits but no [fileFilter]. *)
Definition post_generate_marker (env : Env) (filename : string)
    (part : option File) : Js Response :=
  route None (generate_marker env filename) default_error_handler part.

End Mind.

(** ** Vocabulary of the statements about the handlers *)

(** The world after one [console.log]. *)
Definition log_event (args : list LogArg) (w : World) : World :=
  {| files := files w; trace := trace w ++ [ConsoleLog args];
     random_calls := random_calls w |}.

(** The success response of the .mind server. *)
Definition mind_success (env : Env) (filename : string) : Response :=
  res_json
    [("success", JBool true);
     ("targetUrl", JStr (baseUrl env ++ "/targets/" ++ filename ++ ".mind"));
     ("imageUrl", JStr (baseUrl env ++ "/targets/" ++ filename ++ ".jpg"));
     ("message", JStr "마커가 성공적으로 생성되었습니다.")].

(** The tracking-compiler step throws: loading the library or the image
    fails, or the compiler itself does. *)
Definition compiler_throws (env : Env) (image : Buffer) (e : JsError) : Prop :=
  mindar_load env image = Throw e
  ∨ ∃ imageData, mindar_load env image = Return imageData
                 ∧ snd (mindar_compile env imageData) = Throw e.

(** An environment in which everything works: sharp answers with the bytes
    it is given, as a 16x16 image of three channels; uploads decode to
    images of 10x10 pixels. *)
Definition sample_env : Env :=
  {| sharp_run := fun call image =>
       Return (image, {| info_width := 16; info_height := 16;
                         info_channels := 3 |});
     sharp_composite := fun _ _ => Return [];
     image_size := fun _ => Some (10, 10);
     disk_ok := fun _ => true;
     mindar_load := fun image => Return image;
     mindar_compile := fun image => ([0; 50; 100], Return image);
     random_source := fun _ => 0%N;
     RAILWAY_PUBLIC_DOMAIN := None;
     PORT := "3000" |}.

(** The same, where the mind-ar module cannot be loaded. *)
Definition missing_mindar_env : Env :=
  {| sharp_run := sharp_run sample_env;
     sharp_composite := sharp_composite sample_env;
     image_size := image_size sample_env;
     disk_ok := disk_ok sample_env;
     mindar_load := fun _ =>
       Throw (MkError "Cannot find module 'mind-ar/src/image-target/compiler.js'");
     mindar_compile := mindar_compile sample_env;
     random_source := random_source sample_env;
     RAILWAY_PUBLIC_DOMAIN := None;
     PORT := "3000" |}.

(** The same as [sample_env], with another source of random numbers. *)
Definition random_env (source : nat → N) : Env :=
  {| sharp_run := sharp_run sample_env;
     sharp_composite := sharp_composite sample_env;
     image_size := image_size sample_env;
     disk_ok := disk_ok sample_env;
     mindar_load := mindar_load sample_env;
     mindar_compile := mindar_compile sample_env;
     random_source := source;
     RAILWAY_PUBLIC_DOMAIN := None;
     PORT := "3000" |}.

(** The layout of a pattern artifact: 50 newline-terminated lines, namely
    16 data rows, a blank line, 16 data rows, a blank line, 16 data rows,
    and nothing after the last newline. *)
Definition pattern_layout (text : string) : Prop :=
  ∃ R G B : list string,
    terminated_lines text = (R ++ [""] ++ G ++ [""] ++ B)%list ∧
    unterminated_tail text = "" ∧
    length R = 16 ∧ length G = 16 ∧ length B = 16 ∧
    Forall is_data_row (R ++ G ++ B)%list ∧
    length (List.filter (fun l => negb (is_blank l)) (terminated_lines text))
      = 48 ∧
    length (List.filter is_blank (terminated_lines text)) = 2.

Definition empty_world : World :=
  {| files := ∅; trace := []; random_calls := 0 |}.

Definition sample_jpeg_upload : File :=
  {| originalname := "photo.jpg"; mimetype := "image/jpeg";
     buffer := replicate 768 "128"%byte |}.

(** ** Reading a pattern artifact back

    The parser of the round-trip property: split the text on newlines, skip
    the blank lines, read each whitespace-separated field as a decimal
    integer, and group the rows by sixteen into channels.  It is not part of
    the servers. *)

Definition words (line : string) : list string :=
  List.filter (fun piece => negb (String.eqb piece ""))
    (split_on is_whitespace line).

Definition parse_decimal (field : string) : option N :=
  N.of_uint <$> NilZero.uint_of_string field.

Definition parse_row (line : string) : option (list N) :=
  mapM parse_decimal (words line).

Definition parse_rows (text : string) : option (list (list N)) :=
  mapM parse_row (List.filter (fun l => negb (is_blank l)) (lines text)).

Fixpoint chunks_aux {A : Type} (fuel n : nat) (l : list A) : list (list A) :=
  match fuel with
  | O => []
  | S fuel' =>
      match l with
      | [] => []
      | _ => take n l :: chunks_aux fuel' n (drop n l)
      end
  end.

Definition chunks {A : Type} (n : nat) (l : list A) : list (list A) :=
  chunks_aux (length l) n l.

Definition parse_pattern (text : string) : option (list (list (list N))) :=
  chunks 16 <$> parse_rows text.

(** The numbers of a grid of bytes. *)
Definition grid_values (grid : PatternGrid) : list (list (list N)) :=
  fmap (M:=list) (fmap (M:=list) (fmap (M:=list) Byte.to_N)) grid.


(** ** Pixels of a composite

    What [sharp({create}).composite(layers)] draws, for layers whose pixels
    are opaque or absent (SVG rectangles with a plain fill, images without
    alpha): the background, then each layer over what is below it, at its
    [left]/[top] offset.  The PNG written by [createTargetImage] is a
    lossless encoding of these pixels. *)













(** The response of the error-handling middleware to the error of
    [fileFilter]. *)
Definition filter_error : JsError := MkError "이미지 파일만 업로드 가능합니다.".

Definition upload_rejected : Response :=
  res_status_json 500
    [("error", JStr "서버 오류가 발생했습니다.");
     ("details", JStr (message filter_error))].

(** An upload that is neither JPEG nor PNG, by name and by declared type. *)
Definition text_upload : File :=
  {| originalname := "notes.txt"; mimetype := "text/plain";
     buffer := Buffer_from "not an image" |}.

(** An upload whose extension and declared type only contain [png]. *)
Definition xpng_upload : File :=
  {| originalname := "archive.xpng"; mimetype := "application/x-png-bundle";
     buffer := Buffer_from "not an image" |}.


(** ** Output size of a resize with fit [inside]

    sharp's computation of the shrink factors for fit [inside] (the larger
    of width/targetWidth and height/targetHeight on both axes, at least 1
    with [withoutEnlargement], at most the source size), in exact
    arithmetic: a factor is a fraction of positive integers, and a
    dimension divided by a factor is rounded to the nearest integer. *)

Definition Factor : Type := Z * Z.

Definition factor_le (a b : Factor) : bool :=
  (fst a * snd b <=? fst b * snd a)%Z.

Definition factor_max (a b : Factor) : Factor := if factor_le a b then b else a.
Definition factor_min (a b : Factor) : Factor := if factor_le a b then a else b.

(** [round(size / factor)]. *)
Definition shrink_by (size : Z) (factor : Factor) : Z :=
  ((2 * size * snd factor + fst factor) / (2 * fst factor))%Z.

Definition inside_size (call : SharpCall) (width height : Z) : Z * Z :=
  let hshrink : Factor := (width, Z.of_nat (resize_width call)) in
  let vshrink : Factor := (height, Z.of_nat (resize_height call)) in
  let shrink := factor_max hshrink vshrink in
  let shrink :=
    if default false (withoutEnlargement (resize_options call))
    then factor_max (1, 1)%Z shrink else shrink in
  (shrink_by width (factor_min shrink (width, 1%Z)),
   shrink_by height (factor_min shrink (height, 1%Z))).


(** ** app.js, first script: the browser client *)

Module Client.

(** A loaded [Image] element. *)
Record Image := { width : nat; height : nat }.

Inductive Screen := UploadScreen | LoadingScreen | ArScreen.

Inductive Event :=
  | Log (args : list string)
  | LogError (label : string) (e : JsError)
  | Alert (text : string)
  | Resize (img : Image) (maxSize : nat)
  | Compile (img : Image)
  | InitScene (data : Buffer).

(** The globals and the parts of the page the handler touches. *)
Record State := {
  selectedFile : option Buffer;
  compiledData : option Buffer;
  screen : Screen;
  loadingText : string;
  loadingProgress : string;
  events : list Event
}.

(** What the browser and the MindAR library answer. *)
Record Browser := {
  (** [loadImage(file)]: the decoded image, or a rejection *)
  loadImage : Buffer → Outcome Image;
  (** whether [window.MINDAR.IMAGE.Compiler] is there *)
  MINDAR_loaded : bool;
  (** [compiler.compileImageTargets([image], cb)]: the percentages that
      the callback computes, then the data *)
  compileImageTargets : Image → list nat * Outcome Buffer;
  (** the 30 second timer of [compileImageTarget]: [Some n] when it fires
      before the compiler has settled, after [n] of the progress reports *)
  compile_timer : Image → option nat;
  (** [initializeARScene(data)], taken as one step *)
  initializeARScene : Buffer → Outcome unit
}.

Definition emit (ev : Event) : JsM State unit :=
  fun s => (Return tt,
            {| selectedFile := selectedFile s;
               compiledData := compiledData s;
               screen := screen s; loadingText := loadingText s;
               loadingProgress := loadingProgress s;
               events := events s ++ [ev] |}).

Definition show (target : Screen) : JsM State unit :=
  fun s => (Return tt,
            {| selectedFile := selectedFile s;
               compiledData := compiledData s;
               screen := target; loadingText := loadingText s;
               loadingProgress := loadingProgress s;
               events := events s |}).

Definition set_loadingText (text : string) : JsM State unit :=
  fun s => (Return tt,
            {| selectedFile := selectedFile s;
               compiledData := compiledData s;
               screen := screen s; loadingText := text;
               loadingProgress := loadingProgress s;
               events := events s |}).

Definition set_loadingProgress (text : string) : JsM State unit :=
  fun s => (Return tt,
            {| selectedFile := selectedFile s;
               compiledData := compiledData s;
               screen := screen s; loadingText := loadingText s;
               loadingProgress := text;
               events := events s |}).

Definition set_compiledData (data : Buffer) : JsM State unit :=
  fun s => (Return tt,
            {| selectedFile := selectedFile s;
               compiledData := Some data;
               screen := screen s; loadingText := loadingText s;
               loadingProgress := loadingProgress s;
               events := events s |}).

Definition too_small : JsError :=
  MkError "이미지가 너무 작습니다. 최소 300x300 픽셀 이상 권장합니다.".

(** [img = await resizeImage(img, 1024)] assigns to a [const]. *)
Definition const_assignment : JsError :=
  MkError "Assignment to constant variable.".

Fixpoint report_progress (percents : list nat) : JsM State unit :=
  match percents with
  | [] => mret tt
  | p :: rest =>
      set_loadingProgress (toString (N.of_nat p) ++ "%");;
      emit (Log ["컴파일 진행:"; toString (N.of_nat p) ++ "%"]);;
      report_progress rest
  end.

Definition compile_timeout : JsError :=
  MkError "컴파일 타임아웃 (30초 초과). 더 간단한 이미지를 시도해보세요.".

(** [compileImageTarget(image)].  The promise is settled by what comes
    first: the 30 second timer, which rejects it with [compile_timeout]
    and passes by the [catch] of the compiling function, or the compiling
    function, which resolves it with the data or rejects it with what it
    caught.  [settled] is [None] when the timer was first; what the
    compiler reports after that is not part of this run. *)
Definition compileImageTarget (b : Browser) (image : Image)
    : JsM State Buffer :=
  emit (Log ["컴파일 시작"]);;
  settled ← try_catch
    ((if MINDAR_loaded b then mret tt
      else throw (MkError "MindAR 라이브러리 로드 실패"));;
     emit (Compile image);;
     match compile_timer b image with
     | Some reported =>
         report_progress (take reported (fst (compileImageTargets b image)));;
         mret None
     | None =>
         report_progress (fst (compileImageTargets b image));;
         data ← await (snd (compileImageTargets b image));
         emit (Log ["✓ 컴파일 완료, 크기:";
                    toString (N.of_nat (length data))]);;
         (if length data <? 100
          then throw (MkError
                 "컴파일된 데이터가 너무 작습니다. 다른 이미지를 시도해보세요.")
          else mret tt);;
         mret (Some data)
     end)
    (fun error => emit (LogError "컴파일 실패:" error);; throw error);
  match settled with
  | Some data => mret data
  | None => throw compile_timeout
  end.

(** The text of the alert of the [catch] block. *)
Definition start_failed (error : JsError) : string :=
  "AR 시작 실패:" ++ newline ++ message error ++ newline ++ newline
  ++ "• 더 복잡한 이미지를 시도해보세요" ++ newline
  ++ "• 텍스트나 패턴이 많은 이미지가 좋습니다".

(** The click handler of the start button (app.js lines 120-174). *)
Definition startBtn_click (b : Browser) : JsM State unit :=
  fun s =>
    match selectedFile s with
    | None => emit (Alert "이미지를 먼저 선택하세요!") s
    | Some file =>
        (emit (Log ["AR 시작"]);;
         show LoadingScreen;;
         set_loadingText "이미지 로딩 중...";;
         set_loadingProgress "0%";;
         try_catch
           (img ← await (loadImage b file);
            emit (Log ["이미지 크기:"; toString (N.of_nat (width img)); "x";
                       toString (N.of_nat (height img))]);;
            (if (width img <? 300) || (height img <? 300)
             then throw too_small else mret tt);;
            (if (2000 <? width img) || (2000 <? height img)
             then emit (Log ["이미지가 큽니다. 리사이징..."]);;
                  emit (Resize img 1024);;
                  throw const_assignment
             else mret tt);;
            set_loadingProgress "25%";;
            set_loadingText "타겟 컴파일 중... (최대 30초 소요)";;
            data ← compileImageTarget b img;
            set_compiledData data;;
            set_loadingProgress "75%";;
            set_loadingText "AR 씬 초기화 중...";;
            emit (InitScene data);;
            await (initializeARScene b data);;
            set_loadingProgress "100%";;
            emit (Log ["✓ AR 시작 완료"]);;
            show ArScreen)
           (fun error =>
              emit (LogError "AR 시작 실패:" error);;
              emit (Alert (start_failed error));;
              show UploadScreen)) s
    end.

End Client.


(** A browser in which everything works and the selected file decodes to
    [img]; a page on which a file has been selected. *)
Definition sample_browser (img : Client.Image) : Client.Browser :=
  {| Client.loadImage := fun _ => Return img;
     Client.MINDAR_loaded := true;
     Client.compileImageTargets := fun _ => ([50; 75], Return (replicate 128 "1"%byte));
     Client.compile_timer := fun _ => None;
     Client.initializeARScene := fun _ => Return tt |}.

Definition selected_state (file : Buffer) : Client.State :=
  {| Client.selectedFile := Some file; Client.compiledData := None;
     Client.screen := Client.UploadScreen; Client.loadingText := "";
     Client.loadingProgress := ""; Client.events := [] |}.

(** The events of a start that stops at the size check. *)
Definition too_small_events (img : Client.Image) : list Client.Event :=
  [ Client.Log ["AR 시작"];
    Client.Log ["이미지 크기:"; toString (N.of_nat (Client.width img)); "x";
                toString (N.of_nat (Client.height img))];
    Client.LogError "AR 시작 실패:" Client.too_small;
    Client.Alert (Client.start_failed Client.too_small) ].

(** The success response of the server of part_001. *)
Definition bordered_success (env : Env) (filename : string) : Response :=
  res_json
    [("success", JBool true);
     ("markerUrl", JStr (baseUrl env ++ "/markers/" ++ filename ++ ".patt"));
     ("targetImageUrl",
      JStr (baseUrl env ++ "/targets/" ++ filename ++ ".png"));
     ("message", JStr "마커가 성공적으로 생성되었습니다.")].


(** ** Resampling kernels and decoded pixels *)

(** The kernel sharp uses when [options.kernel] is not given (its
    documented default). *)
Definition sharp_default_kernel : Kernel := lanczos3.

Definition effective_kernel (call : SharpCall) : Kernel :=
  default sharp_default_kernel (kernel (resize_options call)).

(** A decoded image: rows of pixels, the channel bytes of a pixel next to
    each other. *)
Record Pixels := {
  px_width : nat;
  px_height : nat;
  px_channels : nat;
  px_data : Buffer
}.

(** The byte of channel [c] of the pixel at (x, y). *)
Definition pixel_byte (img : Pixels) (x y c : nat) : option byte :=
  if (x <? px_width img) && (y <? px_height img) && (c <? px_channels img)
  then px_data img !! ((y * px_width img + x) * px_channels img + c)
  else None.

(** The value of the grid at a channel, row and column. *)
Definition grid_value (grid : PatternGrid) (channel y x : nat) : option byte :=
  row ← (block ← grid !! channel; block !! y); row !! x.



(** ** The values of the demo pattern *)

(** The world after [n] more calls of [Math.random()]. *)
Definition advance (n : nat) (w : World) : World :=
  {| files := files w; trace := trace w;
     random_calls := random_calls w + n |}.

(** [Math.floor(Math.random() * 256)] at the [k]-th call of
    [Math.random()], as a number and as a byte. *)
Definition draw_value (env : Env) (k : nat) : N :=
  ((random_source env k mod 2 ^ 53) * 256 / 2 ^ 53)%N.

Definition draw_byte (env : Env) (k : nat) : byte :=
  default "000"%byte (Byte.of_N (draw_value env k)).

(** The 16 x 16 values drawn from call [first] on, row by row, and the
    three blocks drawn from call [first] on. *)
Definition random_block (env : Env) (first : nat) : list (list byte) :=
  (fun y => (fun x => draw_byte env (first + y * 16 + x)) <$> seq 0 16)
    <$> seq 0 16.

Definition random_grid (env : Env) (first : nat) : PatternGrid :=
  [random_block env first; random_block env (first + 256);
   random_block env (first + 512)].

(** A grid of three channels of sixteen rows of sixteen values. *)
Definition grid_shape (grid : PatternGrid) : Prop :=
  length grid = 3
  ∧ Forall (fun block => length block = 16
                         ∧ Forall (fun row : list byte => length row = 16)
                             block) grid.


(** A computation that only draws random numbers: it returns [f c] when
    [c] numbers have been drawn before it, and draws [k] more. *)
Definition counter_indexed {A : Type} (m : Js A) (f : nat → A) (k : nat)
    : Prop :=
  ∀ w, m w = (Return (f (random_calls w)), advance k w).


(** ** Relations between the world before and after a run *)

(** [m] takes every world to a world related to it by [R], whether it
    returns or throws. *)
Definition preserves {A : Type} (R : World → World → Prop) (m : Js A) : Prop :=
  ∀ w, R w (m w).2.

(** Nothing is removed: every file is still there (possibly with another
    content), the trace has only been appended to and no random number is
    given back. *)
Definition extends (w w' : World) : Prop :=
  (∀ path, is_Some (files w !! path) → is_Some (files w' !! path))
  ∧ trace w `prefix_of` trace w'
  ∧ random_calls w ≤ random_calls w'.

(** Only the files at [paths] may differ. *)
Definition same_outside (paths : list string) (w w' : World) : Prop :=
  ∀ path, path ∉ paths → files w' !! path = files w !! path.

(** The paths of the artifacts of a request. *)
Definition marker_path (filename : string) : string :=
  "./public/markers/" ++ filename ++ ".patt".
Definition target_path (ext filename : string) : string :=
  "./public/targets/" ++ filename ++ ext.


(** Whenever [m] returns, what it returns satisfies [Q]. *)
Definition returns_only {A : Type} (Q : A → Prop) (m : Js A) : Prop :=
  ∀ w a w', m w = (Return a, w') → Q a.

(** The success response of the first server of part_000. *)
Definition real_success (env : Env) (filename : string) : Response :=
  res_json
    [("success", JBool true);
     ("markerUrl", JStr (baseUrl env ++ "/markers/" ++ filename ++ ".patt"));
     ("targetImageUrl",
      JStr (baseUrl env ++ "/targets/" ++ filename ++ ".jpg"));
     ("message", JStr "마커가 성공적으로 생성되었습니다.")].

(** The response of the [catch] block of a handler to the error [e]. *)
Definition marker_failure (e : JsError) : Response :=
  res_status_json 500
    [("error", JStr "마커 생성 중 오류가 발생했습니다.");
     ("details", JStr (message e))].

(** The upload middleware lets the file through to the handler. *)
Definition accepted (filter : option (File → Outcome bool)) (file : File)
    : Prop :=
  upload_single filter (Some file) = Return (Some file).


(** The outcome [run] of a request is a response: the 400 response and an
    unchanged world when the request has no file part, otherwise the
    [success] response or a response of status 500. *)
Definition answers (success : Response) (part : option File) (w : World)
    (run : Outcome Response * World) : Prop :=
  ∃ response w',
    run = (Return response, w')
    ∧ match part with
      | None => response = no_file_response ∧ w' = w
      | Some _ => response = success ∨ status response = 500
      end.


(** The world after a trace event, and after a successful write. *)
Definition add_event (ev : Event) (w : World) : World :=
  {| files := files w; trace := trace w ++ [ev];
     random_calls := random_calls w |}.

Definition add_file (path content : string) (w : World) : World :=
  {| files := <[path := content]> (files w);
     trace := trace w ++ [WriteFile path];
     random_calls := random_calls w |}.


(** An environment in which sharp cannot decode anything. *)
Definition undecodable : JsError :=
  MkError "Input buffer contains unsupported image format".

Definition undecodable_env : Env :=
  {| sharp_run := fun _ _ => Throw undecodable;
     sharp_composite := sharp_composite sample_env;
     image_size := fun _ => None;
     disk_ok := disk_ok sample_env;
     mindar_load := mindar_load sample_env;
     mindar_compile := mindar_compile sample_env;
     random_source := random_source sample_env;
     RAILWAY_PUBLIC_DOMAIN := None;
     PORT := "3000" |}.

(** The ways in which [generatePattFile] of part_001 throws [e] for the
    image [image] and the path [path]: the 16 x 16 resize fails, the raw
    buffer is too short for the loops, or the file cannot be written. *)
Definition pattern_step_fails (env : Env) (image : Buffer) (path : string)
    (e : JsError) : Prop :=
  sharp_run env Bordered.pattern_resize image = Throw e
  ∨ ∃ data info,
      sharp_run env Bordered.pattern_resize image = Return (data, info)
      ∧ (pattern_text data (info_channels info) = None
         ∧ e = undefined_toString
         ∨ is_Some (pattern_text data (info_channels info))
           ∧ disk_ok env path = false
           ∧ e = MkError ("EACCES: " ++ path)).

(** An environment in which the 16 x 16 raw buffer has one channel. *)
Definition greyscale_env : Env :=
  {| sharp_run := fun call image =>
       match output call with
       | ToRaw => Return (replicate 256 "128"%byte,
                          {| info_width := 16; info_height := 16;
                             info_channels := 1 |})
       | _ => sharp_run sample_env call image
       end;
     sharp_composite := sharp_composite sample_env;
     image_size := image_size sample_env;
     disk_ok := disk_ok sample_env;
     mindar_load := mindar_load sample_env;
     mindar_compile := mindar_compile sample_env;
     random_source := random_source sample_env;
     RAILWAY_PUBLIC_DOMAIN := None;
     PORT := "3000" |}.

(** What the .mind path holds after [compileMindARTarget]: the exported
    data, or the placeholder when loading or compiling threw. *)
Definition compiled_contents (env : Env) (image : Buffer) : string :=
  match mindar_load env image with
  | Return imageData =>
      match snd (mindar_compile env imageData) with
      | Return exported => buffer_contents exported
      | Throw _ => buffer_contents (Buffer_from "MINDAR_COMPILED")
      end
  | Throw _ => buffer_contents (Buffer_from "MINDAR_COMPILED")
  end.


(** The conditions under which a click on the start button ends on the AR
    screen, with [data] as the compiled target: among them, that the
    compiler settles before the 30 second timer fires. *)
Definition starts (b : Client.Browser) (file data : Buffer) : Prop :=
  ∃ img,
    Client.loadImage b file = Return img
    ∧ 300 ≤ Client.width img ≤ 2000 ∧ 300 ≤ Client.height img ≤ 2000
    ∧ Client.MINDAR_loaded b = true
    ∧ Client.compile_timer b img = None
    ∧ snd (Client.compileImageTargets b img) = Return data
    ∧ 100 ≤ length data
    ∧ Client.initializeARScene b data = Return tt.

(** ** part_000, second server: uploads stored on disk

    A path is the key of a file as the source writes it. *)

(** [path.parse(name).name] for a name without directory separators: the
    name without its [path.extname]. *)
Definition path_parse_name (name : string) : string :=
  String.substring 0
    (String.length name - String.length (path_extname name)) name.

Module DiskUpload.

(** [req.file.filename] and [req.file.path]. *)
Record StoredFile := { stored_filename : string; stored_path : string }.

(** One call of [Math.random()] whose result goes into the file name. *)
Definition Math_random_call : Js unit := fun w => (Return tt, advance 1 w).

(** [multer.diskStorage({destination: './uploads/', filename})]:
    [uniqueName] is the value of
    [Date.now() + '-' + Math.round(Math.random() * 1E9)]. *)
Definition diskStorage (env : Env) (uniqueName : string) (file : File)
    : Js StoredFile :=
  Math_random_call;;
  let filename := uniqueName ++ path_extname (originalname file) in
  let path := "uploads/" ++ filename in
  if (N.of_nat (length (buffer file)) <=? fileSize_limit)%N
  then writeFile env path (buffer_contents (buffer file));;
       mret {| stored_filename := filename; stored_path := path |}
  else throw (MkError "File too large").

(** [upload.single('image')] with the disk storage. *)
Definition upload_single (env : Env) (uniqueName : string)
    (part : option File) : Js (option StoredFile) :=
  match part with
  | None => mret None
  | Some file =>
      match fileFilter file with
      | Throw e => throw e
      | Return false => mret None
      | Return true =>
          stored ← diskStorage env uniqueName file;
          mret (Some stored)
      end
  end.

(** [await fs.unlink(path)]. *)
Definition unlink (path : string) : Js unit :=
  fun w =>
    match files w !! path with
    | Some _ => (Return tt, {| files := delete path (files w);
                               trace := trace w;
                               random_calls := random_calls w |})
    | None => (Throw (MkError ("ENOENT: " ++ path)), w)
    end.

(** [sharp(inputPath)] followed by a resize and an output: the file is
    read when the pipeline runs. *)
Definition sharp_file (env : Env) (call : SharpCall) (inputPath : string)
    : Js (Buffer * Info) :=
  fun w =>
    match files w !! inputPath with
    | Some content => sharp env call (Buffer_from content) w
    | None => (Throw (MkError ("Input file is missing: " ++ inputPath)), w)
    end.

Definition working_resize : SharpCall :=
  {| resize_width := 512; resize_height := 512;
     resize_options := {| fit := Some inside; kernel := None;
                          withoutEnlargement := None |};
     output := ToJpeg 90 |}.

(** [createTargetImage(inputPath, outputPath)] of part_000: the pipeline
    of [createTargetImage] on the bytes of the file. *)
Definition createTargetImage (env : Env) (inputPath outputPath : string)
    : Js unit :=
  fun w =>
    match files w !! inputPath with
    | Some content => createTargetImage env (Buffer_from content) outputPath w
    | None => (Throw (MkError ("Input file is missing: " ++ inputPath)), w)
    end.

Definition generate_marker (env : Env) (file : option StoredFile)
    : Js Response :=
  try_catch
    (match file with
     | None => mret no_file_response
     | Some file =>
         let inputPath := stored_path file in
         let filename := path_parse_name (stored_filename file) in
         console_log [LStr "이미지 처리 시작:"; LStr filename];;
         let optimizedPath := "./uploads/" ++ filename ++ "-optimized.jpg" in
         '(optimized, _) ← sharp_file env working_resize inputPath;
         writeFile env optimizedPath (buffer_contents optimized);;
         console_log [LStr "이미지 최적화 완료"];;
         let targetPath := "./public/targets/" ++ filename ++ ".png" in
         createTargetImage env optimizedPath targetPath;;
         console_log [LStr "타겟 이미지 생성 완료"];;
         let markerPath := "./markers/" ++ filename ++ ".patt" in
         DemoPatt.generatePattFile env optimizedPath markerPath;;
         console_log [LStr "마커 파일 생성 완료"];;
         unlink inputPath;;
         mret (res_json
                 [("success", JBool true);
                  ("markerUrl", JStr ("/markers/" ++ filename ++ ".patt"));
                  ("targetImageUrl",
                   JStr ("/targets/" ++ filename ++ ".png"));
                  ("message", JStr "마커가 성공적으로 생성되었습니다.")])
     end)
    (marker_error "마커 생성 오류:").

Definition post_generate_marker (env : Env) (uniqueName : string)
    (part : option File) : Js Response :=
  fun w =>
    match upload_single env uniqueName part w with
    | (Return file, w') => generate_marker env file w'
    | (Throw e, w') => error_middleware e w'
    end.

End DiskUpload.

(** The success response of the second server of part_000. *)
Definition disk_success (filename : string) : Response :=
  res_json
    [("success", JBool true);
     ("markerUrl", JStr ("/markers/" ++ filename ++ ".patt"));
     ("targetImageUrl", JStr ("/targets/" ++ filename ++ ".png"));
     ("message", JStr "마커가 성공적으로 생성되었습니다.")].

(** The four paths of a request of that server. *)
Definition upload_path (uniqueName : string) (file : File) : string :=
  "uploads/" ++ uniqueName ++ path_extname (originalname file).
Definition optimized_path (uniqueName : string) : string :=
  "./uploads/" ++ uniqueName ++ "-optimized.jpg".
Definition disk_target_path (uniqueName : string) : string :=
  "./public/targets/" ++ uniqueName ++ ".png".
Definition disk_marker_path (uniqueName : string) : string :=
  "./markers/" ++ uniqueName ++ ".patt".


(** ** What the statements about the target's pixels take from sharp

    The pixels are those of the images as a decoder [decode] reads them. *)






(** ** Nearest-neighbour sampling

    What the statement about samples takes from sharp, for a decoder
    [decode] of the working image. *)

(** [pick] sends each of the 16 output positions along an axis of [size]
    source pixels to a source position that lies in the stretch of the
    axis which the output pixel covers. *)
Definition picks_inside (size : nat) (pick : nat → nat) : Prop :=
  ∀ i, i < 16 → pick i * 16 < (i + 1) * size ∧ i * size < (pick i + 1) * 16.

(** [data], [info] is the 16 x 16 nearest-neighbour sampling of [source]:
    the output pixel at (x, y) is, channel by channel, the source pixel at
    (sx x, sy y), a pixel that the output pixel covers. *)
Definition nearest_sampled (source : Pixels) (data : Buffer) (info : Info)
    : Prop :=
  info_channels info = px_channels source
  ∧ length data = 16 * 16 * info_channels info
  ∧ ∃ sx sy : nat → nat,
      picks_inside (px_width source) sx
      ∧ picks_inside (px_height source) sy
      ∧ ∀ x y c, x < 16 → y < 16 → c < info_channels info →
          is_Some (pixel_byte source (sx x) (sy y) c)
          ∧ data !! (pixelIndex (info_channels info) y x + c)
            = pixel_byte source (sx x) (sy y) c.

(** sharp resamples with the kernel of the call: a raw 16 x 16 resize
    whose kernel is [nearest] copies pixels.  Nothing is said of the other
    kernels, which filter. *)
Definition honours_nearest (env : Env) (decode : Buffer → Pixels) : Prop :=
  ∀ call image data info,
    sharp_run env call image = Return (data, info) →
    output call = ToRaw →
    resize_width call = 16 → resize_height call = 16 →
    effective_kernel call = nearest →
    nearest_sampled (decode image) data info.

(** An environment that resamples: images are raw buffers of 32 x 32
    pixels of three channels; a raw resize halves them, by taking the
    pixel at (2x, 2y) when the kernel is [nearest] and the mean of the
    four pixels that an output pixel covers otherwise. *)
Definition raw32_decode (image : Buffer) : Pixels :=
  {| px_width := 32; px_height := 32; px_channels := 3; px_data := image |}.

Definition raw32_index (x y c : nat) : nat := (y * 32 + x) * 3 + c.

Definition halve (pixel : nat → nat → nat → option byte) : option Buffer :=
  mapM (fun i => pixel (i / 3 mod 16) (i / 3 / 16) (i mod 3)) (seq 0 768).

Definition nearest_half (image : Buffer) : option Buffer :=
  halve (fun x y c => image !! raw32_index (2 * x) (2 * y) c).

Definition byte_mean (p q r s : byte) : byte :=
  default "000"%byte
    (Byte.of_N ((Byte.to_N p + Byte.to_N q + Byte.to_N r + Byte.to_N s) / 4)).

Definition box_half (image : Buffer) : option Buffer :=
  halve (fun x y c =>
    p ← image !! raw32_index (2 * x) (2 * y) c;
    q ← image !! raw32_index (2 * x + 1) (2 * y) c;
    r ← image !! raw32_index (2 * x) (2 * y + 1) c;
    s ← image !! raw32_index (2 * x + 1) (2 * y + 1) c;
    Some (byte_mean p q r s)).

Definition resampling_env : Env :=
  {| sharp_run := fun call image =>
       match output call with
       | ToRaw =>
           match (match effective_kernel call with
                  | nearest => nearest_half image
                  | _ => box_half image
                  end) with
           | Some data =>
               Return (data, {| info_width := 16; info_height := 16;
                                info_channels := 3 |})
           | None => Throw undecodable
           end
       | _ => Return (image, {| info_width := 32; info_height := 32;
                                info_channels := 3 |})
       end;
     sharp_composite := sharp_composite sample_env;
     image_size := fun _ => Some (32, 32);
     disk_ok := disk_ok sample_env;
     mindar_load := mindar_load sample_env;
     mindar_compile := mindar_compile sample_env;
     random_source := random_source sample_env;
     RAILWAY_PUBLIC_DOMAIN := None;
     PORT := "3000" |}.


Definition checkerboard : Buffer :=
  (fun i => if Nat.even (i / 3 mod 32 + i / 3 / 32)
            then "000"%byte else "255"%byte) <$> seq 0 3072.


(** * Properties *)

(** ** Strings *)

Lemma append_cons (c : ascii) (s t : string) :
  String c s ++ t = String c (s ++ t).
Proof. reflexivity. Qed.

Lemma append_nil_l (s : string) : "" ++ s = s.
Proof. reflexivity. Qed.

Lemma append_nil_r (s : string) : s ++ "" = s.
Proof. induction s as [|c s IH]; [done | by rewrite append_cons, IH]. Qed.

Lemma append_assoc (a b c : string) : (a ++ b) ++ c = a ++ (b ++ c).
Proof. induction a as [|x a IH]; [done | by rewrite !append_cons, IH]. Qed.

(** ** Loops *)

Lemma for_loop_mapM {A St : Type} (f : nat → option A) (op : St → A → St)
    (n i : nat) (s : St) :
  for_loop n i (fun j s => a ← f j; Some (op s a)) s
  = (l ← mapM f (seq i n); Some (foldl op s l)).
Proof.
  revert i s. induction n as [|n IH]; intros i s; simpl; [done|].
  destruct (f i) as [a|]; simpl; [|done].
  rewrite IH. by destruct (mapM f (seq (S i) n)).
Qed.

Lemma foldl_append (l : list string) (acc : string) :
  foldl (fun pattern piece => pattern ++ piece) acc l
  = acc ++ String.concat "" l.
Proof.
  revert acc. induction l as [|a l IH]; intros acc; simpl.
  - by rewrite append_nil_r.
  - rewrite IH, append_assoc. f_equal.
    destruct l; simpl; [by rewrite append_nil_r | by rewrite append_nil_l].
Qed.

Lemma mapM_fmap_option {A B C : Type} (g : B → C) (h : A → option B)
    (l : list A) :
  mapM (fun a => g <$> h a) l = (fmap (M:=list) g <$> mapM h l).
Proof.
  induction l as [|a l IH]; simpl; [done|].
  destruct (h a) as [b|]; simpl; [|done].
  rewrite IH. by destruct (mapM h l).
Qed.

Lemma foldl_push_fields (values : list byte) (row : list string) :
  foldl (fun row value => row ++ [byte_field value])%list row values
  = (row ++ (byte_field <$> values))%list.
Proof.
  revert row. induction values as [|v values IH]; intros row; simpl.
  - by rewrite app_nil_r.
  - rewrite IH. by rewrite <- app_assoc.
Qed.

Lemma foldl_push_rows (rows : list (list byte)) (pattern : string) :
  foldl (fun pattern row => pattern ++ (join " " row ++ newline)) pattern
    (fmap (M:=list) byte_field <$> rows)
  = pattern ++ render_block rows.
Proof.
  unfold render_block.
  rewrite <- (foldl_append (render_row <$> rows)).
  revert pattern. induction rows as [|r rows IH]; intros pattern; simpl; [done|].
  by rewrite IH.
Qed.

(** ** The serializer computes the rendering of the sampled grid *)

Lemma pattern_row_loop_spec (data : Buffer) (channels channel y : nat) :
  pattern_row_loop data channels channel y
  = (fmap (M:=list) byte_field <$> grid_row data channels channel y).
Proof.
  unfold pattern_row_loop, for_range, grid_row.
  etrans.
  { apply (for_loop_mapM (sample data channels channel y)
             (fun row value => row ++ [byte_field value])%list). }
  destruct (mapM _ _) as [values|]; simpl; [|done].
  by rewrite foldl_push_fields.
Qed.

Lemma pattern_channel_loop_spec (data : Buffer) (channels channel : nat)
    (pattern : string) :
  pattern_channel_loop data channels channel pattern
  = (rows ← grid_channel data channels channel;
     Some (pattern ++ render_block rows)).
Proof.
  unfold pattern_channel_loop, for_range, grid_channel.
  etrans.
  { apply (for_loop_mapM (pattern_row_loop data channels channel)
             (fun pattern row => pattern ++ (join " " row ++ newline))). }
  rewrite (mapM_ext _ (fun y => fmap (M:=list) byte_field
                                  <$> grid_row data channels channel y))
    by apply pattern_row_loop_spec.
  rewrite mapM_fmap_option.
  destruct (mapM _ _) as [rows|]; simpl; [|done].
  by rewrite foldl_push_rows.
Qed.

Theorem pattern_text_spec (data : Buffer) (channels : nat) :
  pattern_text data channels
  = (g ← pattern_grid data channels; Some (render_grid g)).
Proof.
  unfold pattern_text, for_range, pattern_grid. simpl.
  rewrite pattern_channel_loop_spec.
  destruct (grid_channel data channels 0) as [r|]; simpl; [|done].
  rewrite pattern_channel_loop_spec.
  destruct (grid_channel data channels 1) as [g|]; simpl; [|done].
  rewrite pattern_channel_loop_spec.
  destruct (grid_channel data channels 2) as [b|]; simpl; [|done].
  f_equal. unfold render_grid, join. simpl.
  by rewrite append_nil_l, !append_assoc.
Qed.

(** ** Buffer reads of the serializer *)

Lemma pixel_read_lt (channels channel y x : nat) :
  3 ≤ channels → channel < 3 → y < 16 → x < 16 →
  pixelIndex channels y x + channel < 16 * 16 * channels.
Proof. unfold pixelIndex. nia. Qed.

Lemma byte_range (value : byte) : (0 ≤ Byte.to_N value ≤ 255)%N.
Proof. pose proof (Byte.to_N_bounded value). lia. Qed.

Lemma grid_row_defined (data : Buffer) (channels channel y : nat) :
  3 ≤ channels → length data = 16 * 16 * channels → channel < 3 → y < 16 →
  is_Some (grid_row data channels channel y).
Proof.
  intros Hc Hlen Hch Hy. apply mapM_is_Some, Forall_forall.
  intros x Hx%elem_of_seq. unfold compose, sample, buffer_get.
  apply lookup_lt_is_Some. rewrite Hlen. apply pixel_read_lt; lia.
Qed.

Lemma pattern_grid_defined (data : Buffer) (channels : nat) :
  3 ≤ channels → length data = 16 * 16 * channels →
  is_Some (pattern_grid data channels).
Proof.
  intros Hc Hlen. apply mapM_is_Some, Forall_forall.
  intros channel Hch%elem_of_seq. unfold compose.
  apply mapM_is_Some, Forall_forall. intros y Hy%elem_of_seq.
  apply grid_row_defined; lia.
Qed.

(** C10: with at least three channels and a buffer of 16*16*channels bytes,
    every index read by the serialization loops is below the buffer length,
    each read is a defined byte in [0,255], and the loops run to completion
    without reading an undefined value. *)
Theorem pattern_reads_in_bounds (data : Buffer) (channels : nat) :
  3 ≤ channels →
  length data = 16 * 16 * channels →
  (∀ channel y x, channel < 3 → y < 16 → x < 16 →
     pixelIndex channels y x + channel < length data ∧
     ∃ value : byte,
       buffer_get data (pixelIndex channels y x + channel) = Some value ∧
       (0 ≤ Byte.to_N value ≤ 255)%N) ∧
  is_Some (pattern_text data channels).
Proof.
  intros Hc Hlen. split.
  - intros channel y x Hch Hy Hx.
    assert (pixelIndex channels y x + channel < length data) as Hlt
      by (rewrite Hlen; by apply pixel_read_lt).
    split; [done|].
    destruct (lookup_lt_is_Some_2 data _ Hlt) as [value Hv].
    exists value. split; [done | apply byte_range].
  - rewrite pattern_text_spec.
    destruct (pattern_grid_defined data channels Hc Hlen) as [g Hg].
    rewrite Hg. by eexists.
Qed.

Lemma pattern_reads_in_bounds_witness :
  let data : Buffer := replicate 1024 "7"%byte in
  3 ≤ 4 ∧ length data = 16 * 16 * 4 ∧
  (∀ channel y x, channel < 3 → y < 16 → x < 16 →
     pixelIndex 4 y x + channel < length data ∧
     ∃ value : byte,
       buffer_get data (pixelIndex 4 y x + channel) = Some value ∧
       (0 ≤ Byte.to_N value ≤ 255)%N) ∧
  is_Some (pattern_text data 4).
Proof.
  intros data.
  split; [lia|]. split; [reflexivity|].
  apply (pattern_reads_in_bounds data 4); [lia | reflexivity].
Defined.

(** ** Splitting text *)

Lemma string_forallb_append (p : ascii → bool) (a b : string) :
  string_forallb p (a ++ b) = string_forallb p a && string_forallb p b.
Proof.
  induction a as [|c a IH]; [done|].
  rewrite append_cons. simpl. rewrite IH. by rewrite andb_assoc.
Qed.

Lemma string_forallb_impl (p q : ascii → bool) (s : string) :
  (∀ c, p c = true → q c = true) →
  string_forallb p s = true → string_forallb q s = true.
Proof.
  intros Hpq. induction s as [|c s IH]; simpl; [done|].
  intros [Hc Hs]%andb_prop. rewrite (Hpq c Hc). simpl. by apply IH.
Qed.

Lemma string_forallb_join (p : ascii → bool) (sep : string)
    (pieces : list string) :
  string_forallb p sep = true →
  Forall (fun piece => string_forallb p piece = true) pieces →
  string_forallb p (join sep pieces) = true.
Proof.
  intros Hsep. unfold join.
  induction 1 as [|piece pieces Hp Hps IH]; simpl; [done|].
  destruct pieces as [|piece' pieces]; [done|].
  rewrite !string_forallb_append, Hp, Hsep. simpl. apply IH.
Qed.

Lemma split_on_app_sep (sep : ascii → bool) (a : string) (c : ascii)
    (rest : string) :
  string_forallb (fun x => negb (sep x)) a = true →
  sep c = true →
  split_on sep (a ++ String c rest) = a :: split_on sep rest.
Proof.
  intros Ha Hc. induction a as [|x a IH].
  - rewrite append_nil_l. simpl. by rewrite Hc.
  - simpl in Ha. apply andb_prop in Ha as [Hx Ha].
    rewrite append_cons. simpl. apply negb_true_iff in Hx. rewrite Hx.
    by rewrite (IH Ha).
Qed.

Lemma split_on_no_sep (sep : ascii → bool) (a : string) :
  string_forallb (fun x => negb (sep x)) a = true →
  split_on sep a = [a].
Proof.
  induction a as [|x a IH]; simpl; [done|].
  intros [Hx Ha]%andb_prop. apply negb_true_iff in Hx.
  by rewrite Hx, (IH Ha).
Qed.

(** ** Fields and rows *)

Lemma byte_field_length (value : byte) :
  String.length (byte_field value) = 3.
Proof. by destruct value. Qed.

Lemma byte_field_chars (value : byte) :
  string_forallb is_row_char (byte_field value) = true.
Proof. by destruct value. Qed.

Lemma byte_field_not_blank (value : byte) :
  is_blank (byte_field value) = false.
Proof. by destruct value. Qed.

Lemma byte_field_is_field (value : byte) : is_field (byte_field value).
Proof. split; [apply byte_field_length | by exists value]. Qed.

Lemma row_char_not_newline (c : ascii) :
  is_row_char c = true → negb (is_newline c) = true.
Proof.
  destruct c as [[] [] [] [] [] [] [] []]; by vm_compute.
Qed.

Lemma row_line_chars (values : list byte) :
  string_forallb is_row_char (row_line values) = true.
Proof.
  apply string_forallb_join; [done|].
  apply Forall_forall. intros f (v & -> & _)%list_elem_of_fmap.
  apply byte_field_chars.
Qed.

Lemma row_line_no_newline (values : list byte) :
  string_forallb (fun x => negb (is_newline x)) (row_line values) = true.
Proof.
  eapply string_forallb_impl; [apply row_char_not_newline|].
  apply row_line_chars.
Qed.

Lemma row_line_is_data_row (values : list byte) :
  length values = 16 → is_data_row (row_line values).
Proof.
  intros Hlen. exists (byte_field <$> values).
  split; [by rewrite length_fmap|]. split; [|done].
  apply Forall_forall. intros f (v & -> & _)%list_elem_of_fmap.
  apply byte_field_is_field.
Qed.

Lemma data_row_not_blank (line : string) :
  is_data_row line → is_blank line = false.
Proof.
  intros (fields & Hlen & Hfields & ->).
  destruct fields as [|f fields]; [done|].
  apply Forall_cons in Hfields as [[_ [v ->]] _].
  unfold join. simpl. unfold is_blank.
  destruct fields.
  - apply byte_field_not_blank.
  - rewrite string_forallb_append.
    fold (is_blank (byte_field v)). by rewrite byte_field_not_blank.
Qed.

(** ** Lines of the rendered grid *)

Lemma concat_empty_cons (piece : string) (pieces : list string) :
  String.concat "" (piece :: pieces) = piece ++ String.concat "" pieces.
Proof. destruct pieces; simpl; [by rewrite append_nil_r | done]. Qed.

Lemma lines_cons_newline (text : string) :
  lines (newline ++ text) = "" :: lines text.
Proof. reflexivity. Qed.

Lemma lines_render_block (rows : list (list byte)) (rest : string) :
  lines (render_block rows ++ rest) = ((row_line <$> rows) ++ lines rest)%list.
Proof.
  unfold render_block. induction rows as [|r rows IH]; [done|].
  rewrite fmap_cons, concat_empty_cons. unfold render_row at 1.
  fold (row_line r). rewrite !append_assoc.
  unfold lines at 1, newline. rewrite append_cons, append_nil_l.
  rewrite split_on_app_sep; [|apply row_line_no_newline|done].
  fold (lines (String.concat "" (render_row <$> rows) ++ rest)).
  by rewrite IH.
Qed.

Lemma lines_render_grid (r g b : list (list byte)) :
  lines (render_grid [r; g; b])
  = ((row_line <$> r) ++ [""] ++ (row_line <$> g) ++ [""]
       ++ (row_line <$> b) ++ [""])%list.
Proof.
  unfold render_grid, join. simpl.
  rewrite lines_render_block, lines_cons_newline.
  rewrite lines_render_block, lines_cons_newline.
  rewrite <- (append_nil_r (render_block b)), lines_render_block.
  done.
Qed.

Lemma pattern_grid_shape (data : Buffer) (channels : nat) (grid : PatternGrid) :
  pattern_grid data channels = Some grid →
  ∃ r g b, grid = [r; g; b] ∧
    Forall (fun block => length block = 16
                         ∧ Forall (fun row => length row = 16) block)
      [r; g; b].
Proof.
  intros Hgrid. pose proof (length_mapM _ _ _ Hgrid) as Hlen.
  apply mapM_Some_1 in Hgrid.
  destruct grid as [|r [|g [|b [|]]]]; try done.
  exists r, g, b. split; [done|].
  assert (∀ c block, grid_channel data channels c = Some block →
            length block = 16 ∧ Forall (fun row => length row = 16) block)
    as Hblock.
  { intros c block Hb. split.
    - by rewrite <- (length_mapM _ _ _ Hb).
    - apply mapM_Some_1 in Hb. revert Hb. generalize (seq 0 16).
      induction 1 as [|y row ys rows Hrow _ IH]; constructor; [|done].
      by rewrite <- (length_mapM _ _ _ Hrow). }
  change (seq 0 3) with [0; 1; 2] in Hgrid.
  apply Forall2_cons in Hgrid as [H0%Hblock Hgrid].
  apply Forall2_cons in Hgrid as [H1%Hblock Hgrid].
  apply Forall2_cons in Hgrid as [H2%Hblock _].
  repeat (apply List.Forall_cons; [done|]). apply List.Forall_nil.
Qed.

Lemma filter_all {A : Type} (p : A → bool) (l : list A) :
  Forall (fun a => p a = true) l → List.filter p l = l.
Proof. induction 1 as [|a l Ha _ IH]; simpl; [done | by rewrite Ha, IH]. Qed.

Lemma filter_none {A : Type} (p : A → bool) (l : list A) :
  Forall (fun a => p a = false) l → List.filter p l = [].
Proof. induction 1 as [|a l Ha _ IH]; simpl; [done | by rewrite Ha]. Qed.

Lemma block_lines_data_rows (block : list (list byte)) :
  Forall (fun row => length row = 16) block →
  Forall is_data_row (row_line <$> block).
Proof.
  induction 1 as [|row block Hrow _ IH]; constructor; [|done].
  by apply row_line_is_data_row.
Qed.

(** Whenever the serializer completes, its text has the layout of a pattern
    artifact; nothing is assumed of the buffer dimensions. *)
Lemma pattern_text_layout (data : Buffer) (channels : nat) (text : string) :
  pattern_text data channels = Some text → pattern_layout text.
Proof.
  rewrite pattern_text_spec. intros Htext. unfold pattern_layout.
  destruct (pattern_grid data channels) as [grid|] eqn:Hgrid; [|done].
  simpl in Htext. injection Htext as <-.
  destruct (pattern_grid_shape _ _ _ Hgrid) as (r & g & b & -> & Hshape).
  apply Forall_cons in Hshape as [[Hr Hrr] Hshape].
  apply Forall_cons in Hshape as [[Hg Hgg] Hshape].
  apply Forall_cons in Hshape as [[Hb Hbb] _].
  pose proof (block_lines_data_rows r Hrr) as HR.
  pose proof (block_lines_data_rows g Hgg) as HG.
  pose proof (block_lines_data_rows b Hbb) as HB.
  assert (terminated_lines (render_grid [r; g; b])
          = ((row_line <$> r) ++ [""] ++ (row_line <$> g) ++ [""]
               ++ (row_line <$> b))%list) as Hlines.
  { unfold terminated_lines. rewrite lines_render_grid.
    rewrite !(app_assoc _ _ [""]). by rewrite removelast_last. }
  assert (∀ block, Forall is_data_row block →
            Forall (fun l => negb (is_blank l) = true) block
            ∧ Forall (fun l => is_blank l = false) block) as Hnb.
  { intros block Hrows. split; eapply Forall_impl; try exact Hrows;
      intros l Hl; simpl; by rewrite (data_row_not_blank l Hl). }
  exists (row_line <$> r), (row_line <$> g), (row_line <$> b).
  split; [done|]. split.
  { unfold unterminated_tail. rewrite lines_render_grid.
    rewrite !(app_assoc _ _ [""]). by rewrite last_last. }
  rewrite !length_fmap. repeat (split; [done|]). split.
  { by rewrite !Forall_app. }
  rewrite Hlines, !List.filter_app.
  destruct (Hnb _ HR) as [HR1 HR2], (Hnb _ HG) as [HG1 HG2],
    (Hnb _ HB) as [HB1 HB2].
  rewrite (filter_all _ _ HR1), (filter_all _ _ HG1), (filter_all _ _ HB1).
  rewrite (filter_none _ _ HR2), (filter_none _ _ HG2), (filter_none _ _ HB2).
  simpl. rewrite !length_app, !length_fmap. simpl.
  rewrite ?length_app, ?length_fmap. simpl. lia.
Qed.


(** ** Running handlers *)

Lemma log_progress_run (percents : list nat) (w : World) :
  ∃ w', Mind.log_progress percents w = (Return tt, w')
        ∧ files w' = files w
        ∧ ∃ logs, trace w' = (trace w ++ logs)%list.
Proof.
  revert w. induction percents as [|p rest IH]; intros w.
  - exists w. repeat split. exists []. by rewrite app_nil_r.
  - destruct (IH (log_event [Mind.progress_line p] w))
      as (w' & Hrun & Hfiles & logs & Htrace).
    exists w'. split; [|split].
    + simpl. unfold mbind, JsM_bind, console_log, emit. simpl. exact Hrun.
    + by rewrite Hfiles.
    + exists (ConsoleLog [Mind.progress_line p] :: logs).
      rewrite Htrace. simpl. by rewrite <- app_assoc.
Qed.

Lemma compileMindARTarget_fallback (env : Env) (image : Buffer)
    (outputPath : string) (e : JsError) (w : World) :
  compiler_throws env image e →
  disk_ok env outputPath = true →
  ∃ w', Mind.compileMindARTarget env image outputPath w = (Return tt, w')
        ∧ files w' = <[outputPath := "MINDAR_COMPILED"]> (files w)
        ∧ ConsoleError [LStr "❌ MindAR 컴파일 오류:"; LErr e] ∈ trace w'.
Proof.
  intros [Hload | (imageData & Hload & Hcompile)] Hdisk.
  - eexists. unfold Mind.compileMindARTarget, try_catch, writeFile.
    unfold mbind, JsM_bind, console_log, console_error, emit, await. simpl.
    rewrite Hload, Hdisk. simpl. split; [done|]. split; [done|].
    simpl. rewrite !elem_of_app, !list_elem_of_singleton. auto 10.
  - unfold Mind.compileMindARTarget, try_catch, writeFile.
    unfold mbind, JsM_bind, console_log, console_error, emit, await. simpl.
    rewrite Hload, Hdisk. simpl.
    match goal with
    | |- context [Mind.log_progress ?ps ?w0] =>
        destruct (log_progress_run ps w0) as (w1 & -> & Hfiles & logs & Htrace)
    end.
    rewrite Hcompile. simpl. eexists. split; [done|]. simpl.
    rewrite Hfiles. split; [done|].
    rewrite Htrace. simpl.
    rewrite !elem_of_app, !list_elem_of_singleton. auto 10.
Qed.

(** C4: in the .mind server, when the tracking-compiler step throws while
    the upload, the resize and the disk work, the request still gets the
    success response (status 200), the placeholder [MINDAR_COMPILED] is the
    content of the .mind path, and the failure is in the console log. *)
Theorem mind_compiler_failure_absorbed (env : Env) (filename : string)
    (file : File) (optimized : Buffer) (info : Info) (e : JsError)
    (w : World) :
  (N.of_nat (length (buffer file)) ≤ fileSize_limit)%N →
  sharp_run env Mind.working_resize (buffer file) = Return (optimized, info) →
  disk_ok env ("./public/targets/" ++ filename ++ ".jpg") = true →
  disk_ok env ("./public/targets/" ++ filename ++ ".mind") = true →
  compiler_throws env optimized e →
  ∃ w',
    Mind.post_generate_marker env filename (Some file) w
      = (Return (mind_success env filename), w')
    ∧ status (mind_success env filename) = 200
    ∧ files w' !! ("./public/targets/" ++ filename ++ ".mind")
      = Some "MINDAR_COMPILED"
    ∧ ConsoleError [LStr "❌ MindAR 컴파일 오류:"; LErr e] ∈ trace w'.
Proof.
  intros Hsize Hsharp Hjpg Hmind Hthrows.
  unfold Mind.post_generate_marker, route, upload_single.
  apply N.leb_le in Hsize. rewrite Hsize.
  unfold Mind.generate_marker, try_catch at 1.
  unfold mbind at 1, JsM_bind at 1. unfold console_log at 1, emit at 1.
  unfold mbind at 1, JsM_bind at 1. unfold sharp, await.
  unfold mbind at 1, JsM_bind at 1, emit at 1. rewrite Hsharp.
  unfold mbind at 1, JsM_bind at 1. unfold console_log at 1, emit at 1.
  unfold mbind at 1, JsM_bind at 1. unfold writeFile at 1. rewrite Hjpg.
  unfold mbind at 1, JsM_bind at 1.
  match goal with
  | |- context [Mind.compileMindARTarget env optimized ?path ?w0] =>
      destruct (compileMindARTarget_fallback env optimized path e w0
                  Hthrows Hmind) as (w1 & -> & Hfiles & Hlog)
  end.
  eexists. split; [reflexivity|]. split; [done|]. simpl. split.
  - rewrite Hfiles. apply lookup_insert_eq.
  - rewrite elem_of_app. by left.
Qed.

Lemma mind_compiler_failure_absorbed_witness :
  ∃ w',
    Mind.post_generate_marker missing_mindar_env "1700000000000"
      (Some sample_jpeg_upload) empty_world
      = (Return (mind_success missing_mindar_env "1700000000000"), w')
    ∧ status (mind_success missing_mindar_env "1700000000000") = 200
    ∧ files w' !! ("./public/targets/" ++ "1700000000000" ++ ".mind")
      = Some "MINDAR_COMPILED"
    ∧ ConsoleError
        [LStr "❌ MindAR 컴파일 오류:";
         LErr (MkError
                 "Cannot find module 'mind-ar/src/image-target/compiler.js'")]
      ∈ trace w'.
Proof.
  apply (mind_compiler_failure_absorbed missing_mindar_env "1700000000000"
           sample_jpeg_upload (buffer sample_jpeg_upload)
           {| info_width := 16; info_height := 16; info_channels := 3 |}).
  - by vm_compute.
  - reflexivity.
  - reflexivity.
  - reflexivity.
  - left. reflexivity.
Defined.

(** ** Reading the artifact back *)

Lemma words_cons_space (s : string) : words (String " " s) = words s.
Proof. reflexivity. Qed.

Lemma words_repeat_space (k : nat) (s : string) :
  words (repeat_char " " k ++ s) = words s.
Proof.
  induction k as [|k IH]; [done|].
  simpl. rewrite append_cons. by rewrite words_cons_space.
Qed.

Lemma words_token_space (token rest : string) :
  token ≠ "" →
  string_forallb (fun x => negb (is_whitespace x)) token = true →
  words (token ++ String " " rest) = token :: words rest.
Proof.
  intros Hne Htoken. unfold words.
  rewrite split_on_app_sep by done. simpl.
  destruct (String.eqb_spec token ""); [done|]. done.
Qed.

Lemma words_token (token : string) :
  token ≠ "" →
  string_forallb (fun x => negb (is_whitespace x)) token = true →
  words token = [token].
Proof.
  intros Hne Htoken. unfold words. rewrite split_on_no_sep by done. simpl.
  destruct (String.eqb_spec token ""); [done|]. done.
Qed.

Lemma byte_toString_token (value : byte) :
  toString (Byte.to_N value) ≠ ""
  ∧ string_forallb (fun x => negb (is_whitespace x))
      (toString (Byte.to_N value)) = true.
Proof. by destruct value. Qed.

Lemma byte_toString_parse (value : byte) :
  parse_decimal (toString (Byte.to_N value)) = Some (Byte.to_N value).
Proof. by destruct value. Qed.

Lemma join_cons_cons (sep a b : string) (l : list string) :
  join sep (a :: b :: l) = a ++ sep ++ join sep (b :: l).
Proof. reflexivity. Qed.

Lemma words_row_line_cons (value : byte) (values : list byte) :
  words (row_line (value :: values))
  = toString (Byte.to_N value) :: words (row_line values).
Proof.
  destruct (byte_toString_token value) as [Hne Htok].
  unfold row_line. destruct values as [|v' values].
  - change (words (byte_field value) = [toString (Byte.to_N value)]).
    unfold byte_field, pattern_field, padStart.
    rewrite words_repeat_space. by apply words_token.
  - rewrite fmap_cons, (fmap_cons _ v'), join_cons_cons.
    unfold byte_field at 1, pattern_field, padStart.
    rewrite append_assoc, words_repeat_space.
    rewrite (append_cons " " "" _), append_nil_l.
    by rewrite words_token_space.
Qed.

Lemma words_row_line (values : list byte) :
  words (row_line values)
  = (fun value => toString (Byte.to_N value)) <$> values.
Proof.
  induction values as [|v values IH]; [done|].
  by rewrite words_row_line_cons, IH.
Qed.

Lemma parse_row_line (values : list byte) :
  parse_row (row_line values) = Some (Byte.to_N <$> values).
Proof.
  unfold parse_row. rewrite words_row_line.
  apply mapM_Some_2.
  induction values as [|v values IH]; constructor; [|done].
  apply byte_toString_parse.
Qed.

Lemma parse_block_lines (block : list (list byte)) :
  mapM parse_row (row_line <$> block)
  = Some (fmap (M:=list) Byte.to_N <$> block).
Proof.
  apply mapM_Some_2.
  induction block as [|row block IH]; constructor; [|done].
  apply parse_row_line.
Qed.

Lemma chunks_aux_three {A : Type} (fuel : nat) (r g b : list A) :
  length r = 16 → length g = 16 → length b = 16 → 3 ≤ fuel →
  chunks_aux fuel 16 (r ++ g ++ b) = [r; g; b].
Proof.
  intros Hr Hg Hb Hfuel.
  destruct fuel as [|[|[|fuel]]]; try lia.
  cbn [chunks_aux].
  destruct (r ++ g ++ b)%list eqn:Hrgb.
  { apply (f_equal length) in Hrgb. rewrite !length_app in Hrgb.
    simpl in Hrgb. lia. }
  rewrite <- Hrgb.
  rewrite (take_app_length' r (g ++ b) 16), (drop_app_length' r (g ++ b) 16)
    by done.
  destruct (g ++ b)%list eqn:Hgb.
  { apply (f_equal length) in Hgb. rewrite !length_app in Hgb.
    simpl in Hgb. lia. }
  rewrite <- Hgb.
  rewrite (take_app_length' g b 16), (drop_app_length' g b 16) by done.
  destruct b as [|x b]; [simpl in Hb; lia|].
  rewrite (firstn_all2 (n:=16) (x :: b)) by lia.
  rewrite drop_ge by lia.
  by destruct fuel.
Qed.

Lemma length_concat_uniform {A : Type} (n : nat) (l : list (list A)) :
  Forall (fun row => length row = n) l → length (concat l) = length l * n.
Proof.
  induction 1 as [|row l Hrow _ IH]; simpl; [done|].
  rewrite length_app, IH, Hrow. lia.
Qed.

Lemma Forall_concat_rows {A : Type} (P : A → Prop) (l : list (list A)) :
  Forall (Forall P) l → Forall P (concat l).
Proof.
  induction 1 as [|row l Hrow _ IH]; simpl; [done|].
  by apply Forall_app.
Qed.

(** C5: whenever the serializer completes, reading its text back (rows on
    newlines, blank lines skipped, whitespace-separated decimal fields,
    rows grouped by sixteen) gives exactly the numbers of the sampled grid:
    3 channels of 16 rows of 16 values, 768 values in all, each in
    [0,255]. *)
Theorem pattern_roundtrip (data : Buffer) (channels : nat) (text : string) :
  pattern_text data channels = Some text →
  ∃ grid : PatternGrid,
    pattern_grid data channels = Some grid
    ∧ parse_pattern text = Some (grid_values grid)
    ∧ length (grid_values grid) = 3
    ∧ Forall (fun channel =>
                length channel = 16
                ∧ Forall (fun row : list N => length row = 16) channel)
        (grid_values grid)
    ∧ length (concat (concat (grid_values grid))) = 768
    ∧ Forall (fun value => (0 ≤ value ≤ 255)%N)
        (concat (concat (grid_values grid))).
Proof.
  rewrite pattern_text_spec. intros Htext.
  destruct (pattern_grid data channels) as [grid|] eqn:Hgrid; [|done].
  simpl in Htext. injection Htext as <-.
  exists grid. split; [done|].
  destruct (pattern_grid_shape _ _ _ Hgrid) as (r & g & b & -> & Hshape).
  apply Forall_cons in Hshape as [[Hr Hrr] Hshape].
  apply Forall_cons in Hshape as [[Hg Hgg] Hshape].
  apply Forall_cons in Hshape as [[Hb Hbb] _].
  assert (∀ block, Forall (fun row : list byte => length row = 16) block →
            Forall (fun l => negb (is_blank l) = true) (row_line <$> block))
    as Hnb.
  { intros block Hblock. eapply Forall_impl.
    - by apply block_lines_data_rows.
    - intros l Hl. simpl. by rewrite (data_row_not_blank l Hl). }
  assert (∀ block : list (list byte),
            Forall (fun row => length row = 16) block →
            Forall (fun row : list N => length row = 16)
              (fmap (M:=list) Byte.to_N <$> block)) as Hrows.
  { intros block Hblock. apply Forall_fmap. eapply Forall_impl; [done|].
    intros row Hrow. simpl. by rewrite length_fmap. }
  split.
  { unfold parse_pattern, parse_rows. rewrite lines_render_grid.
    rewrite !List.filter_app.
    rewrite (filter_all _ _ (Hnb r Hrr)), (filter_all _ _ (Hnb g Hgg)),
      (filter_all _ _ (Hnb b Hbb)).
    simpl. rewrite app_nil_r.
    rewrite <- !fmap_app, parse_block_lines. simpl. f_equal.
    rewrite !fmap_app. unfold chunks.
    apply chunks_aux_three; rewrite ?length_app, ?length_fmap; lia. }
  split; [done|]. split.
  { unfold grid_values. simpl.
    repeat (apply List.Forall_cons;
            [split; [by rewrite length_fmap | by apply Hrows]|]).
    apply List.Forall_nil. }
  assert (∀ block : list (list byte),
            length block = 16 →
            Forall (fun row => length row = 16) block →
            length (concat (fmap (M:=list) Byte.to_N <$> block)) = 256)
    as Hcount.
  { intros block Hlen Hblock.
    rewrite (length_concat_uniform 16) by (by apply Hrows).
    rewrite length_fmap. lia. }
  split.
  { unfold grid_values. simpl. rewrite app_nil_r, !concat_app, !length_app.
    rewrite !Hcount by done. done. }
  apply Forall_concat_rows, Forall_concat_rows.
  apply Forall_fmap, Forall_forall. intros block _.
  apply Forall_fmap, Forall_forall. intros row _.
  apply Forall_fmap, Forall_forall. intros value _.
  apply byte_range.
Qed.

Lemma pattern_roundtrip_witness :
  let data : Buffer := replicate 1024 "200"%byte in
  let text := default "" (pattern_text data 4) in
  pattern_text data 4 = Some text ∧
  ∃ grid : PatternGrid,
    pattern_grid data 4 = Some grid
    ∧ parse_pattern text = Some (grid_values grid)
    ∧ length (grid_values grid) = 3
    ∧ Forall (fun channel =>
                length channel = 16
                ∧ Forall (fun row : list N => length row = 16) channel)
        (grid_values grid)
    ∧ length (concat (concat (grid_values grid))) = 768
    ∧ Forall (fun value => (0 ≤ value ≤ 255)%N)
        (concat (concat (grid_values grid))).
Proof.
  intros data text.
  assert (pattern_text data 4 = Some text) as Htext by (by vm_compute).
  split; [exact Htext|].
  exact (pattern_roundtrip data 4 text Htext).
Defined.

(** ** Runs of the pattern-generation functions *)

Lemma generatePattFile_run (env : Env) (image : Buffer) (path : string)
    (w w' : World) :
  Bordered.generatePattFile env image path w = (Return tt, w') →
  ∃ data info text,
    sharp_run env Bordered.pattern_resize image = Return (data, info)
    ∧ pattern_text data (info_channels info) = Some text
    ∧ files w' = <[path := text]> (files w)
    ∧ trace w' = (trace w ++ [SharpDecode Bordered.pattern_resize image;
                              WriteFile path])%list.
Proof.
  unfold Bordered.generatePattFile, sharp, pattern_or_throw, writeFile, await.
  unfold mbind, JsM_bind, emit. simpl.
  destruct (sharp_run env Bordered.pattern_resize image) as [[data info]|e];
    [|done].
  destruct (pattern_text data (info_channels info)) as [text|] eqn:Htext;
    [|done].
  simpl. destruct (disk_ok env path); [|done].
  intros [= <-]. exists data, info, text. simpl.
  by rewrite <- app_assoc.
Qed.

Lemma generateRealPattFile_run (env : Env) (image : Buffer) (path : string)
    (w w' : World) :
  RealPatt.generateRealPattFile env image path w = (Return tt, w') →
  ∃ data info text,
    sharp_run env RealPatt.pattern_resize image = Return (data, info)
    ∧ pattern_text data (info_channels info) = Some text
    ∧ files w' = <[path := text]> (files w)
    ∧ SharpDecode RealPatt.pattern_resize image ∈ trace w'.
Proof.
  unfold RealPatt.generateRealPattFile, try_catch, sharp, pattern_or_throw,
    writeFile, await, console_log, console_error.
  unfold mbind, JsM_bind, emit, throw. simpl.
  destruct (sharp_run env RealPatt.pattern_resize image) as [[data info]|e];
    [|done].
  destruct (pattern_text data (info_channels info)) as [text|] eqn:Htext;
    [|done].
  simpl. destruct (disk_ok env path); [|done].
  intros [= <-]. exists data, info, text. simpl.
  repeat split; [done|]. rewrite !elem_of_app, !list_elem_of_singleton. auto 10.
Qed.

(** C1: whenever [generateRealPattFile] or [generatePattFile] (part_001)
    completes, the file at the output path holds a text of exactly 48
    non-blank data rows, each 16 fields of width 3 joined by single spaces
    and ended by a newline, with exactly 2 blank lines, one after the R rows
    and one after the G rows, and none after the B rows; whatever image was
    uploaded. *)
Theorem pattern_artifact_layout (env : Env) (image : Buffer) (path : string)
    (w w' : World) :
  RealPatt.generateRealPattFile env image path w = (Return tt, w')
  ∨ Bordered.generatePattFile env image path w = (Return tt, w') →
  ∃ text, files w' !! path = Some text ∧ pattern_layout text.
Proof.
  intros [Hrun | Hrun].
  - apply generateRealPattFile_run in Hrun
      as (data & info & text & _ & Htext & Hfiles & _).
    exists text. rewrite Hfiles. split; [apply lookup_insert_eq|].
    by apply (pattern_text_layout data (info_channels info)).
  - apply generatePattFile_run in Hrun
      as (data & info & text & _ & Htext & Hfiles & _).
    exists text. rewrite Hfiles. split; [apply lookup_insert_eq|].
    by apply (pattern_text_layout data (info_channels info)).
Qed.

Lemma pattern_artifact_layout_witness :
  let image : Buffer := replicate 768 "128"%byte in
  let w' := snd (RealPatt.generateRealPattFile sample_env image
                   "./public/markers/1-2.patt" empty_world) in
  RealPatt.generateRealPattFile sample_env image "./public/markers/1-2.patt"
    empty_world = (Return tt, w')
  ∧ ∃ text, files w' !! "./public/markers/1-2.patt" = Some text
            ∧ pattern_layout text.
Proof.
  intros image w'.
  assert (RealPatt.generateRealPattFile sample_env image
            "./public/markers/1-2.patt" empty_world = (Return tt, w'))
    as Hrun by (by vm_compute).
  split; [exact Hrun|].
  exact (pattern_artifact_layout sample_env image "./public/markers/1-2.patt"
           empty_world w' (or_introl Hrun)).
Defined.

(** ** The demo pattern *)

(** C2 (the code departs from it): [generatePattFile] of the second server of
    part_000 ignores the image and fills the pattern from [Math.random()].
    Two runs on the same image path, starting from the same world, that
    differ only in the random numbers drawn write different pattern files. *)
Theorem demo_pattern_depends_on_random :
  let low := random_env (fun _ => 0%N) in
  let high := random_env (fun _ => (2 ^ 53 - 1)%N) in
  let run env :=
    DemoPatt.generatePattFile env "./uploads/1-2-optimized.jpg"
      "./markers/1-2.patt" empty_world in
  fst (run low) = Return tt
  ∧ fst (run high) = Return tt
  ∧ files (snd (run low)) !! "./markers/1-2.patt"
    ≠ files (snd (run high)) !! "./markers/1-2.patt".
Proof.
  intros low high run. split; [by vm_compute|]. split; [by vm_compute|].
  vm_compute. discriminate.
Qed.

(** In one server process the random numbers go on: a second run on the same
    image, right after the first, writes another text. *)
Lemma demo_pattern_second_run_differs :
  let env := random_env (fun n => (N.of_nat n * 2 ^ 43)%N) in
  let first := DemoPatt.generateSimplePattern env empty_world in
  let second := DemoPatt.generateSimplePattern env (snd first) in
  fst first ≠ fst second.
Proof. intros env first second. vm_compute. discriminate. Qed.

(** ** The bordered target *)





(** ** The upload filter *)

Lemma fileFilter_rejects (file : File) :
  regex_test allowedTypes (toLowerCase (path_extname (originalname file)))
    = false
  ∨ regex_test allowedTypes (mimetype file) = false →
  fileFilter file = Throw filter_error.
Proof.
  unfold fileFilter. intros [-> | ->]; [by rewrite andb_false_r | done].
Qed.

(** C7, as stated, fails: the .mind server installs no [fileFilter]; an
    upload named [notes.txt] of type [text/plain] reaches the sharp decoder
    and the request succeeds. *)
Lemma mind_upload_not_filtered :
  let run := Mind.post_generate_marker sample_env "1700000000000"
               (Some text_upload) empty_world in
  regex_test allowedTypes
    (toLowerCase (path_extname (originalname text_upload))) = false
  ∧ regex_test allowedTypes (mimetype text_upload) = false
  ∧ fst run = Return (mind_success sample_env "1700000000000")
  ∧ SharpDecode Mind.working_resize (buffer text_upload) ∈ trace (snd run).
Proof.
  intros run. split; [done|]. split; [done|]. split; [by vm_compute|].
  apply list_elem_of_In. vm_compute. tauto.
Qed.

(** C7, amended: in the servers that install the [fileFilter] (part_000,
    part_001), an upload whose lower-cased extension contains none of
    [jpeg], [jpg], [png], or whose declared MIME type contains none of them,
    is rejected by the filter: whatever the route handler is, it does not
    run, nothing is decoded and no file is written; the error middleware
    answers. *)
Theorem filtered_upload_rejected (env : Env) (filename : string) (file : File)
    (handler : option File → Js Response) (w : World) :
  regex_test allowedTypes (toLowerCase (path_extname (originalname file)))
    = false
  ∨ regex_test allowedTypes (mimetype file) = false →
  let rejected :=
    (Return upload_rejected,
     {| files := files w;
        trace := trace w ++ [ConsoleError [LStr "서버 오류:"; LErr filter_error]];
        random_calls := random_calls w |}) in
  route (Some fileFilter) handler error_middleware (Some file) w = rejected
  ∧ RealPatt.post_generate_marker env filename (Some file) w = rejected
  ∧ Bordered.post_generate_marker env filename (Some file) w = rejected.
Proof.
  intros Hbad rejected.
  unfold RealPatt.post_generate_marker, Bordered.post_generate_marker, route,
    upload_single.
  by rewrite (fileFilter_rejects file Hbad).
Qed.

Lemma filtered_upload_rejected_witness :
  let rejected :=
    (Return upload_rejected,
     {| files := ∅;
        trace := [ConsoleError [LStr "서버 오류:"; LErr filter_error]];
        random_calls := 0 |}) in
  route (Some fileFilter) (Mind.generate_marker sample_env "1-2")
    error_middleware (Some text_upload) empty_world = rejected
  ∧ RealPatt.post_generate_marker sample_env "1-2" (Some text_upload)
      empty_world = rejected
  ∧ Bordered.post_generate_marker sample_env "1-2" (Some text_upload)
      empty_world = rejected.
Proof.
  apply (filtered_upload_rejected sample_env "1-2" text_upload
           (Mind.generate_marker sample_env "1-2") empty_world).
  left. reflexivity.
Defined.

(** The pattern is searched anywhere in the extension and in the type: a
    name and a type that merely contain [png] pass the filter. *)
Lemma fileFilter_substring_match : fileFilter xpng_upload = Return true.
Proof. reflexivity. Qed.

(** ** Resizing with fit [inside] *)

Lemma shrink_by_bounds (size bound : Z) (factor : Factor) :
  (0 < size)%Z → (0 < bound)%Z → (0 < fst factor)%Z → (0 < snd factor)%Z →
  (snd factor ≤ fst factor)%Z →
  (size * snd factor ≤ bound * fst factor)%Z →
  let out := shrink_by size (factor_min factor (size, 1%Z)) in
  (1 ≤ out ≤ size)%Z ∧ (out ≤ bound)%Z.
Proof.
  intros Hsize Hbound Hn Hd Hge Hfit. destruct factor as [n d].
  simpl in *. unfold factor_min, factor_le, shrink_by. simpl.
  destruct (Z.leb_spec (n * 1) (size * d)) as [Hle | Hgt]; simpl.
  - split; [split|].
    + apply Z.div_le_lower_bound; nia.
    + apply Z.lt_succ_r, Z.div_lt_upper_bound; nia.
    + apply Z.lt_succ_r, Z.div_lt_upper_bound; nia.
  - assert ((2 * size * 1 + size) / (2 * size) = 1)%Z as ->.
    { symmetry. apply (Z.div_unique _ _ 1 size); lia. }
    lia.
Qed.

Lemma shrink_by_unit (size : Z) (n : Z) :
  (0 < size)%Z → (0 < n)%Z →
  shrink_by size (factor_min (n, n) (size, 1%Z)) = size.
Proof.
  intros Hsize Hn. unfold factor_min, factor_le, shrink_by. simpl.
  destruct (Z.leb_spec (n * 1) (size * n)) as [Hle | Hgt]; [|nia].
  simpl. symmetry. apply (Z.div_unique _ _ size n); nia.
Qed.

(** C8, as stated, fails: the server of part_001 resizes with fit [inside]
    and without [withoutEnlargement]; a 100 x 100 image, smaller than the
    working resolution on both axes, comes out as 512 x 512. *)
Lemma bordered_inside_enlarges :
  fit (resize_options Bordered.working_resize) = Some inside
  ∧ withoutEnlargement (resize_options Bordered.working_resize) = None
  ∧ inside_size Bordered.working_resize 100 100 = (512, 512)%Z.
Proof. by vm_compute. Qed.

(** C8, amended: in the .mind server (fit [inside] with
    [withoutEnlargement: true], working size 480) the output never exceeds
    the source: it is at most the source size and at most 480 on each axis,
    and a source within 480 x 480 keeps its size. *)
Theorem mind_inside_never_enlarges (width height : Z) :
  (0 < width)%Z → (0 < height)%Z →
  let '(out_width, out_height) :=
    inside_size Mind.working_resize width height in
  (1 ≤ out_width ≤ width)%Z ∧ (1 ≤ out_height ≤ height)%Z
  ∧ (out_width ≤ 480)%Z ∧ (out_height ≤ 480)%Z
  ∧ ((width ≤ 480)%Z → (height ≤ 480)%Z →
     out_width = width ∧ out_height = height)
  ∧ ((480 < width)%Z → (out_width < width)%Z)
  ∧ ((480 < height)%Z → (out_height < height)%Z).
Proof.
  intros Hw Hh. unfold inside_size, Mind.working_resize. simpl.
  change (Z.of_nat 480) with 480%Z.
  set (shrink := factor_max (1, 1)%Z
                   (factor_max (width, 480%Z) (height, 480%Z))).
  assert ((0 < fst shrink)%Z ∧ (0 < snd shrink)%Z
          ∧ (snd shrink ≤ fst shrink)%Z
          ∧ (width * snd shrink ≤ 480 * fst shrink)%Z
          ∧ (height * snd shrink ≤ 480 * fst shrink)%Z
          ∧ ((width ≤ 480)%Z → (height ≤ 480)%Z →
             fst shrink = snd shrink)) as (Hn & Hd & Hge & Hfw & Hfh & Hunit).
  { unfold shrink, factor_max, factor_le. simpl.
    cbn [fst snd].
    destruct (Z.leb_spec (width * 480) (height * 480)); cbn [fst snd];
      match goal with
      | |- context [(?a <=? ?b)%Z] =>
          destruct (Z.leb_spec a b); cbn [fst snd] in *
      end; lia. }
  clearbody shrink.
  destruct (shrink_by_bounds width 480 shrink) as [Hbw Hbw']; try done.
  destruct (shrink_by_bounds height 480 shrink) as [Hbh Hbh']; try done.
  split; [lia|]. split; [lia|]. split; [lia|]. split; [lia|].
  split; [|lia].
  intros Hsw Hsh. destruct shrink as [n d]. cbn [fst snd] in *.
  rewrite (Hunit Hsw Hsh). split; apply shrink_by_unit; lia.
Qed.

Lemma mind_inside_never_enlarges_witness :
  inside_size Mind.working_resize 100 100 = (100, 100)%Z
  ∧ inside_size Mind.working_resize 1000 800 = (480, 384)%Z.
Proof.
  pose proof (mind_inside_never_enlarges 100 100 eq_refl eq_refl) as Hsmall.
  pose proof (mind_inside_never_enlarges 1000 800 eq_refl eq_refl) as Hlarge.
  split; [|by vm_compute].
  destruct (inside_size Mind.working_resize 100 100) as [ow oh].
  destruct Hsmall as (_ & _ & _ & _ & Hkeep & _).
  destruct Hkeep as [-> ->]; [lia | lia | done].
Defined.

(** ** Small images *)

(** C9, as stated, fails: the servers never look at the size of the image.
    In the server of part_001 an upload that decodes to 10 x 10 pixels gets
    the success response, and both artifacts are written. *)
Lemma small_image_is_processed :
  let run := Bordered.post_generate_marker sample_env "1-2"
               (Some sample_jpeg_upload) empty_world in
  image_size sample_env (buffer sample_jpeg_upload) = Some (10, 10)
  ∧ fst run = Return (bordered_success sample_env "1-2")
  ∧ status (bordered_success sample_env "1-2") = 200
  ∧ is_Some (files (snd run) !! "./public/targets/1-2.png")
  ∧ is_Some (files (snd run) !! "./public/markers/1-2.patt").
Proof.
  intros run. split; [done|]. split; [by vm_compute|]. split; [done|].
  split; vm_compute; by eexists.
Qed.

(** C9, amended: in the browser client, an image whose width or height is
    below 300 is rejected before the target is compiled: the handler throws,
    logs and alerts "image too small", returns to the upload screen, and
    neither compiles nor stores anything. *)
Theorem client_rejects_small_image (b : Client.Browser) (s : Client.State)
    (file : Buffer) (img : Client.Image) :
  Client.selectedFile s = Some file →
  Client.loadImage b file = Return img →
  Client.width img < 300 ∨ Client.height img < 300 →
  ∃ s',
    Client.startBtn_click b s = (Return tt, s')
    ∧ Client.events s' = (Client.events s ++ too_small_events img)%list
    ∧ (∀ image, Client.Compile image ∉ too_small_events img)
    ∧ Client.compiledData s' = Client.compiledData s
    ∧ Client.screen s' = Client.UploadScreen.
Proof.
  intros Hfile Hload Hsmall.
  assert ((Client.width img <? 300) || (Client.height img <? 300) = true)
    as Hcheck.
  { apply orb_true_iff. rewrite !Nat.ltb_lt. exact Hsmall. }
  unfold Client.startBtn_click. rewrite Hfile.
  unfold try_catch, mbind, JsM_bind, await, throw, Client.emit, Client.show,
    Client.set_loadingText, Client.set_loadingProgress.
  cbn -[Nat.ltb too_small_events]. rewrite Hload.
  cbn -[Nat.ltb too_small_events]. rewrite Hcheck.
  cbn -[Nat.ltb too_small_events].
  eexists. split; [reflexivity|]. cbn -[too_small_events].
  split; [by rewrite <- !app_assoc|]. split; [|done].
  intros image Hin. unfold too_small_events in Hin.
  rewrite !elem_of_cons in Hin. rewrite elem_of_nil in Hin.
  by destruct Hin as [? | [? | [? | [? | []]]]].
Qed.

Lemma client_rejects_small_image_witness :
  let img := {| Client.width := 299; Client.height := 1200 |} in
  ∃ s',
    Client.startBtn_click (sample_browser img) (selected_state []) =
      (Return tt, s')
    ∧ Client.events s' = ([] ++ too_small_events img)%list
    ∧ (∀ image, Client.Compile image ∉ too_small_events img)
    ∧ Client.compiledData s' = None
    ∧ Client.screen s' = Client.UploadScreen.
Proof.
  intros img.
  apply (client_rejects_small_image (sample_browser img) (selected_state [])
           [] img eq_refl eq_refl).
  left. simpl. lia.
Defined.

(** ** Sampling *)





(** ** Successful requests *)

Lemma marker_paths_differ (filename : string) :
  "./public/markers/" ++ filename ++ ".patt"
  ≠ "./public/targets/" ++ filename ++ ".jpg".
Proof. intros H. vm_compute in H. congruence. Qed.

(** A request that the server of part_001 answers with status 200 has left
    a well-formed pattern file at the marker path. *)
Lemma bordered_success_writes_pattern (env : Env) (filename : string)
    (part : option File) (w w' : World) (response : Response) :
  Bordered.post_generate_marker env filename part w = (Return response, w') →
  status response = 200 →
  ∃ text, files w' !! ("./public/markers/" ++ filename ++ ".patt") = Some text
          ∧ pattern_layout text.
Proof.
  unfold Bordered.post_generate_marker, route.
  destruct (upload_single (Some fileFilter) part) as [[file|]|e];
    [| by intros [= <- <-] | by intros [= <- <-]].
  unfold Bordered.generate_marker, try_catch, marker_error.
  unfold mbind at 1 2 3 4 5 6, JsM_bind at 1 2 3 4 5 6.
  unfold console_log at 1, emit at 1.
  destruct (sharp env Bordered.working_resize (buffer file) _)
    as [[[optimized info]|e] w1]; [|by intros [= <- <-]].
  unfold console_log at 1, emit at 1.
  destruct (createTargetImage env optimized _ _) as [[[]|e] w2];
    [|by intros [= <- <-]].
  unfold console_log at 1, emit at 1.
  destruct (Bordered.generatePattFile env optimized _ _) as [[[]|e] w3] eqn:Hrun;
    [|by intros [= <- <-]].
  unfold console_log at 1, emit at 1. simpl. intros [= <- <-] _.
  apply generatePattFile_run in Hrun
    as (data & info' & text & _ & Htext & Hfiles & _).
  exists text. simpl. rewrite Hfiles. split; [apply lookup_insert_eq|].
  by apply (pattern_text_layout data (info_channels info')).
Qed.

(** The same for the first server of part_000, which writes the target
    image after the pattern. *)
Lemma real_success_writes_pattern (env : Env) (filename : string)
    (part : option File) (w w' : World) (response : Response) :
  RealPatt.post_generate_marker env filename part w = (Return response, w') →
  status response = 200 →
  ∃ text, files w' !! ("./public/markers/" ++ filename ++ ".patt") = Some text
          ∧ pattern_layout text.
Proof.
  unfold RealPatt.post_generate_marker, route.
  destruct (upload_single (Some fileFilter) part) as [[file|]|e];
    [| by intros [= <- <-] | by intros [= <- <-]].
  unfold RealPatt.generate_marker, try_catch at 1, marker_error.
  unfold mbind at 1 2 3 4 5 6, JsM_bind at 1 2 3 4 5 6.
  unfold console_log at 1, emit at 1.
  destruct (sharp env RealPatt.working_resize (buffer file) _)
    as [[[resized info]|e] w1]; [|by intros [= <- <-]].
  unfold console_log at 1, emit at 1.
  destruct (RealPatt.generateRealPattFile env resized _ _)
    as [[[]|e] w2] eqn:Hrun; [|by intros [= <- <-]].
  unfold console_log at 1, emit at 1. unfold writeFile.
  destruct (disk_ok env _); [|by intros [= <- <-]].
  simpl. intros [= <- <-] _.
  apply generateRealPattFile_run in Hrun
    as (data & info' & text & _ & Htext & Hfiles & _).
  exists text. simpl.
  rewrite lookup_insert_ne by (symmetry; apply marker_paths_differ).
  rewrite Hfiles. split; [apply lookup_insert_eq|].
  by apply (pattern_text_layout data (info_channels info')).
Qed.

(** * Further properties *)

(** ** Buffers that the serializer cannot read *)

(** X1: a raw buffer of 16 x 16 pixels with fewer than three channels
    (greyscale, greyscale with alpha) makes the serializer read past the
    end: [value.toString()] throws and no text is produced. *)
Theorem pattern_text_too_few_channels (data : Buffer) (channels : nat) :
  channels < 3 →
  length data = 16 * 16 * channels →
  pattern_text data channels = None.
Proof.
  intros Hchannels Hlen. rewrite pattern_text_spec.
  assert (pattern_grid data channels = None) as ->; [|done].
  apply mapM_None_2, Exists_exists. exists channels. split.
  { apply elem_of_seq. lia. }
  apply mapM_None_2, Exists_exists. exists 15. split.
  { apply elem_of_seq. lia. }
  apply mapM_None_2, Exists_exists. exists 15. split.
  { apply elem_of_seq. lia. }
  unfold sample, buffer_get, pixelIndex. apply lookup_ge_None. lia.
Qed.

Lemma pattern_text_too_few_channels_witness :
  pattern_text (replicate 256 "128"%byte) 1 = None
  ∧ pattern_text (replicate 512 "128"%byte) 2 = None.
Proof.
  split.
  - apply (pattern_text_too_few_channels (replicate 256 "128"%byte) 1);
      [lia | reflexivity].
  - apply (pattern_text_too_few_channels (replicate 512 "128"%byte) 2);
      [lia | reflexivity].
Defined.

(** X2: the text depends only on the first three channel bytes of the 256
    pixels: two raw buffers, of possibly different channel counts, that
    agree on them give the same result (an alpha channel and any bytes
    after the last pixel are ignored). *)
Theorem pattern_text_reads_rgb_only (data1 data2 : Buffer)
    (channels1 channels2 : nat) :
  (∀ channel y x, channel < 3 → y < 16 → x < 16 →
     data1 !! (pixelIndex channels1 y x + channel)
     = data2 !! (pixelIndex channels2 y x + channel)) →
  pattern_text data1 channels1 = pattern_text data2 channels2.
Proof.
  intros Hsame. rewrite !pattern_text_spec.
  assert (pattern_grid data1 channels1 = pattern_grid data2 channels2)
    as ->; [|done].
  apply Forall_mapM_ext, Forall_forall. intros channel Hc%elem_of_seq.
  apply Forall_mapM_ext, Forall_forall. intros y Hy%elem_of_seq.
  apply Forall_mapM_ext, Forall_forall. intros x Hx%elem_of_seq.
  apply Hsame; lia.
Qed.

Lemma pattern_text_reads_rgb_only_witness :
  pattern_text (replicate 768 "128"%byte) 3
  = pattern_text (replicate 1024 "128"%byte ++ ["007"%byte])%list 4.
Proof.
  apply pattern_text_reads_rgb_only. intros channel y x Hc Hy Hx.
  unfold Buffer. rewrite lookup_app_l by (rewrite length_replicate; unfold pixelIndex; lia).
  rewrite !lookup_replicate_2 by (unfold pixelIndex; lia). done.
Defined.

(** ** Size of the artifact *)

Lemma string_length_append (a b : string) :
  String.length (a ++ b) = String.length a + String.length b.
Proof.
  induction a as [|x a IH]; [done | rewrite append_cons; simpl; by rewrite IH].
Qed.

Lemma row_line_length (values : list byte) :
  String.length (row_line values) = 4 * length values - 1.
Proof.
  unfold row_line. induction values as [|v values IH]; [done|].
  destruct values as [|v' values].
  - apply byte_field_length.
  - rewrite fmap_cons, (fmap_cons _ v'), join_cons_cons.
    rewrite !string_length_append, byte_field_length.
    rewrite <- fmap_cons, IH. simpl. lia.
Qed.

Lemma render_block_length (rows : list (list byte)) :
  Forall (fun row => length row = 16) rows →
  String.length (render_block rows) = 64 * length rows.
Proof.
  unfold render_block. induction 1 as [|row rows Hrow _ IH]; [done|].
  rewrite fmap_cons, concat_empty_cons, string_length_append, IH.
  unfold render_row. fold (row_line row).
  rewrite string_length_append, row_line_length, Hrow. simpl. lia.
Qed.

(** X3: whenever the serializer completes, its text is exactly 3074
    characters long: 48 rows of 63 characters and a newline, and two
    separating newlines. *)
Theorem pattern_text_length (data : Buffer) (channels : nat) (text : string) :
  pattern_text data channels = Some text → String.length text = 3074.
Proof.
  rewrite pattern_text_spec. intros Htext.
  destruct (pattern_grid data channels) as [grid|] eqn:Hgrid; [|done].
  simpl in Htext. injection Htext as <-.
  destruct (pattern_grid_shape _ _ _ Hgrid) as (r & g & b & -> & Hshape).
  apply Forall_cons in Hshape as [[Hr Hrr] Hshape].
  apply Forall_cons in Hshape as [[Hg Hgg] Hshape].
  apply Forall_cons in Hshape as [[Hb Hbb] _].
  unfold render_grid, join. simpl.
  rewrite !string_length_append, !render_block_length by done.
  rewrite Hr, Hg, Hb. done.
Qed.

Lemma pattern_text_length_witness :
  let data : Buffer := replicate 768 "128"%byte in
  let text := default "" (pattern_text data 3) in
  pattern_text data 3 = Some text ∧ String.length text = 3074.
Proof.
  intros data text.
  assert (pattern_text data 3 = Some text) as Htext by (by vm_compute).
  split; [exact Htext|]. exact (pattern_text_length data 3 text Htext).
Defined.

(** ** The demo pattern, value by value *)

Lemma draw_value_lt (env : Env) (k : nat) : (draw_value env k < 256)%N.
Proof.
  unfold draw_value. apply N.Div0.div_lt_upper_bound.
  pose proof (N.mod_upper_bound (random_source env k) (2 ^ 53)) as Hmod.
  lia.
Qed.

Lemma draw_byte_value (env : Env) (k : nat) :
  Byte.to_N (draw_byte env k) = draw_value env k.
Proof.
  unfold draw_byte.
  destruct (Byte.of_N (draw_value env k)) as [b|] eqn:Hb.
  - by apply Byte.to_of_N.
  - apply Byte.of_N_None_iff in Hb. pose proof (draw_value_lt env k). lia.
Qed.

Lemma advance_0 (w : World) : advance 0 w = w.
Proof. destruct w. unfold advance. simpl. f_equal. lia. Qed.

Lemma advance_advance (a b : nat) (w : World) :
  advance b (advance a w) = advance (a + b) w.
Proof. unfold advance. simpl. f_equal. lia. Qed.

Lemma bind_run {A B : Type} (m : Js A) (f : A → Js B) (w : World) :
  (@mbind Js _ A B f m) w
  = match m w with
    | (Return a, w') => f a w'
    | (Throw e, w') => (Throw e, w')
    end.
Proof. reflexivity. Qed.

Lemma ret_run {A : Type} (a : A) (w : World) :
  (@mret Js _ A a) w = (Return a, w).
Proof. reflexivity. Qed.

Lemma random_draw_indexed (env : Env) :
  counter_indexed (Math_floor_random_times env 256) (draw_value env) 1.
Proof.
  intros w. unfold Math_floor_random_times, advance, draw_value.
  do 2 f_equal. lia.
Qed.

Lemma loop_counter_indexed {A St : Type} (m : Js A) (f : nat → A) (k : nat)
    (op : St → A → St) (n i : nat) (s : St) :
  counter_indexed m f k →
  counter_indexed
    (for_loop n i (fun _ s => v ← m; mret (op s v)) s)
    (fun c => foldl op s ((fun j => f (c + j * k)) <$> seq 0 n))
    (n * k).
Proof.
  intros Hm. revert i s. induction n as [|n IH]; intros i s w.
  - simpl. by rewrite advance_0.
  - cbn [for_loop]. rewrite !bind_run, (Hm w), ret_run.
    rewrite (IH (S i) (op s _) (advance k w)).
    rewrite advance_advance. f_equal.
    f_equal. rewrite <- cons_seq, fmap_cons. cbn [foldl].
    rewrite Nat.mul_0_l, Nat.add_0_r. f_equal.
    rewrite <- fmap_S_seq, <- list_fmap_compose.
    apply list_fmap_ext. intros _ j _. simpl. f_equal. lia.
Qed.

Lemma foldl_push_draws (env : Env) (position : nat → nat)
    (indices : list nat) (row : list string) :
  foldl (fun row value => row ++ [padStart 3 " " (toString value)])%list row
    ((fun j => draw_value env (position j)) <$> indices)
  = (row ++ ((fun j => byte_field (draw_byte env (position j))) <$> indices))
      %list.
Proof.
  revert row. induction indices as [|k indices IH]; intros row.
  - by rewrite app_nil_r.
  - rewrite !fmap_cons. cbn [foldl]. rewrite IH, <- app_assoc.
    unfold byte_field at 2, pattern_field. by rewrite draw_byte_value.
Qed.

Lemma random_block_shape (env : Env) (first : nat) :
  length (random_block env first) = 16
  ∧ Forall (fun row : list byte => length row = 16) (random_block env first).
Proof.
  unfold random_block. split; [by rewrite length_fmap, length_seq|].
  apply Forall_fmap, Forall_forall. intros y _. unfold compose.
  by rewrite length_fmap, length_seq.
Qed.

Lemma random_grid_shape (env : Env) (first : nat) :
  grid_shape (random_grid env first).
Proof.
  split; [done|]. unfold random_grid.
  repeat (apply List.Forall_cons; [apply random_block_shape|]).
  apply List.Forall_nil.
Qed.

(** The sixteen-row loop of [generateSimplePattern] appends the rendering
    of the block drawn from the current call on. *)
Lemma demo_block_loop (env : Env) (pattern : string) :
  counter_indexed
    (for_range 0 16 (fun y pattern =>
       row ← for_range 0 16 (fun x row =>
         value ← Math_floor_random_times env 256;
         mret (row ++ [padStart 3 " " (toString value)])%list) [];
       mret (pattern ++ (join " " row ++ newline))) pattern)
    (fun c => pattern ++ render_block (random_block env c))
    256.
Proof.
  intros w. unfold for_range. change (16 - 0) with 16.
  pose proof (loop_counter_indexed _ _ _
                (fun row value => row ++ [padStart 3 " " (toString value)])%list
                16 0 [] (random_draw_indexed env)) as Hrow.
  rewrite (loop_counter_indexed _ _ _
             (fun pattern row => pattern ++ (join " " row ++ newline))
             16 0 pattern Hrow w).
  f_equal. f_equal. rewrite <- foldl_push_rows. f_equal.
  unfold random_block. rewrite <- list_fmap_compose.
  apply list_fmap_ext. intros _ y _. unfold compose.
  rewrite (foldl_push_draws env (fun j => random_calls w + y * 16 + j * 1)).
  rewrite app_nil_l, <- list_fmap_compose.
  apply list_fmap_ext. intros _ x _. unfold compose. do 2 f_equal. lia.
Qed.

(** [generateSimplePattern] never throws, draws exactly 768 random
    numbers, touches neither the files nor the trace, and returns the
    rendering of the grid of the values drawn, in the order channel, row,
    column. *)
Lemma generateSimplePattern_run (env : Env) (w : World) :
  DemoPatt.generateSimplePattern env w
  = (Return (render_grid (random_grid env (random_calls w))), advance 768 w).
Proof.
  pose (block := fun pattern : string =>
    for_range 0 16 (fun y pattern =>
       row ← for_range 0 16 (fun x row =>
         value ← Math_floor_random_times env 256;
         mret (row ++ [padStart 3 " " (toString value)])%list) [];
       mret (pattern ++ (join " " row ++ newline))) pattern : Js string).
  assert (∀ pattern w0,
            block pattern w0
            = (Return (pattern
                       ++ render_block (random_block env (random_calls w0))),
               advance 256 w0)) as Hblock.
  { intros pattern w0. exact (demo_block_loop env pattern w0). }
  change (DemoPatt.generateSimplePattern env w)
    with (for_range 0 3 (fun i pattern =>
            pattern ← block pattern;
            mret (if i <? 2 then pattern ++ newline else pattern)) "" w).
  clearbody block. unfold for_range. cbn [for_loop Nat.sub].
  repeat (rewrite ?bind_run, ?Hblock, ?ret_run; cbn iota).
  change (0 <? 2) with true. change (1 <? 2) with true.
  change (2 <? 2) with false. cbn iota.
  rewrite !advance_advance. change (256 + 256 + 256) with 768.
  f_equal. f_equal. unfold render_grid, random_grid, join.
  rewrite !fmap_cons, fmap_nil. cbn [String.concat advance random_calls].
  by rewrite append_nil_l, !append_assoc.
Qed.

(** ** Well-shaped grids *)

Lemma grid_shape_inv (grid : PatternGrid) :
  grid_shape grid →
  ∃ r g b, grid = [r; g; b]
    ∧ (length r = 16 ∧ Forall (fun row : list byte => length row = 16) r)
    ∧ (length g = 16 ∧ Forall (fun row : list byte => length row = 16) g)
    ∧ (length b = 16 ∧ Forall (fun row : list byte => length row = 16) b).
Proof.
  intros [Hlen Hshape]. destruct grid as [|r [|g [|b [|]]]]; try done.
  apply Forall_cons in Hshape as [Hr Hshape].
  apply Forall_cons in Hshape as [Hg Hshape].
  apply Forall_cons in Hshape as [Hb _].
  by exists r, g, b.
Qed.

Lemma block_lines_not_blank (block : list (list byte)) :
  Forall (fun row => length row = 16) block →
  Forall (fun l => negb (is_blank l) = true) (row_line <$> block)
  ∧ Forall (fun l => is_blank l = false) (row_line <$> block).
Proof.
  intros Hblock. pose proof (block_lines_data_rows block Hblock) as Hrows.
  split; eapply Forall_impl; try exact Hrows;
    intros l Hl; simpl; by rewrite (data_row_not_blank l Hl).
Qed.

(** The rendering of a well-shaped grid has the layout of a pattern
    artifact. *)
Lemma render_grid_layout (grid : PatternGrid) :
  grid_shape grid → pattern_layout (render_grid grid).
Proof.
  intros (r & g & b & -> & [Hr Hrr] & [Hg Hgg] & [Hb Hbb])%grid_shape_inv.
  destruct (block_lines_not_blank r Hrr) as [HR1 HR2].
  destruct (block_lines_not_blank g Hgg) as [HG1 HG2].
  destruct (block_lines_not_blank b Hbb) as [HB1 HB2].
  assert (terminated_lines (render_grid [r; g; b])
          = ((row_line <$> r) ++ [""] ++ (row_line <$> g) ++ [""]
               ++ (row_line <$> b))%list) as Hlines.
  { unfold terminated_lines. rewrite lines_render_grid.
    rewrite !(app_assoc _ _ [""]). by rewrite removelast_last. }
  exists (row_line <$> r), (row_line <$> g), (row_line <$> b).
  split; [done|]. split.
  { unfold unterminated_tail. rewrite lines_render_grid.
    rewrite !(app_assoc _ _ [""]). by rewrite last_last. }
  rewrite !length_fmap. repeat (split; [done|]). split.
  { rewrite !Forall_app. by repeat split; apply block_lines_data_rows. }
  rewrite Hlines, !List.filter_app.
  rewrite (filter_all _ _ HR1), (filter_all _ _ HG1), (filter_all _ _ HB1).
  rewrite (filter_none _ _ HR2), (filter_none _ _ HG2), (filter_none _ _ HB2).
  simpl. rewrite !length_app, !length_fmap. simpl.
  rewrite ?length_app, ?length_fmap. simpl. lia.
Qed.

(** Reading the rendering of a well-shaped grid back gives its values. *)
Lemma parse_render_grid (grid : PatternGrid) :
  grid_shape grid → parse_pattern (render_grid grid) = Some (grid_values grid).
Proof.
  intros (r & g & b & -> & [Hr Hrr] & [Hg Hgg] & [Hb Hbb])%grid_shape_inv.
  destruct (block_lines_not_blank r Hrr) as [HR1 _].
  destruct (block_lines_not_blank g Hgg) as [HG1 _].
  destruct (block_lines_not_blank b Hbb) as [HB1 _].
  unfold parse_pattern, parse_rows. rewrite lines_render_grid.
  rewrite !List.filter_app.
  rewrite (filter_all _ _ HR1), (filter_all _ _ HG1), (filter_all _ _ HB1).
  simpl. rewrite app_nil_r.
  rewrite <- !fmap_app, parse_block_lines. simpl. f_equal.
  rewrite !fmap_app. unfold chunks.
  apply chunks_aux_three; rewrite ?length_app, ?length_fmap; lia.
Qed.

(** X4: [generatePattFile] of the second server of part_000 does not read
    the image: when the output path can be written, it succeeds whatever
    [imagePath] is, records nothing but the write, and leaves a well-formed
    pattern file whose 768 values, read back, are the random draws
    [Math.floor(Math.random() * 256)] in order. *)
Theorem demo_generatePattFile_run (env : Env) (imagePath outputPath : string)
    (w : World) :
  disk_ok env outputPath = true →
  ∃ w' text,
    DemoPatt.generatePattFile env imagePath outputPath w = (Return tt, w')
    ∧ files w' = <[outputPath := text]> (files w)
    ∧ trace w' = (trace w ++ [WriteFile outputPath])%list
    ∧ random_calls w' = random_calls w + 768
    ∧ pattern_layout text
    ∧ parse_pattern text
      = Some (grid_values (random_grid env (random_calls w)))
    ∧ ∀ channel y x, channel < 3 → y < 16 → x < 16 →
        grid_value (random_grid env (random_calls w)) channel y x
        = Some (draw_byte env (random_calls w + channel * 256 + y * 16 + x)).
Proof.
  intros Hdisk. eexists _, (render_grid (random_grid env (random_calls w))).
  split.
  { unfold DemoPatt.generatePattFile. rewrite bind_run.
    rewrite generateSimplePattern_run. unfold writeFile. rewrite Hdisk.
    reflexivity. }
  split; [done|]. split; [done|]. split; [done|].
  split; [apply render_grid_layout, random_grid_shape|].
  split; [apply parse_render_grid, random_grid_shape|].
  intros channel y x Hc Hy Hx. unfold grid_value, random_grid.
  assert (∀ first, random_block env first !! y ≫= (.!! x)
                   = Some (draw_byte env (first + y * 16 + x))) as Hblock.
  { intros first. unfold random_block.
    rewrite list_lookup_fmap, lookup_seq_lt by done.
    cbn [fmap option_fmap option_map mbind option_bind].
    rewrite list_lookup_fmap, lookup_seq_lt by done. done. }
  destruct channel as [|[|[|]]]; [| | |lia]; simpl;
    rewrite Hblock; do 2 f_equal; lia.
Qed.

Lemma demo_generatePattFile_run_witness :
  ∃ w' text,
    DemoPatt.generatePattFile sample_env "./uploads/1-2-optimized.jpg"
      "./markers/1-2.patt" empty_world = (Return tt, w')
    ∧ files w' = <[ "./markers/1-2.patt" := text ]> (files empty_world)
    ∧ trace w' = (trace empty_world ++ [WriteFile "./markers/1-2.patt"])%list
    ∧ random_calls w' = random_calls empty_world + 768
    ∧ pattern_layout text
    ∧ parse_pattern text
      = Some (grid_values (random_grid sample_env (random_calls empty_world)))
    ∧ ∀ channel y x, channel < 3 → y < 16 → x < 16 →
        grid_value (random_grid sample_env (random_calls empty_world))
          channel y x
        = Some (draw_byte sample_env
                  (random_calls empty_world + channel * 256 + y * 16 + x)).
Proof.
  exact (demo_generatePattFile_run sample_env "./uploads/1-2-optimized.jpg"
           "./markers/1-2.patt" empty_world eq_refl).
Defined.

(** ** What every run preserves

    A relation between worlds that is reflexive and transitive, holds
    across a trace event and across a write to a path of [writable], holds
    across every run of the server functions that write only there. *)

Section Preserves.

Variable R : World → World → Prop.
Variable writable : string → Prop.

Hypothesis R_refl : ∀ w, R w w.
Hypothesis R_trans : ∀ w1 w2 w3, R w1 w2 → R w2 w3 → R w1 w3.
Hypothesis R_emit : ∀ w ev,
  R w {| files := files w; trace := trace w ++ [ev];
         random_calls := random_calls w |}.
Hypothesis R_write : ∀ w path content, writable path →
  R w {| files := <[path := content]> (files w);
         trace := trace w ++ [WriteFile path];
         random_calls := random_calls w |}.

Lemma preserves_ret {A : Type} (a : A) : preserves R (mret a : Js A).
Proof. intros w. apply R_refl. Qed.

Lemma preserves_throw {A : Type} (e : JsError) : preserves R (throw e : Js A).
Proof. intros w. apply R_refl. Qed.

Lemma preserves_await {A : Type} (r : Outcome A) : preserves R (await r : Js A).
Proof. intros w. apply R_refl. Qed.

Lemma preserves_bind {A B : Type} (m : Js A) (f : A → Js B) :
  preserves R m → (∀ a, preserves R (f a)) → preserves R (m ≫= f).
Proof.
  intros Hm Hf w. rewrite bind_run. specialize (Hm w).
  destruct (m w) as [[a|e] w1]; simpl in *; [|done].
  eapply R_trans; [exact Hm | apply Hf].
Qed.

Lemma preserves_try_catch {A : Type} (body : Js A) (handler : JsError → Js A) :
  preserves R body → (∀ e, preserves R (handler e)) →
  preserves R (try_catch body handler).
Proof.
  intros Hbody Hhandler w. unfold try_catch. specialize (Hbody w).
  destruct (body w) as [[a|e] w1]; simpl in *; [done|].
  eapply R_trans; [exact Hbody | apply Hhandler].
Qed.

Lemma preserves_emit (ev : Event) : preserves R (emit ev).
Proof. intros w. apply R_emit. Qed.

Lemma preserves_writeFile (env : Env) (path content : string) :
  writable path → preserves R (writeFile env path content).
Proof.
  intros Hpath w. unfold writeFile.
  destruct (disk_ok env path); [by apply R_write | apply R_refl].
Qed.

Lemma preserves_sharp (env : Env) (call : SharpCall) (image : Buffer) :
  preserves R (sharp env call image).
Proof.
  apply preserves_bind; [apply preserves_emit|].
  intros _. apply preserves_await.
Qed.

Lemma preserves_pattern_or_throw (data : Buffer) (channels : nat) :
  preserves R (pattern_or_throw data channels).
Proof.
  unfold pattern_or_throw.
  destruct (pattern_text data channels);
    [apply preserves_ret | apply preserves_throw].
Qed.

Ltac preserves_step :=
  first
    [ apply preserves_bind; [|intros ?; cbv beta]
    | apply preserves_try_catch; [|intros ?; cbv beta]
    | apply preserves_ret
    | apply preserves_throw
    | apply preserves_await
    | apply preserves_emit
    | apply preserves_sharp
    | apply preserves_pattern_or_throw
    | apply preserves_writeFile; assumption
    | match goal with |- preserves _ (let '(_, _) := ?p in _) =>
        destruct p end ].

Lemma preserves_generateRealPattFile (env : Env) (image : Buffer)
    (path : string) :
  writable path → preserves R (RealPatt.generateRealPattFile env image path).
Proof.
  intros Hpath. unfold RealPatt.generateRealPattFile, console_log,
    console_error.
  repeat preserves_step.
Qed.

Lemma preserves_generatePattFile (env : Env) (image : Buffer) (path : string) :
  writable path → preserves R (Bordered.generatePattFile env image path).
Proof.
  intros Hpath. unfold Bordered.generatePattFile. repeat preserves_step.
Qed.

Lemma preserves_createTargetImage (env : Env) (image : Buffer)
    (path : string) :
  writable path → preserves R (createTargetImage env image path).
Proof.
  intros Hpath. unfold createTargetImage. repeat preserves_step.
Qed.

Lemma preserves_log_progress (percents : list nat) :
  preserves R (Mind.log_progress percents).
Proof.
  induction percents as [|p rest IH]; simpl; [apply preserves_ret|].
  apply preserves_bind; [apply preserves_emit | by intros _].
Qed.

Lemma preserves_compileMindARTarget (env : Env) (image : Buffer)
    (path : string) :
  writable path → preserves R (Mind.compileMindARTarget env image path).
Proof.
  intros Hpath. unfold Mind.compileMindARTarget, console_log, console_error.
  repeat (apply preserves_log_progress || preserves_step).
Qed.

Lemma preserves_marker_error (label : string) (e : JsError) :
  preserves R (marker_error label e).
Proof. unfold marker_error, console_error. repeat preserves_step. Qed.

Lemma preserves_route (filter : option (File → Outcome bool))
    (handler : option File → Js Response)
    (on_error : JsError → Js Response) (part : option File) :
  (∀ file, preserves R (handler file)) →
  (∀ e, preserves R (on_error e)) →
  preserves R (route filter handler on_error part).
Proof.
  intros Hhandler Herror. unfold route.
  destruct (upload_single filter part); [apply Hhandler | apply Herror].
Qed.

Lemma preserves_RealPatt (env : Env) (filename : string) (part : option File) :
  writable (marker_path filename) → writable (target_path ".jpg" filename) →
  preserves R (RealPatt.post_generate_marker env filename part).
Proof.
  intros Hmarker Htarget. apply preserves_route.
  - intros file. unfold RealPatt.generate_marker, console_log.
    apply preserves_try_catch; [|apply preserves_marker_error].
    destruct file; [|apply preserves_ret].
    repeat ((apply preserves_generateRealPattFile; assumption)
            || preserves_step).
  - intros e. unfold error_middleware, console_error. repeat preserves_step.
Qed.

Lemma preserves_Bordered (env : Env) (filename : string) (part : option File) :
  writable (marker_path filename) → writable (target_path ".png" filename) →
  preserves R (Bordered.post_generate_marker env filename part).
Proof.
  intros Hmarker Htarget. apply preserves_route.
  - intros file. unfold Bordered.generate_marker, console_log.
    apply preserves_try_catch; [|apply preserves_marker_error].
    destruct file; [|apply preserves_ret].
    repeat ((apply preserves_generatePattFile; assumption)
            || (apply preserves_createTargetImage; assumption)
            || preserves_step).
  - intros e. unfold error_middleware, console_error. repeat preserves_step.
Qed.

Lemma preserves_Mind (env : Env) (filename : string) (part : option File) :
  writable (target_path ".jpg" filename) →
  writable (target_path ".mind" filename) →
  preserves R (Mind.post_generate_marker env filename part).
Proof.
  intros Hjpg Hmind. apply preserves_route.
  - intros file. unfold Mind.generate_marker, console_log.
    apply preserves_try_catch; [|apply preserves_marker_error].
    destruct file; [|apply preserves_ret].
    repeat ((apply preserves_compileMindARTarget; assumption)
            || preserves_step).
  - intros e. apply preserves_ret.
Qed.

End Preserves.

(** ** Requests only add, and only at their own paths *)

Lemma extends_refl (w : World) : extends w w.
Proof. by repeat split. Qed.

Lemma extends_trans (w1 w2 w3 : World) :
  extends w1 w2 → extends w2 w3 → extends w1 w3.
Proof.
  intros (Hf1 & Ht1 & Hr1) (Hf2 & Ht2 & Hr2). repeat split.
  - intros path Hpath. by apply Hf2, Hf1.
  - by etrans.
  - lia.
Qed.

Lemma extends_emit (w : World) (ev : Event) :
  extends w {| files := files w; trace := trace w ++ [ev];
               random_calls := random_calls w |}.
Proof. repeat split; simpl; [done | by apply prefix_app_r | done]. Qed.

Lemma extends_write (w : World) (path content : string) :
  True →
  extends w {| files := <[path := content]> (files w);
               trace := trace w ++ [WriteFile path];
               random_calls := random_calls w |}.
Proof.
  intros _. repeat split; simpl; [|by apply prefix_app_r | done].
  intros other Hother. destruct (decide (path = other)) as [->|Hne].
  - rewrite lookup_insert_eq. by eexists.
  - by rewrite lookup_insert_ne.
Qed.

Lemma same_outside_refl (paths : list string) (w : World) :
  same_outside paths w w.
Proof. by intros path _. Qed.

Lemma same_outside_trans (paths : list string) (w1 w2 w3 : World) :
  same_outside paths w1 w2 → same_outside paths w2 w3 →
  same_outside paths w1 w3.
Proof. intros H1 H2 path Hpath. by rewrite H2, H1. Qed.

Lemma same_outside_write (paths : list string) (w : World)
    (path content : string) :
  path ∈ paths →
  same_outside paths w
    {| files := <[path := content]> (files w);
       trace := trace w ++ [WriteFile path];
       random_calls := random_calls w |}.
Proof.
  intros Hin other Hother. simpl. apply lookup_insert_ne.
  intros ->. contradiction.
Qed.

(** X5: whatever the request and whatever the libraries answer, the three
    servers never remove a file, never rewrite their log and never fail to
    leave the world a continuation of the one they started from. *)
Theorem requests_only_add (env : Env) (filename : string)
    (part : option File) (w : World) :
  extends w (RealPatt.post_generate_marker env filename part w).2
  ∧ extends w (Bordered.post_generate_marker env filename part w).2
  ∧ extends w (Mind.post_generate_marker env filename part w).2.
Proof.
  split; [|split].
  - apply (preserves_RealPatt extends (fun _ => True) extends_refl
             extends_trans extends_emit extends_write); done.
  - apply (preserves_Bordered extends (fun _ => True) extends_refl
             extends_trans extends_emit extends_write); done.
  - apply (preserves_Mind extends (fun _ => True) extends_refl
             extends_trans extends_emit extends_write); done.
Qed.

Lemma append_cancel_r (a b s : string) : a ++ s = b ++ s → a = b.
Proof.
  revert b. induction a as [|c a IH]; intros b Heq.
  - apply (f_equal String.length) in Heq.
    rewrite append_nil_l, string_length_append in Heq.
    destruct b; [done | simpl in Heq; lia].
  - destruct b as [|d b].
    + apply (f_equal String.length) in Heq.
      rewrite append_nil_l, string_length_append in Heq.
      simpl in Heq. lia.
    + rewrite !append_cons in Heq. injection Heq as -> Heq.
      f_equal. by apply IH.
Qed.

Lemma marker_path_inj (f1 f2 : string) :
  marker_path f1 = marker_path f2 → f1 = f2.
Proof.
  unfold marker_path. intros Heq. apply String.app_inj in Heq.
  by apply append_cancel_r in Heq.
Qed.

Lemma target_path_inj (ext f1 f2 : string) :
  target_path ext f1 = target_path ext f2 → f1 = f2.
Proof.
  unfold target_path. intros Heq. apply String.app_inj in Heq.
  by apply append_cancel_r in Heq.
Qed.

Lemma marker_target_differ (ext f1 f2 : string) :
  marker_path f1 ≠ target_path ext f2.
Proof. intros H. vm_compute in H. congruence. Qed.

Lemma target_ext_differ (f1 f2 : string) :
  target_path ".jpg" f1 ≠ target_path ".mind" f2.
Proof.
  unfold target_path. intros Heq. apply String.app_inj in Heq.
  assert (∀ s, last_dot (s ++ ".jpg")
               = Some (String.length s)) as Hjpg.
  { induction s as [|c s IH]; [done|].
    rewrite append_cons. simpl. by rewrite IH. }
  assert (∀ s, last_dot (s ++ ".mind")
               = Some (String.length s)) as Hmind.
  { induction s as [|c s IH]; [done|].
    rewrite append_cons. simpl. by rewrite IH. }
  assert (∀ s, string_drop (String.length s) (s ++ ".jpg") = ".jpg") as Djpg.
  { induction s as [|c s IH]; [done|]. by rewrite append_cons. }
  assert (∀ s, string_drop (String.length s) (s ++ ".mind") = ".mind")
    as Dmind.
  { induction s as [|c s IH]; [done|]. by rewrite append_cons. }
  pose proof (Hjpg f1) as H1. rewrite Heq, Hmind in H1.
  injection H1 as Hlen.
  pose proof (Djpg f1) as H2. rewrite Heq, <- Hlen, Dmind in H2.
  discriminate.
Qed.

(** X6: a request changes no file other than its own two artifacts; the
    artifacts of a request with another filename are left as they are,
    whether this request succeeds or fails. *)
Theorem requests_write_own_paths (env : Env) (filename other : string)
    (part : option File) (w : World) :
  let real := (RealPatt.post_generate_marker env filename part w).2 in
  let bordered := (Bordered.post_generate_marker env filename part w).2 in
  let mind := (Mind.post_generate_marker env filename part w).2 in
  same_outside [marker_path filename; target_path ".jpg" filename] w real
  ∧ same_outside [marker_path filename; target_path ".png" filename] w bordered
  ∧ same_outside [target_path ".jpg" filename; target_path ".mind" filename]
      w mind
  ∧ (other ≠ filename →
     files real !! marker_path other = files w !! marker_path other
     ∧ files real !! target_path ".jpg" other
       = files w !! target_path ".jpg" other
     ∧ files bordered !! marker_path other = files w !! marker_path other
     ∧ files bordered !! target_path ".png" other
       = files w !! target_path ".png" other
     ∧ files mind !! target_path ".jpg" other
       = files w !! target_path ".jpg" other
     ∧ files mind !! target_path ".mind" other
       = files w !! target_path ".mind" other).
Proof.
  intros real bordered mind.
  assert (same_outside [marker_path filename; target_path ".jpg" filename]
            w real) as Hreal.
  { apply (preserves_RealPatt (same_outside _) (fun p => p ∈ _)
             (same_outside_refl _) (same_outside_trans _)
             (fun w ev => same_outside_refl _ _) (same_outside_write _));
      set_solver. }
  assert (same_outside [marker_path filename; target_path ".png" filename]
            w bordered) as Hbordered.
  { apply (preserves_Bordered (same_outside _) (fun p => p ∈ _)
             (same_outside_refl _) (same_outside_trans _)
             (fun w ev => same_outside_refl _ _) (same_outside_write _));
      set_solver. }
  assert (same_outside
            [target_path ".jpg" filename; target_path ".mind" filename]
            w mind) as Hmind.
  { apply (preserves_Mind (same_outside _) (fun p => p ∈ _)
             (same_outside_refl _) (same_outside_trans _)
             (fun w ev => same_outside_refl _ _) (same_outside_write _));
      set_solver. }
  repeat (split; [done|]). intros Hother.
  assert (∀ ext, marker_path other ≠ target_path ext filename) as Hmt
    by (intros ext; apply marker_target_differ).
  assert (∀ ext, target_path ext other ≠ marker_path filename) as Htm
    by (intros ext Heq; by apply (marker_target_differ ext filename other)).
  assert (marker_path other ≠ marker_path filename) as Hmm
    by (by intros Heq%marker_path_inj).
  assert (∀ ext, target_path ext other ≠ target_path ext filename) as Htt
    by (by intros ext Heq%target_path_inj).
  pose proof (target_ext_differ other filename) as Hjm.
  assert (target_path ".mind" other ≠ target_path ".jpg" filename) as Hmj
    by (intros Heq; by apply (target_ext_differ filename other)).
  clearbody real bordered mind.
  repeat split;
    first [apply Hreal | apply Hbordered | apply Hmind];
    rewrite !elem_of_cons, elem_of_nil;
    intros [Heq | [Heq | []]];
    solve [ exact (Hmm Heq) | exact (Hmt _ Heq) | exact (Htm _ Heq)
          | exact (Htt _ Heq) | exact (Hjm Heq) | exact (Hmj Heq) ].
Qed.

Lemma requests_write_own_paths_witness :
  let bordered :=
    (Bordered.post_generate_marker sample_env "1-2" (Some sample_jpeg_upload)
       empty_world).2 in
  "3-4" ≠ "1-2"
  ∧ files bordered !! marker_path "3-4"
    = files empty_world !! marker_path "3-4"
  ∧ files bordered !! target_path ".png" "3-4"
    = files empty_world !! target_path ".png" "3-4".
Proof.
  intros bordered.
  destruct (requests_write_own_paths sample_env "1-2" "3-4"
              (Some sample_jpeg_upload) empty_world) as (_ & _ & _ & Hother).
  assert ("3-4" ≠ "1-2") as Hne by discriminate.
  destruct (Hother Hne) as (_ & _ & Hmarker & Htarget & _).
  split; [exact Hne|]. split; [exact Hmarker | exact Htarget].
Defined.

(** ** Responses *)

Lemma returns_only_ret {A : Type} (Q : A → Prop) (a : A) :
  Q a → returns_only Q (mret a : Js A).
Proof. intros Ha w a' w' [= <- _]. exact Ha. Qed.

Lemma returns_only_bind {A B : Type} (Q : B → Prop) (m : Js A)
    (f : A → Js B) :
  (∀ a, returns_only Q (f a)) → returns_only Q (m ≫= f).
Proof.
  intros Hf w b w'. rewrite bind_run.
  destruct (m w) as [[a|e] w1]; [apply Hf | done].
Qed.

Lemma returns_only_try_catch {A : Type} (Q : A → Prop) (body : Js A)
    (handler : JsError → Js A) :
  returns_only Q body → (∀ e, returns_only Q (handler e)) →
  returns_only Q (try_catch body handler).
Proof.
  intros Hbody Hhandler w a w'. unfold try_catch.
  destruct (body w) as [[a'|e] w1] eqn:Hrun.
  - intros [= <- <-]. by eapply Hbody.
  - apply Hhandler.
Qed.

Lemma marker_error_run (label : string) (e : JsError) (w : World) :
  marker_error label e w
  = (Return (marker_failure e),
     {| files := files w;
        trace := trace w ++ [ConsoleError [LStr label; LErr e]];
        random_calls := random_calls w |}).
Proof. reflexivity. Qed.

Lemma try_catch_marker_error_returns (body : Js Response) (label : string)
    (w : World) :
  ∃ response w', try_catch body (marker_error label) w = (Return response, w').
Proof.
  unfold try_catch. destruct (body w) as [[r|e] w1]; [by eexists _, _|].
  rewrite marker_error_run. by eexists _, _.
Qed.

Ltac returns_step :=
  first
    [ apply returns_only_bind; intros ?; cbv beta
    | apply returns_only_ret
    | match goal with |- returns_only _ (let '(_, _) := ?p in _) =>
        destruct p end ].

Lemma upload_single_some (filter : option (File → Outcome bool))
    (file : File) :
  filter = None ∨ filter = Some fileFilter →
  upload_single filter (Some file) = Return (Some file)
  ∨ ∃ e, upload_single filter (Some file) = Throw e.
Proof.
  intros [-> | ->]; unfold upload_single, fileFilter.
  - destruct (_ <=? _)%N; [by left | right; by eexists].
  - destruct (_ && _); [|right; by eexists].
    destruct (_ <=? _)%N; [by left | right; by eexists].
Qed.

Lemma route_answers (filter : option (File → Outcome bool))
    (handler : option File → Js Response) (on_error : JsError → Js Response)
    (success : Response) (part : option File) (w : World) :
  filter = None ∨ filter = Some fileFilter →
  handler None w = (Return no_file_response, w) →
  (∀ file, ∃ response w', handler (Some file) w = (Return response, w')) →
  (∀ file, returns_only (fun r => r = success ∨ status r = 500)
             (handler (Some file))) →
  (∀ e, ∃ response w', on_error e w = (Return response, w')
                       ∧ status response = 500) →
  answers success part w (route filter handler on_error part w).
Proof.
  intros Hfilter Hnone Htotal Hreturns Herror. unfold route.
  destruct part as [file|]; [|by exists no_file_response, w].
  destruct (upload_single_some filter file Hfilter) as [-> | [e ->]].
  - destruct (Htotal file) as (response & w' & Hrun).
    exists response, w'. split; [done|]. by eapply Hreturns.
  - destruct (Herror e) as (response & w' & Hrun & Hstatus).
    exists response, w'. split; [done|]. by right.
Qed.

(** X7: every request gets a response, never an uncaught exception.
    Without a file part it is the 400 response and nothing else happens;
    with a file part it is the success response of the server or a
    response with status 500. *)
Theorem every_request_is_answered (env : Env) (filename : string)
    (part : option File) (w : World) :
  answers (real_success env filename) part w
    (RealPatt.post_generate_marker env filename part w)
  ∧ answers (bordered_success env filename) part w
      (Bordered.post_generate_marker env filename part w)
  ∧ answers (mind_success env filename) part w
      (Mind.post_generate_marker env filename part w).
Proof.
  split; [|split]; apply route_answers; try (by left); try (by right);
    try done;
    try (intros file; apply try_catch_marker_error_returns);
    try (intros e; by eexists _, _).
  - intros file. unfold RealPatt.generate_marker.
    apply returns_only_try_catch.
    + repeat returns_step. by left.
    + intros e w0 r w1. rewrite marker_error_run. intros [= <- _]. by right.
  - intros file. unfold Bordered.generate_marker.
    apply returns_only_try_catch.
    + repeat returns_step. by left.
    + intros e w0 r w1. rewrite marker_error_run. intros [= <- _]. by right.
  - intros file. unfold Mind.generate_marker.
    apply returns_only_try_catch.
    + repeat returns_step. by left.
    + intros e w0 r w1. rewrite marker_error_run. intros [= <- _]. by right.
Qed.

(** ** Step by step *)

Lemma emit_run (ev : Event) (w : World) :
  emit ev w = (Return tt, add_event ev w).
Proof. reflexivity. Qed.

Lemma console_log_run (args : list LogArg) (w : World) :
  console_log args w = (Return tt, add_event (ConsoleLog args) w).
Proof. reflexivity. Qed.

Lemma console_error_run (args : list LogArg) (w : World) :
  console_error args w = (Return tt, add_event (ConsoleError args) w).
Proof. reflexivity. Qed.

Lemma sharp_eq (env : Env) (call : SharpCall) (image : Buffer) (w : World) :
  sharp env call image w
  = (sharp_run env call image, add_event (SharpDecode call image) w).
Proof. reflexivity. Qed.

Lemma writeFile_ok (env : Env) (path content : string) (w : World) :
  disk_ok env path = true →
  writeFile env path content w = (Return tt, add_file path content w).
Proof. intros Hdisk. unfold writeFile. by rewrite Hdisk. Qed.

Lemma writeFile_fails (env : Env) (path content : string) (w : World) :
  disk_ok env path = false →
  writeFile env path content w = (Throw (MkError ("EACCES: " ++ path)), w).
Proof. intros Hdisk. unfold writeFile. by rewrite Hdisk. Qed.

Lemma try_catch_run {A : Type} (body : Js A) (handler : JsError → Js A)
    (w : World) :
  try_catch body handler w
  = match body w with
    | (Return a, w') => (Return a, w')
    | (Throw e, w') => handler e w'
    end.
Proof. reflexivity. Qed.

Lemma await_run {A : Type} (r : Outcome A) (w : World) :
  (await r : Js A) w = (r, w).
Proof. reflexivity. Qed.

Lemma throw_run {A : Type} (e : JsError) (w : World) :
  (throw e : Js A) w = (Throw e, w).
Proof. reflexivity. Qed.

Ltac js_step :=
  first
    [ rewrite bind_run | rewrite ret_run | rewrite try_catch_run
    | rewrite console_log_run | rewrite console_error_run
    | rewrite emit_run | rewrite sharp_eq | rewrite await_run
    | rewrite throw_run | rewrite marker_error_run ];
  cbv beta iota.

Lemma accepted_route (filter : option (File → Outcome bool))
    (handler : option File → Js Response) (on_error : JsError → Js Response)
    (file : File) (w : World) :
  accepted filter file →
  route filter handler on_error (Some file) w = handler (Some file) w.
Proof. intros Hacc. unfold route. by rewrite Hacc. Qed.

(** X8: when the first sharp call on an accepted upload throws (the bytes
    do not decode), each server answers 500 with the error's message as
    [details], logs it, and writes no file. *)
Theorem decode_failure_is_reported (env : Env) (filename : string)
    (file : File) (e : JsError) (w : World) :
  accepted (Some fileFilter) file →
  (sharp_run env RealPatt.working_resize (buffer file) = Throw e →
   RealPatt.post_generate_marker env filename (Some file) w
   = (Return (marker_failure e),
      add_event (ConsoleError [LStr "마커 생성 오류:"; LErr e])
        (add_event (SharpDecode RealPatt.working_resize (buffer file))
           (add_event (ConsoleLog [LStr "이미지 처리 시작:"; LStr filename])
              w))))
  ∧ (sharp_run env Bordered.working_resize (buffer file) = Throw e →
     Bordered.post_generate_marker env filename (Some file) w
     = (Return (marker_failure e),
        add_event (ConsoleError [LStr "마커 생성 오류:"; LErr e])
          (add_event (SharpDecode Bordered.working_resize (buffer file))
             (add_event (ConsoleLog [LStr "이미지 처리 시작:"; LStr filename])
                w))))
  ∧ (sharp_run env Mind.working_resize (buffer file) = Throw e →
     Mind.post_generate_marker env filename (Some file) w
     = (Return (marker_failure e),
        add_event (ConsoleError [LStr "❌ 마커 생성 오류:"; LErr e])
          (add_event (SharpDecode Mind.working_resize (buffer file))
             (add_event
                (ConsoleLog [LStr "🖼️  이미지 처리 시작:"; LStr filename])
                w))))
  ∧ status (marker_failure e) = 500
  ∧ ∀ ev1 ev2 ev3,
      files (add_event ev1 (add_event ev2 (add_event ev3 w))) = files w.
Proof.
  intros Hacc.
  assert (accepted None file) as Hacc'.
  { unfold accepted, upload_single in *.
    destruct (fileFilter file) as [[]|]; try done. }
  split; [|split; [|split; [|done]]]; intros Hsharp.
  - unfold RealPatt.post_generate_marker. rewrite accepted_route by done.
    unfold RealPatt.generate_marker. repeat js_step. by rewrite Hsharp.
  - unfold Bordered.post_generate_marker. rewrite accepted_route by done.
    unfold Bordered.generate_marker. repeat js_step. by rewrite Hsharp.
  - unfold Mind.post_generate_marker. rewrite accepted_route by done.
    unfold Mind.generate_marker. repeat js_step. by rewrite Hsharp.
Qed.

Lemma decode_failure_is_reported_witness :
  accepted (Some fileFilter) sample_jpeg_upload
  ∧ fst (RealPatt.post_generate_marker undecodable_env "1-2"
           (Some sample_jpeg_upload) empty_world)
    = Return (marker_failure undecodable)
  ∧ fst (Bordered.post_generate_marker undecodable_env "1-2"
           (Some sample_jpeg_upload) empty_world)
    = Return (marker_failure undecodable)
  ∧ fst (Mind.post_generate_marker undecodable_env "1-2"
           (Some sample_jpeg_upload) empty_world)
    = Return (marker_failure undecodable).
Proof.
  destruct (decode_failure_is_reported undecodable_env "1-2"
              sample_jpeg_upload undecodable empty_world eq_refl)
    as (Hreal & Hbordered & Hmind & _).
  split; [reflexivity|].
  rewrite (Hreal eq_refl), (Hbordered eq_refl), (Hmind eq_refl). done.
Defined.

(** ** Artifacts of a failed request *)

Lemma pattern_or_throw_run (data : Buffer) (channels : nat) (w : World) :
  pattern_or_throw data channels w
  = match pattern_text data channels with
    | Some pattern => (Return pattern, w)
    | None => (Throw undefined_toString, w)
    end.
Proof. unfold pattern_or_throw. by destruct (pattern_text data channels). Qed.

Lemma generatePattFile_fails (env : Env) (image : Buffer) (path : string)
    (e : JsError) (w : World) :
  pattern_step_fails env image path e →
  Bordered.generatePattFile env image path w
  = (Throw e, add_event (SharpDecode Bordered.pattern_resize image) w).
Proof.
  unfold Bordered.generatePattFile. repeat js_step.
  intros [-> | (data & info & -> & Hcause)]; [done|]. cbv beta iota.
  repeat js_step. rewrite pattern_or_throw_run.
  destruct Hcause as [[-> ->] | ([pattern ->] & Hdisk & ->)]; [done|].
  by rewrite writeFile_fails.
Qed.

Lemma createTargetImage_run (env : Env) (image resized : Buffer)
    (info : Info) (png : Buffer) (path : string) (w : World) :
  sharp_run env target_resize image = Return (resized, info) →
  sharp_composite env target_canvas (target_layers resized) = Return png →
  disk_ok env path = true →
  createTargetImage env image path w
  = (Return tt,
     add_file path (buffer_contents png)
       (add_event (SharpComposite target_canvas (target_layers resized))
          (add_event (SharpDecode target_resize image) w))).
Proof.
  intros Hresize Hcomposite Hdisk. unfold createTargetImage.
  repeat js_step. rewrite Hresize. cbv beta iota. repeat js_step.
  rewrite Hcomposite. by rewrite writeFile_ok.
Qed.

(** X9: in the server of part_001 the target image is written before the
    pattern.  When the pattern step then fails (the 16 x 16 resize throws,
    the raw buffer is too short, as with fewer than three channels, or the
    pattern file cannot be written), the client gets status 500 although
    the target image of this request has been written and stays on disk;
    no other path changes. *)
Theorem failed_pattern_leaves_target (env : Env) (filename : string)
    (file : File) (optimized resized png : Buffer) (info1 info2 : Info)
    (e : JsError) (w : World) :
  accepted (Some fileFilter) file →
  sharp_run env Bordered.working_resize (buffer file)
    = Return (optimized, info1) →
  sharp_run env target_resize optimized = Return (resized, info2) →
  sharp_composite env target_canvas (target_layers resized) = Return png →
  disk_ok env (target_path ".png" filename) = true →
  pattern_step_fails env optimized (marker_path filename) e →
  ∃ w',
    Bordered.post_generate_marker env filename (Some file) w
      = (Return (marker_failure e), w')
    ∧ status (marker_failure e) = 500
    ∧ files w'
      = <[target_path ".png" filename := buffer_contents png]> (files w)
    ∧ files w' !! marker_path filename = files w !! marker_path filename.
Proof.
  intros Hacc Hworking Hresize Hcomposite Hdisk Hfails.
  unfold Bordered.post_generate_marker. rewrite accepted_route by done.
  unfold Bordered.generate_marker. repeat js_step. rewrite Hworking.
  cbv beta iota. repeat js_step.
  change ("./public/targets/" ++ filename ++ ".png")
    with (target_path ".png" filename).
  change ("./public/markers/" ++ filename ++ ".patt")
    with (marker_path filename).
  rewrite (createTargetImage_run env optimized resized info2 png) by done.
  repeat js_step.
  rewrite (generatePattFile_fails env optimized (marker_path filename) e)
    by done.
  eexists. split; [reflexivity|]. split; [done|]. split; [done|].
  cbn [files add_event add_file]. apply lookup_insert_ne.
  intros Heq. symmetry in Heq. by apply marker_target_differ in Heq.
Qed.

Lemma failed_pattern_leaves_target_witness :
  ∃ w',
    Bordered.post_generate_marker greyscale_env "1-2"
      (Some sample_jpeg_upload) empty_world
      = (Return (marker_failure undefined_toString), w')
    ∧ status (marker_failure undefined_toString) = 500
    ∧ files w'
      = <[target_path ".png" "1-2" := buffer_contents []]> (files empty_world)
    ∧ files w' !! marker_path "1-2" = files empty_world !! marker_path "1-2".
Proof.
  apply (failed_pattern_leaves_target greyscale_env "1-2" sample_jpeg_upload
           (buffer sample_jpeg_upload) (buffer sample_jpeg_upload) []
           {| info_width := 16; info_height := 16; info_channels := 3 |}
           {| info_width := 16; info_height := 16; info_channels := 3 |}
           undefined_toString empty_world);
    try reflexivity.
  right. eexists _, _. split; [reflexivity|]. left. split; [|reflexivity].
  by vm_compute.
Defined.

(** ** The .mind server, whatever the compiler does *)

Lemma compileMindARTarget_run (env : Env) (image : Buffer)
    (outputPath : string) (w : World) :
  disk_ok env outputPath = true →
  ∃ w', Mind.compileMindARTarget env image outputPath w = (Return tt, w')
        ∧ files w' = <[outputPath := compiled_contents env image]> (files w).
Proof.
  intros Hdisk. unfold Mind.compileMindARTarget, compiled_contents.
  rewrite try_catch_run. repeat js_step.
  destruct (mindar_load env image) as [imageData|e] eqn:Hload.
  - cbv beta iota. repeat js_step.
    match goal with
    | |- context [Mind.log_progress ?ps ?w0] =>
        destruct (log_progress_run ps w0) as (w1 & -> & Hfiles & _)
    end.
    cbv beta iota. repeat js_step.
    destruct (snd (mindar_compile env imageData)) as [exported|e].
    + cbv beta iota. rewrite bind_run, writeFile_ok by done. cbv beta iota.
      repeat js_step. eexists. split; [reflexivity|].
      cbn [files add_event add_file]. by rewrite Hfiles.
    + cbv beta iota. repeat js_step. rewrite writeFile_ok by done.
      eexists. split; [reflexivity|].
      cbn [files add_event add_file]. by rewrite Hfiles.
  - cbv beta iota. repeat js_step. rewrite writeFile_ok by done.
    eexists. split; [reflexivity|]. done.
Qed.

Lemma mind_generate_marker_run (env : Env) (filename : string) (file : File)
    (optimized : Buffer) (info : Info) (w : World) :
  sharp_run env Mind.working_resize (buffer file) = Return (optimized, info) →
  disk_ok env (target_path ".jpg" filename) = true →
  disk_ok env (target_path ".mind" filename) = true →
  ∃ w',
    Mind.generate_marker env filename (Some file) w
      = (Return (mind_success env filename), w')
    ∧ files w'
      = <[target_path ".mind" filename := compiled_contents env optimized]>
          (<[target_path ".jpg" filename := buffer_contents optimized]>
             (files w)).
Proof.
  intros Hsharp Hjpg Hmind. unfold Mind.generate_marker.
  repeat js_step. rewrite Hsharp. cbv beta iota. repeat js_step.
  change ("./public/targets/" ++ filename ++ ".jpg")
    with (target_path ".jpg" filename).
  change ("./public/targets/" ++ filename ++ ".mind")
    with (target_path ".mind" filename).
  rewrite writeFile_ok by done. cbv beta iota. repeat js_step.
  match goal with
  | |- context [Mind.compileMindARTarget env optimized ?path ?w0] =>
      destruct (compileMindARTarget_run env optimized path w0 Hmind)
        as (w1 & -> & Hfiles)
  end.
  cbv beta iota. repeat js_step. eexists. split; [reflexivity|].
  cbn [files add_event]. by rewrite Hfiles.
Qed.

(** X10: in the .mind server, when the resize of the upload and the two
    writes work, the request gets the success response whatever the
    tracking compiler does; the .jpg path then holds the resized upload
    and the .mind path holds the exported data if loading and compiling
    returned, and the placeholder otherwise; nothing else changes. *)
Theorem mind_request_outcome (env : Env) (filename : string) (file : File)
    (optimized : Buffer) (info : Info) (w : World) :
  accepted None file →
  sharp_run env Mind.working_resize (buffer file) = Return (optimized, info) →
  disk_ok env (target_path ".jpg" filename) = true →
  disk_ok env (target_path ".mind" filename) = true →
  ∃ w',
    Mind.post_generate_marker env filename (Some file) w
      = (Return (mind_success env filename), w')
    ∧ files w' !! target_path ".jpg" filename
      = Some (buffer_contents optimized)
    ∧ files w' !! target_path ".mind" filename
      = Some (compiled_contents env optimized)
    ∧ (compiled_contents env optimized = "MINDAR_COMPILED"
       ∨ ∃ imageData exported,
           mindar_load env optimized = Return imageData
           ∧ snd (mindar_compile env imageData) = Return exported
           ∧ compiled_contents env optimized = buffer_contents exported)
    ∧ same_outside [target_path ".jpg" filename; target_path ".mind" filename]
        w w'.
Proof.
  intros Hacc Hsharp Hjpg Hmind.
  unfold Mind.post_generate_marker. rewrite accepted_route by done.
  destruct (mind_generate_marker_run env filename file optimized info w
              Hsharp Hjpg Hmind) as (w' & -> & Hfiles).
  exists w'. split; [done|]. rewrite Hfiles. split; [|split; [|split]].
  - rewrite lookup_insert_ne by (intros Heq; symmetry in Heq;
                                 by apply target_ext_differ in Heq).
    apply lookup_insert_eq.
  - apply lookup_insert_eq.
  - unfold compiled_contents.
    destruct (mindar_load env optimized) as [imageData|]; [|by left].
    destruct (snd (mindar_compile env imageData)) as [exported|] eqn:Hc;
      [|by left].
    right. by exists imageData, exported.
  - intros path Hpath. rewrite Hfiles.
    rewrite !not_elem_of_cons in Hpath. destruct Hpath as (? & ? & _).
    by rewrite !lookup_insert_ne.
Qed.

Lemma mind_request_outcome_witness :
  ∃ w',
    Mind.post_generate_marker sample_env "1700000000000"
      (Some sample_jpeg_upload) empty_world
      = (Return (mind_success sample_env "1700000000000"), w')
    ∧ files w' !! target_path ".jpg" "1700000000000"
      = Some (buffer_contents (buffer sample_jpeg_upload))
    ∧ files w' !! target_path ".mind" "1700000000000"
      = Some (compiled_contents sample_env (buffer sample_jpeg_upload))
    ∧ (compiled_contents sample_env (buffer sample_jpeg_upload)
       = "MINDAR_COMPILED"
       ∨ ∃ imageData exported,
           mindar_load sample_env (buffer sample_jpeg_upload)
             = Return imageData
           ∧ snd (mindar_compile sample_env imageData) = Return exported
           ∧ compiled_contents sample_env (buffer sample_jpeg_upload)
             = buffer_contents exported)
    ∧ same_outside
        [target_path ".jpg" "1700000000000";
         target_path ".mind" "1700000000000"] empty_world w'.
Proof.
  exact (mind_request_outcome sample_env "1700000000000" sample_jpeg_upload
           (buffer sample_jpeg_upload)
           {| info_width := 16; info_height := 16; info_channels := 3 |}
           empty_world eq_refl eq_refl eq_refl eq_refl).
Defined.



(** ** The start button of the client *)

Lemma report_progress_run (percents : list nat) (s : Client.State) :
  ∃ s', Client.report_progress percents s = (Return tt, s').
Proof.
  revert s. induction percents as [|p rest IH]; intros s; [by eexists|].
  cbn [Client.report_progress].
  unfold mbind, JsM_bind, Client.set_loadingProgress, Client.emit.
  apply IH.
Qed.

Ltac client_unfold :=
  unfold try_catch, mbind, JsM_bind, mret, JsM_ret, await, throw,
    Client.emit, Client.show, Client.set_loadingText,
    Client.set_loadingProgress, Client.set_compiledData;
  cbn -[Nat.ltb Client.report_progress Client.start_failed].

(** X12: a click on the start button with a file selected never throws and
    never stays on the loading screen.  It ends on the AR screen, with the
    compiled data stored, exactly when the image loads, both sides are
    between 300 and 2000, the library is there, the compiler returns at
    least 100 bytes before the 30 second timer fires, and the scene
    initialises; otherwise, and so when the timer is first, it ends on the
    upload screen and the last thing it does is an alert. *)
Theorem start_click_outcome (b : Client.Browser) (s : Client.State)
    (file : Buffer) :
  Client.selectedFile s = Some file →
  ∃ s',
    Client.startBtn_click b s = (Return tt, s')
    ∧ ((∃ data, starts b file data
                ∧ Client.screen s' = Client.ArScreen
                ∧ Client.compiledData s' = Some data)
       ∨ ((∀ data, ¬ starts b file data)
          ∧ Client.screen s' = Client.UploadScreen
          ∧ ∃ e, last (Client.events s')
                 = Some (Client.Alert (Client.start_failed e)))).
Proof.
  intros Hfile. unfold Client.startBtn_click. rewrite Hfile.
  client_unfold.
  destruct (Client.loadImage b file) as [img|e] eqn:Hload; client_unfold.
  2:{ eexists. split; [reflexivity|]. right. cbn. split; [|split; [done|]].
      - intros data (img & Himg & _). congruence.
      - exists e. by rewrite last_snoc. }
  destruct ((Client.width img <? 300) || (Client.height img <? 300))
    eqn:Hsmall; client_unfold.
  { eexists. split; [reflexivity|]. right. cbn. split; [|split; [done|]].
    - intros data (img' & Himg & Hw & Hh & _).
      assert (img' = img) as -> by congruence.
      apply orb_true_iff in Hsmall. rewrite !Nat.ltb_lt in Hsmall. lia.
    - eexists. by rewrite last_snoc. }
  destruct ((2000 <? Client.width img) || (2000 <? Client.height img))
    eqn:Hlarge; client_unfold.
  { eexists. split; [reflexivity|]. right. cbn. split; [|split; [done|]].
    - intros data (img' & Himg & Hw & Hh & _).
      assert (img' = img) as -> by congruence.
      apply orb_true_iff in Hlarge. rewrite !Nat.ltb_lt in Hlarge. lia.
    - eexists. by rewrite last_snoc. }
  apply orb_false_iff in Hsmall as [Hw1 Hh1].
  apply orb_false_iff in Hlarge as [Hw2 Hh2].
  apply Nat.ltb_ge in Hw1, Hh1, Hw2, Hh2.
  unfold Client.compileImageTarget. client_unfold.
  destruct (Client.MINDAR_loaded b) eqn:Hlib; client_unfold.
  2:{ eexists. split; [reflexivity|]. right. cbn. split; [|split; [done|]].
      - intros data (img' & Himg & _ & _ & Hlib' & _). congruence.
      - eexists. by rewrite last_snoc. }
  destruct (Client.compile_timer b img) as [reported|] eqn:Htimer.
  { match goal with
    | |- context [Client.report_progress ?ps ?s0] =>
        destruct (report_progress_run ps s0) as (s1 & ->)
    end.
    client_unfold.
    eexists. split; [reflexivity|]. right. cbn. split; [|split; [done|]].
    - intros data (img' & Himg & _ & _ & _ & Htimer' & _).
      assert (img' = img) as -> by congruence. congruence.
    - eexists. by rewrite last_snoc. }
  match goal with
  | |- context [Client.report_progress ?ps ?s0] =>
      destruct (report_progress_run ps s0) as (s1 & ->)
  end.
  client_unfold.
  destruct (snd (Client.compileImageTargets b img)) as [data|e] eqn:Hcompile;
    client_unfold.
  2:{ eexists. split; [reflexivity|]. right. cbn. split; [|split; [done|]].
      - intros data (img' & Himg & _ & _ & _ & _ & Hdata & _).
        assert (img' = img) as -> by congruence. congruence.
      - eexists. by rewrite last_snoc. }
  destruct (length data <? 100) eqn:Hlen; client_unfold.
  { eexists. split; [reflexivity|]. right. cbn. split; [|split; [done|]].
    - intros data' (img' & Himg & _ & _ & _ & _ & Hdata & Hlen' & _).
      assert (img' = img) as -> by congruence.
      assert (data' = data) as -> by congruence.
      apply Nat.ltb_lt in Hlen. lia.
    - eexists. by rewrite last_snoc. }
  apply Nat.ltb_ge in Hlen.
  destruct (Client.initializeARScene b data) as [[]|e] eqn:Hinit;
    client_unfold.
  - eexists. split; [reflexivity|]. left. exists data. cbn.
    split; [|done]. exists img. repeat split; done.
  - eexists. split; [reflexivity|]. right. cbn. split; [|split; [done|]].
    + intros data' (img' & Himg & _ & _ & _ & _ & Hdata & _ & Hinit').
      assert (img' = img) as -> by congruence.
      assert (data' = data) as -> by congruence. congruence.
    + eexists. by rewrite last_snoc.
Qed.

Lemma start_click_outcome_witness :
  let b := sample_browser {| Client.width := 640; Client.height := 480 |} in
  ∃ s',
    Client.startBtn_click b (selected_state []) = (Return tt, s')
    ∧ ((∃ data, starts b [] data
                ∧ Client.screen s' = Client.ArScreen
                ∧ Client.compiledData s' = Some data)
       ∨ ((∀ data, ¬ starts b [] data)
          ∧ Client.screen s' = Client.UploadScreen
          ∧ ∃ e, last (Client.events s')
                 = Some (Client.Alert (Client.start_failed e)))).
Proof.
  intros b. exact (start_click_outcome b (selected_state []) [] eq_refl).
Defined.

(** X13: an image with a side above 2000 (and none below 300) is never
    compiled: after [resizeImage] is called, the assignment of its result
    to the [const img] throws, the alert shows "Assignment to constant
    variable." and the page is back on the upload screen. *)
Theorem large_image_never_starts (b : Client.Browser) (s : Client.State)
    (file : Buffer) (img : Client.Image) :
  Client.selectedFile s = Some file →
  Client.loadImage b file = Return img →
  300 ≤ Client.width img → 300 ≤ Client.height img →
  2000 < Client.width img ∨ 2000 < Client.height img →
  ∃ s' before,
    Client.startBtn_click b s = (Return tt, s')
    ∧ Client.events s'
      = (Client.events s ++ before
         ++ [Client.Resize img 1024;
             Client.LogError "AR 시작 실패:" Client.const_assignment;
             Client.Alert (Client.start_failed Client.const_assignment)])%list
    ∧ (∀ ev, ev ∈ before → ∃ args, ev = Client.Log args)
    ∧ Client.compiledData s' = Client.compiledData s
    ∧ Client.screen s' = Client.UploadScreen.
Proof.
  intros Hfile Hload Hw Hh Hlarge.
  assert ((Client.width img <? 300) || (Client.height img <? 300) = false)
    as Hsmall.
  { apply orb_false_iff. rewrite !Nat.ltb_ge. done. }
  assert ((2000 <? Client.width img) || (2000 <? Client.height img) = true)
    as Hcheck.
  { apply orb_true_iff. rewrite !Nat.ltb_lt. exact Hlarge. }
  unfold Client.startBtn_click. rewrite Hfile.
  client_unfold. rewrite Hload. client_unfold. rewrite Hsmall.
  client_unfold. rewrite Hcheck. client_unfold.
  eexists _, [_; _; _]. split; [reflexivity|]. cbn.
  split; [by rewrite <- !app_assoc|]. split; [|done].
  intros ev Hev. rewrite !elem_of_cons in Hev. rewrite elem_of_nil in Hev.
  destruct Hev as [-> | [-> | [-> | []]]]; by eexists.
Qed.

Lemma large_image_never_starts_witness :
  let img := {| Client.width := 4000; Client.height := 3000 |} in
  ∃ s' before,
    Client.startBtn_click (sample_browser img) (selected_state [])
      = (Return tt, s')
    ∧ Client.events s'
      = ([] ++ before
         ++ [Client.Resize img 1024;
             Client.LogError "AR 시작 실패:" Client.const_assignment;
             Client.Alert (Client.start_failed Client.const_assignment)])%list
    ∧ (∀ ev, ev ∈ before → ∃ args, ev = Client.Log args)
    ∧ Client.compiledData s' = None
    ∧ Client.screen s' = Client.UploadScreen.
Proof.
  intros img.
  apply (large_image_never_starts (sample_browser img) (selected_state [])
           [] img eq_refl eq_refl); simpl; lia.
Defined.

(** ** File names that pass the filter *)

Lemma last_dot_dotted (base ext : string) :
  last_dot ext = None →
  last_dot (base ++ "." ++ ext) = Some (String.length base).
Proof.
  intros Hext. induction base as [|c base IH].
  - rewrite append_nil_l, append_cons, append_nil_l.
    cbn [last_dot]. by rewrite Hext.
  - rewrite append_cons. cbn [last_dot String.length]. by rewrite IH.
Qed.

Lemma string_drop_append (a b : string) :
  string_drop (String.length a) (a ++ b) = b.
Proof. induction a as [|c a IH]; [done | by rewrite append_cons]. Qed.

Lemma path_extname_dotted (base ext : string) (c : ascii) :
  last_dot ext = None →
  path_extname (String c base ++ "." ++ ext)
  = if String.eqb (String c base ++ "." ++ ext) ".." then ""
    else "." ++ ext.
Proof.
  intros Hext. unfold path_extname. rewrite last_dot_dotted by done.
  cbn [String.length]. destruct (String.eqb _ ".."); [done|].
  exact (string_drop_append (String c base) ("." ++ ext)).
Qed.

Lemma regex_test_dot (s : string) :
  regex_test allowedTypes (String "." s) = regex_test allowedTypes s.
Proof. reflexivity. Qed.

(** X14: which names the upload filter of part_000 and part_001 accepts.
    A name [base.ext], where [ext] has no dot, is accepted exactly when
    [base] is not empty, [ext] in lower case contains [jpeg], [jpg] or
    [png], and the declared type contains one of them; the bytes of the
    upload play no part.  A name without a dot is rejected. *)
Theorem fileFilter_by_extension (base ext mime : string) (bytes : Buffer) :
  last_dot ext = None →
  fileFilter {| originalname := base ++ "." ++ ext; mimetype := mime;
                buffer := bytes |}
  = (if negb (String.eqb base "")
        && regex_test allowedTypes (toLowerCase ext)
        && regex_test allowedTypes mime
     then Return true else Throw filter_error)
  ∧ fileFilter {| originalname := ext; mimetype := mime; buffer := bytes |}
    = Throw filter_error.
Proof.
  intros Hext. split.
  - unfold fileFilter. cbn [originalname mimetype].
    destruct base as [|c base].
    + rewrite append_nil_l, append_cons, append_nil_l.
      unfold path_extname. cbn [last_dot]. rewrite Hext.
      cbn. by rewrite andb_false_r.
    + rewrite path_extname_dotted by done.
      destruct (String.eqb (String c base ++ "." ++ ext) "..") eqn:Hname.
      * apply String.eqb_eq in Hname. rewrite append_cons in Hname.
        injection Hname as -> Hname.
        destruct base as [|c' base].
        -- rewrite append_nil_l, append_cons, append_nil_l in Hname.
           injection Hname as ->. cbn. by rewrite andb_false_r.
        -- rewrite append_cons in Hname. injection Hname as _ Hname.
           destruct base; done.
      * rewrite append_cons, append_nil_l.
        cbn [toLowerCase]. change (lower_char ".") with "."%char.
        rewrite regex_test_dot. cbn [String.eqb negb andb].
        by rewrite andb_comm.
  - unfold fileFilter, path_extname. cbn [originalname mimetype].
    rewrite Hext. cbn. by rewrite andb_false_r.
Qed.

Lemma fileFilter_by_extension_witness :
  fileFilter {| originalname := "Holiday.photo" ++ "." ++ "JPG";
                mimetype := "image/jpeg"; buffer := [] |}
  = (if negb (String.eqb "Holiday.photo" "")
        && regex_test allowedTypes (toLowerCase "JPG")
        && regex_test allowedTypes "image/jpeg"
     then Return true else Throw filter_error)
  ∧ fileFilter {| originalname := "JPG"; mimetype := "image/jpeg";
                  buffer := [] |}
    = Throw filter_error.
Proof.
  exact (fileFilter_by_extension "Holiday.photo" "JPG" "image/jpeg" []
           eq_refl).
Defined.

(** ** The server that stores uploads on disk *)

Lemma last_dot_drop (s : string) (i : nat) :
  last_dot s = Some i →
  ∃ e, string_drop i s = String "." e ∧ last_dot e = None.
Proof.
  revert i. induction s as [|c s IH]; intros i; [done|].
  cbn [last_dot]. destruct (last_dot s) as [j|] eqn:Hs.
  - intros [= <-]. cbn [string_drop]. by apply IH.
  - destruct (Ascii.eqb c ".") eqn:Hc; [|done]. intros [= <-].
    apply Ascii.eqb_eq in Hc as ->. by exists s.
Qed.

Lemma path_extname_shape (name : string) :
  path_extname name = ""
  ∨ ∃ e, path_extname name = String "." e ∧ last_dot e = None.
Proof.
  unfold path_extname. destruct (last_dot name) as [[|i]|] eqn:Hdot;
    [by left| |by left].
  destruct (String.eqb name ".."); [by left|]. right.
  by apply last_dot_drop.
Qed.

Lemma substring_append (a b : string) :
  String.substring 0 (String.length a) (a ++ b) = a.
Proof.
  induction a as [|c a IH]; [by destruct b|].
  rewrite append_cons. cbn [String.length String.substring]. by rewrite IH.
Qed.

Lemma last_dot_none_ne (c : ascii) (base ext : string) :
  last_dot (String c base) = None → String c base ++ "." ++ ext ≠ "..".
Proof.
  intros Hdot Heq. rewrite append_cons in Heq. injection Heq as -> Heq.
  cbn [last_dot] in Hdot. by destruct (last_dot base).
Qed.

(** The name under which the handler files the artifacts is the unique
    name drawn by the storage. *)
Lemma path_parse_name_unique (uniqueName original : string) :
  uniqueName ≠ "" → last_dot uniqueName = None →
  path_parse_name (uniqueName ++ path_extname original) = uniqueName.
Proof.
  intros Hne Hdot. unfold path_parse_name.
  destruct (path_extname_shape original) as [-> | (e & -> & He)].
  - rewrite append_nil_r. unfold path_extname. rewrite Hdot.
    cbn [String.length]. rewrite Nat.sub_0_r.
    rewrite <- (append_nil_r uniqueName) at 2. apply substring_append.
  - destruct uniqueName as [|c base]; [done|].
    change (String "." e) with ("." ++ e).
    rewrite path_extname_dotted by done.
    destruct (String.eqb_spec (String c base ++ "." ++ e) "..") as [Heq|_];
      [by apply last_dot_none_ne in Heq|].
    rewrite string_length_append.
    replace (_ + _ - _) with (String.length (String c base)) by lia.
    apply substring_append.
Qed.

Lemma Buffer_from_contents (b : Buffer) : Buffer_from (buffer_contents b) = b.
Proof. apply list_byte_of_string_of_list_byte. Qed.

Lemma sharp_file_run (env : Env) (call : SharpCall) (path content : string)
    (w : World) :
  files w !! path = Some content →
  DiskUpload.sharp_file env call path w
  = (sharp_run env call (Buffer_from content),
     add_event (SharpDecode call (Buffer_from content)) w).
Proof.
  intros Hfile. unfold DiskUpload.sharp_file. rewrite Hfile.
  by repeat js_step.
Qed.

Lemma upload_ne_optimized (a b : string) : "uploads/" ++ a ≠ "./uploads/" ++ b.
Proof. intros H. vm_compute in H. congruence. Qed.

Lemma disk_paths_differ (u : string) :
  optimized_path u ≠ disk_target_path u
  ∧ optimized_path u ≠ disk_marker_path u
  ∧ disk_target_path u ≠ disk_marker_path u.
Proof. repeat split; intros H; vm_compute in H; congruence. Qed.

Lemma upload_path_differs (u : string) (file : File) :
  upload_path u file ≠ optimized_path u
  ∧ upload_path u file ≠ disk_target_path u
  ∧ upload_path u file ≠ disk_marker_path u.
Proof. repeat split; intros H; vm_compute in H; congruence. Qed.

Lemma disk_upload_run (env : Env) (uniqueName : string) (file : File)
    (w : World) :
  fileFilter file = Return true →
  (N.of_nat (length (buffer file)) ≤ fileSize_limit)%N →
  disk_ok env (upload_path uniqueName file) = true →
  DiskUpload.upload_single env uniqueName (Some file) w
  = (Return (Some {| DiskUpload.stored_filename :=
                       uniqueName ++ path_extname (originalname file);
                     DiskUpload.stored_path := upload_path uniqueName file |}),
     add_file (upload_path uniqueName file) (buffer_contents (buffer file))
       (advance 1 w)).
Proof.
  intros Hfilter Hsize Hdisk.
  unfold DiskUpload.upload_single, DiskUpload.diskStorage. rewrite Hfilter.
  apply N.leb_le in Hsize. rewrite Hsize.
  change ("uploads/" ++ uniqueName ++ path_extname (originalname file))
    with (upload_path uniqueName file).
  repeat js_step. unfold DiskUpload.Math_random_call. cbv beta iota.
  repeat js_step. rewrite writeFile_ok by done. by repeat js_step.
Qed.

(** X15: a successful request of the server that stores uploads on disk.
    The artifacts are filed under the unique name of the upload; the
    uploaded file is deleted, the optimized copy stays in [uploads], the
    target image is the composite, and the marker is the rendering of 768
    random draws, the same whatever the image is. *)
Theorem disk_request_success (env : Env) (uniqueName : string) (file : File)
    (optimized resized png : Buffer) (info1 info2 : Info) (w : World) :
  fileFilter file = Return true →
  (N.of_nat (length (buffer file)) ≤ fileSize_limit)%N →
  uniqueName ≠ "" → last_dot uniqueName = None →
  disk_ok env (upload_path uniqueName file) = true →
  disk_ok env (optimized_path uniqueName) = true →
  disk_ok env (disk_target_path uniqueName) = true →
  disk_ok env (disk_marker_path uniqueName) = true →
  sharp_run env DiskUpload.working_resize (buffer file)
    = Return (optimized, info1) →
  sharp_run env target_resize optimized = Return (resized, info2) →
  sharp_composite env target_canvas (target_layers resized) = Return png →
  ∃ w',
    DiskUpload.post_generate_marker env uniqueName (Some file) w
      = (Return (disk_success uniqueName), w')
    ∧ files w' !! upload_path uniqueName file = None
    ∧ files w' !! optimized_path uniqueName
      = Some (buffer_contents optimized)
    ∧ files w' !! disk_target_path uniqueName = Some (buffer_contents png)
    ∧ files w' !! disk_marker_path uniqueName
      = Some (render_grid (random_grid env (random_calls w + 1)))
    ∧ random_calls w' = random_calls w + 769.
Proof.
  intros Hfilter Hsize Hne Hdot Hup Hopt Htarget Hmarker Hworking Hresize
    Hcomposite.
  destruct (disk_paths_differ uniqueName) as (Hot & Hom & Htm).
  destruct (upload_path_differs uniqueName file) as (Huo & Hut & Hum).
  unfold DiskUpload.post_generate_marker.
  rewrite disk_upload_run by done. cbv beta iota.
  unfold DiskUpload.generate_marker.
  cbn [DiskUpload.stored_filename DiskUpload.stored_path].
  rewrite path_parse_name_unique by done.
  change ("./uploads/" ++ uniqueName ++ "-optimized.jpg")
    with (optimized_path uniqueName).
  change ("./public/targets/" ++ uniqueName ++ ".png")
    with (disk_target_path uniqueName).
  change ("./markers/" ++ uniqueName ++ ".patt")
    with (disk_marker_path uniqueName).
  repeat js_step.
  rewrite (sharp_file_run _ _ _ (buffer_contents (buffer file)))
    by apply lookup_insert_eq.
  rewrite Buffer_from_contents, Hworking. cbv beta iota. repeat js_step.
  rewrite writeFile_ok by done. cbv beta iota. repeat js_step.
  unfold DiskUpload.createTargetImage.
  cbn [files add_event add_file]. rewrite lookup_insert_eq.
  rewrite Buffer_from_contents.
  rewrite (createTargetImage_run env optimized resized info2 png) by done.
  cbv beta iota. repeat js_step.
  unfold DemoPatt.generatePattFile.
  repeat js_step. rewrite generateSimplePattern_run. cbv beta iota.
  rewrite writeFile_ok by done. cbv beta iota. repeat js_step.
  unfold DiskUpload.unlink. cbn [files add_event add_file advance].
  rewrite !(lookup_insert_ne _ _ (upload_path uniqueName file)) by done.
  rewrite lookup_insert_eq. repeat js_step.
  eexists. split; [reflexivity|].
  cbn [files trace random_calls add_event add_file advance].
  split; [apply lookup_delete_eq|].
  rewrite !lookup_delete_ne by done.
  split; [|split; [|split]].
  - rewrite !(lookup_insert_ne _ _ (optimized_path uniqueName)) by done.
    apply lookup_insert_eq.
  - rewrite (lookup_insert_ne _ _ (disk_target_path uniqueName)) by done.
    apply lookup_insert_eq.
  - apply lookup_insert_eq.
  - lia.
Qed.

Lemma disk_request_success_witness :
  ∃ w',
    DiskUpload.post_generate_marker sample_env "1700000000000-123456789"
      (Some sample_jpeg_upload) empty_world
      = (Return (disk_success "1700000000000-123456789"), w')
    ∧ files w' !! upload_path "1700000000000-123456789" sample_jpeg_upload
      = None
    ∧ files w' !! optimized_path "1700000000000-123456789"
      = Some (buffer_contents (buffer sample_jpeg_upload))
    ∧ files w' !! disk_target_path "1700000000000-123456789"
      = Some (buffer_contents [])
    ∧ files w' !! disk_marker_path "1700000000000-123456789"
      = Some (render_grid
                (random_grid sample_env (random_calls empty_world + 1)))
    ∧ random_calls w' = random_calls empty_world + 769.
Proof.
  apply (disk_request_success sample_env "1700000000000-123456789"
           sample_jpeg_upload (buffer sample_jpeg_upload)
           (buffer sample_jpeg_upload) []
           {| info_width := 16; info_height := 16; info_channels := 3 |}
           {| info_width := 16; info_height := 16; info_channels := 3 |}
           empty_world); try reflexivity.
  - by vm_compute.
  - discriminate.
Defined.

Ltac other_path :=
  let H := fresh in intros H; vm_compute in H; congruence.

(** X16: every accepted upload of that server is answered, and a request
    that does not succeed never cleans up: either the response is the
    success response and the uploaded file has been deleted, or the status
    is 500 and the uploaded file is still in [uploads]. *)
Theorem disk_request_failure_keeps_upload (env : Env) (uniqueName : string)
    (file : File) (w : World) :
  fileFilter file = Return true →
  (N.of_nat (length (buffer file)) ≤ fileSize_limit)%N →
  disk_ok env (upload_path uniqueName file) = true →
  ∃ response w',
    DiskUpload.post_generate_marker env uniqueName (Some file) w
      = (Return response, w')
    ∧ (response
       = disk_success
           (path_parse_name (uniqueName ++ path_extname (originalname file)))
       ∧ files w' !! upload_path uniqueName file = None
       ∨ status response = 500
         ∧ files w' !! upload_path uniqueName file
           = Some (buffer_contents (buffer file))).
Proof.
  intros Hfilter Hsize Hup.
  unfold DiskUpload.post_generate_marker.
  rewrite disk_upload_run by done. cbv beta iota.
  unfold DiskUpload.generate_marker, disk_success.
  cbn [DiskUpload.stored_filename DiskUpload.stored_path].
  set (f := path_parse_name _). clearbody f.
  unfold upload_path in *.
  set (name := uniqueName ++ path_extname (originalname file)) in *.
  clearbody name.
  repeat js_step.
  rewrite (sharp_file_run _ _ _ (buffer_contents (buffer file)))
    by apply lookup_insert_eq.
  rewrite Buffer_from_contents.
  destruct (sharp_run env DiskUpload.working_resize (buffer file))
    as [[optimized info1]|e]; cbv beta iota; repeat js_step.
  2:{ eexists _, _. split; [reflexivity|]. right. split; [done|].
      apply lookup_insert_eq. }
  destruct (disk_ok env ("./uploads/" ++ f ++ "-optimized.jpg")) eqn:Hopt.
  2:{ rewrite writeFile_fails by done. cbv beta iota. repeat js_step.
      eexists _, _. split; [reflexivity|]. right. split; [done|].
      apply lookup_insert_eq. }
  rewrite writeFile_ok by done. cbv beta iota. repeat js_step.
  unfold DiskUpload.createTargetImage.
  cbn [files add_event add_file]. rewrite lookup_insert_eq.
  rewrite Buffer_from_contents. unfold createTargetImage.
  repeat js_step.
  destruct (sharp_run env target_resize optimized) as [[resized info2]|e];
    cbv beta iota; repeat js_step.
  2:{ eexists _, _. split; [reflexivity|]. right. split; [done|].
      cbn [files add_event add_file advance].
      rewrite lookup_insert_ne by other_path. apply lookup_insert_eq. }
  destruct (sharp_composite env target_canvas (target_layers resized))
    as [png|e]; cbv beta iota; repeat js_step.
  2:{ eexists _, _. split; [reflexivity|]. right. split; [done|].
      cbn [files add_event add_file advance].
      rewrite lookup_insert_ne by other_path. apply lookup_insert_eq. }
  destruct (disk_ok env ("./public/targets/" ++ f ++ ".png")) eqn:Htarget.
  2:{ rewrite writeFile_fails by done. cbv beta iota. repeat js_step.
      eexists _, _. split; [reflexivity|]. right. split; [done|].
      cbn [files add_event add_file advance].
      rewrite lookup_insert_ne by other_path. apply lookup_insert_eq. }
  rewrite writeFile_ok by done. cbv beta iota. repeat js_step.
  unfold DemoPatt.generatePattFile.
  repeat js_step. rewrite generateSimplePattern_run. cbv beta iota.
  destruct (disk_ok env ("./markers/" ++ f ++ ".patt")) eqn:Hmarker.
  2:{ rewrite writeFile_fails by done. cbv beta iota. repeat js_step.
      eexists _, _. split; [reflexivity|]. right. split; [done|].
      cbn [files add_event add_file advance].
      rewrite !(lookup_insert_ne _ _ ("uploads/" ++ name)) by other_path.
      apply lookup_insert_eq. }
  rewrite writeFile_ok by done. cbv beta iota. repeat js_step.
  unfold DiskUpload.unlink. cbn [files add_event add_file advance].
  rewrite !(lookup_insert_ne _ _ ("uploads/" ++ name)) by other_path.
  rewrite lookup_insert_eq. repeat js_step.
  eexists _, _. split; [reflexivity|]. left. split; [done|].
  cbn [files]. apply lookup_delete_eq.
Qed.

Lemma disk_request_failure_keeps_upload_witness :
  ∃ response w',
    DiskUpload.post_generate_marker undecodable_env "1700000000000-123456789"
      (Some sample_jpeg_upload) empty_world = (Return response, w')
    ∧ (response
       = disk_success
           (path_parse_name
              ("1700000000000-123456789"
               ++ path_extname (originalname sample_jpeg_upload)))
       ∧ files w'
         !! upload_path "1700000000000-123456789" sample_jpeg_upload = None
       ∨ status response = 500
         ∧ files w'
           !! upload_path "1700000000000-123456789" sample_jpeg_upload
           = Some (buffer_contents (buffer sample_jpeg_upload))).
Proof.
  apply (disk_request_failure_keeps_upload undecodable_env
           "1700000000000-123456789" sample_jpeg_upload empty_world);
    try reflexivity.
  by vm_compute.
Defined.

(** ** The bordered target, as the server writes it *)








(** ** Nearest-neighbour samples *)



Lemma halve_lookup (pixel : nat → nat → nat → option byte) (data : Buffer)
    (x y c : nat) :
  halve pixel = Some data → x < 16 → y < 16 → c < 3 →
  ∃ value, data !! ((y * 16 + x) * 3 + c) = Some value
           ∧ pixel x y c = Some value.
Proof.
  intros Hdata Hx Hy Hc. unfold halve in Hdata.
  apply mapM_Some_1 in Hdata.
  assert (seq 0 768 !! ((y * 16 + x) * 3 + c) = Some ((y * 16 + x) * 3 + c))
    as Hi by (apply lookup_seq; lia).
  destruct (Forall2_lookup_l _ _ _ _ _ Hdata Hi) as (value & Hvalue & Hpixel).
  exists value. split; [done|].
  assert (((y * 16 + x) * 3 + c) / 3 = y * 16 + x) as Hdiv.
  { symmetry. apply (Nat.div_unique _ 3 _ c); lia. }
  assert (((y * 16 + x) * 3 + c) mod 3 = c) as Hmod.
  { symmetry. apply (Nat.mod_unique _ 3 (y * 16 + x)); lia. }
  assert ((y * 16 + x) / 16 = y) as Hrow.
  { symmetry. apply (Nat.div_unique _ 16 _ x); lia. }
  assert ((y * 16 + x) mod 16 = x) as Hcol.
  { symmetry. apply (Nat.mod_unique _ 16 y); lia. }
  by rewrite Hdiv, Hmod, Hrow, Hcol in Hpixel.
Qed.

Lemma halve_length (pixel : nat → nat → nat → option byte) (data : Buffer) :
  halve pixel = Some data → length data = 768.
Proof.
  intros Hdata. apply length_mapM in Hdata. by rewrite length_seq in Hdata.
Qed.

(** The resampling environment resamples by the kernel it is given. *)
Lemma resampling_env_honours_nearest :
  honours_nearest resampling_env raw32_decode.
Proof.
  intros call image data info Hrun Hout _ _ Hkernel.
  cbn [sharp_run resampling_env] in Hrun. rewrite Hout, Hkernel in Hrun.
  destruct (nearest_half image) as [half|] eqn:Hhalf; [|done].
  injection Hrun as <- <-. unfold nearest_half in Hhalf.
  split; [done|]. split; [exact (halve_length _ _ Hhalf)|].
  exists (fun i => 2 * i), (fun i => 2 * i).
  split; [intros i Hi; cbn; lia|]. split; [intros i Hi; cbn; lia|].
  intros x y c Hx Hy Hc. cbn [info_channels] in *.
  destruct (halve_lookup
              (fun x y c => image !! raw32_index (2 * x) (2 * y) c)
              half x y c Hhalf Hx Hy Hc) as (value & Hvalue & Hsrc).
  unfold pixel_byte, raw32_decode, pixelIndex.
  cbn [px_width px_height px_channels px_data].
  assert ((2 * x <? 32) && (2 * y <? 32) && (c <? 3) = true) as ->.
  { rewrite !andb_true_iff, !Nat.ltb_lt. lia. }
  unfold raw32_index in Hsrc. rewrite Hvalue, Hsrc. split; [by eexists|done].
Qed.


(** In the same environment [generatePattFile] of part_001, which passes
    no kernel, writes means: on the checkerboard its first value is 127, a
    byte that no pixel of the image has, where [generateRealPattFile]
    writes the 0 of the pixel at the origin. *)
Lemma bordered_pattern_is_filtered :
  let path := "./public/markers/1-2.patt" in
  let bordered := Bordered.generatePattFile resampling_env checkerboard path
                    empty_world in
  let real := RealPatt.generateRealPattFile resampling_env checkerboard path
                empty_world in
  honours_nearest resampling_env raw32_decode
  ∧ fst bordered = Return tt
  ∧ fst real = Return tt
  ∧ (∃ grid, files (snd bordered) !! path = Some (render_grid grid)
             ∧ grid_value grid 0 0 0 = Some "127"%byte)
  ∧ (∃ grid, files (snd real) !! path = Some (render_grid grid)
             ∧ grid_value grid 0 0 0 = Some "000"%byte)
  ∧ Forall (fun value => value ≠ "127"%byte) checkerboard.
Proof.
  intros path bordered real.
  split; [exact resampling_env_honours_nearest|].
  split; [by vm_compute|]. split; [by vm_compute|]. split; [|split].
  - exists (default [] (pattern_grid (default [] (box_half checkerboard)) 3)).
    split; by vm_compute.
  - exists (default []
              (pattern_grid (default [] (nearest_half checkerboard)) 3)).
    split; by vm_compute.
  - apply Forall_fmap, Forall_forall. intros i _. unfold compose.
    by destruct (Nat.even _).
Qed.
